(** * dials scaling: the data manager of [data_manager_functions.py]

    A shallow embedding of [algorithms/scaling/data_manager_functions.py]
    (classes [Data_Manager], [aimless_Data_Manager], [XDS_Data_Manager] and
    the function [select_variables_in_range]) together with the fixture of
    [test_basis_and_target_function.py] that exercises the fixed-Ih target.

    Conventions.
    - A [flex.double] / [flex.int] / [flex.bool] array is a [list].
    - The element type of [flex.double] is kept abstract behind the class
      [Double]; it has two instances: IEEE binary64 ([float], what Python
      runs) and exact rationals ([Q], used where a statement needs the laws
      of an ordered field, which binary64 rounding does not have).
    - A [flex.reflection_table] is a finite map from column names to
      columns ([gmap string column]).
    - Python exceptions are values of [exception]; fallible code returns a
      [result]. *)

From Stdlib Require Import ZArith QArith Qround Floats Lia Lqa Bool.
From stdpp Require Import gmap strings list fin_maps sorting.

Set Warnings "-inexact-float".
Set Default Proof Using "Type".

(** ** Exceptions and results *)

Inductive exception : Type :=
| KeyError | ValueError | AttributeError | ZeroDivisionError
| IndexError | TypeError | UnboundLocalError | OverflowError | RuntimeError.

Inductive result (A : Type) : Type :=
| Ok (a : A)
| Raise (e : exception).
Arguments Ok {A} a.
Arguments Raise {A} e.

Definition rbind {A B} (r : result A) (k : A -> result B) : result B :=
  match r with
  | Ok a => k a
  | Raise e => Raise e
  end.

#[export] Instance result_bind : MBind result := fun A B k r => rbind r k.
#[export] Instance result_ret : MRet result := fun A a => Ok a.

Definition of_option {A} (e : exception) (o : option A) : result A :=
  match o with
  | Some a => Ok a
  | None => Raise e
  end.

(** ** The element type of [flex.double] and of Python floats *)

Class Double (D : Type) : Type := {
  dlit : Q -> D;                 (* a decimal literal, or float(n) *)
  dadd : D -> D -> D;
  dsub : D -> D -> D;
  dmul : D -> D -> D;
  ddiv : D -> D -> D;            (* array division: no exception *)
  dltb : D -> D -> bool;         (* x < y *)
  dleb : D -> D -> bool;         (* x <= y *)
  deqb : D -> D -> bool;         (* x == y *)
  dfloor1 : D -> D;              (* x // 1 *)
  dmod1 : D -> D;                (* x % 1 *)
  dint : D -> result Z           (* int(x) *)
}.

(** The functions of the math library that the code calls and that are
    not field operations: [x ** 0.5], [numpy.exp], [numpy.arccos], [math.pi]. *)
Class Libm (D : Type) : Type := {
  dsqrt : D -> D;
  dexp : D -> D;
  darccos : D -> D;
  dpi : D
}.

(** Python scalar division raises on a zero divisor. *)
Definition pydiv `{Double D} (x y : D) : result D :=
  if deqb y (dlit 0) then Raise ZeroDivisionError else Ok (ddiv x y).

(** [x ** 2] *)
Definition dsq `{Double D} (x : D) : D := dmul x x.

(** *** Exact rationals *)

Definition Qltb (x y : Q) : bool := negb (Qle_bool y x).

#[export] Instance Double_Q : Double Q := {|
  dlit := fun q => q;
  dadd := Qplus;
  dsub := Qminus;
  dmul := Qmult;
  ddiv := Qdiv;
  dltb := Qltb;
  dleb := Qle_bool;
  deqb := Qeq_bool;
  dfloor1 := fun x => inject_Z (Qfloor x);
  dmod1 := fun x => Qminus x (inject_Z (Qfloor x));
  dint := fun x => Ok (Z.quot (Qnum x) (Zpos (Qden x)))
|}.

(** *** IEEE binary64 *)

Module Binary64.

(** Integer part (towards zero) of a finite float. *)
Definition trunc_SF (s : spec_float) : option Z :=
  match s with
  | S754_zero _ => Some 0%Z
  | S754_finite sg m e =>
      let a := if (0 <=? e)%Z then Z.shiftl (Zpos m) e
               else Z.shiftr (Zpos m) (- e) in
      Some (if sg then (- a)%Z else a)
  | S754_infinity _ | S754_nan => None
  end.

(** Floor of a finite float. *)
Definition floor_SF (s : spec_float) : option Z :=
  match s with
  | S754_zero _ => Some 0%Z
  | S754_finite sg m e =>
      Some (if (0 <=? e)%Z
            then (if sg then - Z.shiftl (Zpos m) e else Z.shiftl (Zpos m) e)%Z
            else Z.shiftr (if sg then Zneg m else Zpos m) (- e))
  | S754_infinity _ | S754_nan => None
  end.

(** float(n), rounded to nearest. *)
Definition of_Z (z : Z) : float :=
  SF2Prim (binary_normalize prec emax z 0 false).

Definition lit (q : Q) : float :=
  PrimFloat.div (of_Z (Qnum q)) (of_Z (Zpos (Qden q))).

Definition floor1 (x : float) : float :=
  match floor_SF (Prim2SF x) with
  | Some z => if PrimFloat.eqb x (of_Z z) then x else of_Z z
  | None => PrimFloat.nan
  end.

(** Python's float [%] with divisor 1: [fmod], then the sign is fixed. *)
Definition mod1 (x : float) : float :=
  match trunc_SF (Prim2SF x) with
  | Some z =>
      let r := PrimFloat.sub x (of_Z z) in
      if PrimFloat.ltb r PrimFloat.zero then PrimFloat.add r PrimFloat.one
      else r
  | None => PrimFloat.nan
  end.

Definition int (x : float) : result Z :=
  match Prim2SF x with
  | S754_nan => Raise ValueError
  | S754_infinity _ => Raise OverflowError
  | s => of_option ValueError (trunc_SF s)
  end.

End Binary64.

#[export] Instance Double_float : Double float := {|
  dlit := Binary64.lit;
  dadd := PrimFloat.add;
  dsub := PrimFloat.sub;
  dmul := PrimFloat.mul;
  ddiv := PrimFloat.div;
  dltb := PrimFloat.ltb;
  dleb := PrimFloat.leb;
  deqb := PrimFloat.eqb;
  dfloor1 := Binary64.floor1;
  dmod1 := Binary64.mod1;
  dint := Binary64.int
|}.

(** The one law of the order that binning relies on; it holds for the
    rationals and, comparisons with NaN being false, for binary64. *)
Class DoubleOrder (D : Type) `{Double D} : Prop := {
  dle_le_lt_false :
    forall x y z : D, dleb x y = true -> dleb y z = true -> dltb z x = true -> False
}.

(** Python's builtin [max] and [min] over a flex array. *)
Definition pymax `{Double D} (l : list D) : result D :=
  match l with
  | [] => Raise ValueError
  | x :: l' => Ok (fold_left (fun m y => if dltb m y then y else m) l' x)
  end.

Definition pymin `{Double D} (l : list D) : result D :=
  match l with
  | [] => Raise ValueError
  | x :: l' => Ok (fold_left (fun m y => if dltb y m then y else m) l' x)
  end.

(** ** [select_variables_in_range] *)

Section SelectVariables.
Context {D : Type} `{HD : Double D}.

Definition in_range (lower_limit upper_limit variable : D) : bool :=
  dltb lower_limit variable && dleb variable upper_limit.

Definition select_variables_in_range
    (variable_array : list D) (lower_limit upper_limit : D) : list bool :=
  fold_left
    (fun sel variable =>
       if in_range lower_limit upper_limit variable
       then sel ++ [true]
       else sel ++ [false])
    variable_array [].

End SelectVariables.

(** Bin boundaries in non-decreasing order. *)
Definition increasing `{Double D} (bins : list D) : Prop :=
  forall (a b : nat) (x y : D),
    a <= b -> bins !! a = Some x -> bins !! b = Some y -> dleb x y = true.

(** ** Flex arrays

    Modelled from the spec: [dials.array_family.flex] is not part of the
    sources at hand. "Reflection Table: an ordered, column-oriented record
    set of observations; all other components read/write named columns."
    Arrays are lists; an elementwise operation on two arrays of different
    sizes raises. *)

Definition flex_zip {A B C} (f : A -> B -> C) (a : list A) (b : list B)
  : result (list C) :=
  if length a =? length b then Ok (zip_with f a b) else Raise RuntimeError.

(** [array.set_selected(flags, value)] *)
Definition set_selected {A} (array : list A) (flags : list bool) (value : A)
  : result (list A) :=
  flex_zip (fun a (f : bool) => if f then value else a) array flags.

(** [array.select(flags)] *)
Fixpoint select_flags {A} (array : list A) (flags : list bool) : list A :=
  match array, flags with
  | a :: array', f :: flags' =>
      if f then a :: select_flags array' flags' else select_flags array' flags'
  | _, _ => []
  end.

Inductive column (D : Type) : Type :=
| flex_double (l : list D)
| flex_int (l : list Z)
| flex_bool (l : list bool)
| flex_size_t (l : list Z)
| flex_miller_index (l : list (Z * Z * Z))
| flex_vec3_double (l : list (D * D * D)).
Arguments flex_double {D} _.
Arguments flex_int {D} _.
Arguments flex_bool {D} _.
Arguments flex_size_t {D} _.
Arguments flex_miller_index {D} _.
Arguments flex_vec3_double {D} _.

Definition col_size {D} (c : column D) : nat :=
  match c with
  | flex_double l => length l
  | flex_int l => length l
  | flex_bool l => length l
  | flex_size_t l => length l
  | flex_miller_index l => length l
  | flex_vec3_double l => length l
  end.

Definition col_select_flags {D} (c : column D) (flags : list bool) : column D :=
  match c with
  | flex_double l => flex_double (select_flags l flags)
  | flex_int l => flex_int (select_flags l flags)
  | flex_bool l => flex_bool (select_flags l flags)
  | flex_size_t l => flex_size_t (select_flags l flags)
  | flex_miller_index l => flex_miller_index (select_flags l flags)
  | flex_vec3_double l => flex_vec3_double (select_flags l flags)
  end.

(** Picks the entries at the given positions; a position past the end is
    skipped (the table-level [select] checks the positions first). *)
Definition pick {A} (array : list A) (permutation : list nat) : list A :=
  omap (fun i => array !! i) permutation.

Definition col_pick {D} (c : column D) (permutation : list nat) : column D :=
  match c with
  | flex_double l => flex_double (pick l permutation)
  | flex_int l => flex_int (pick l permutation)
  | flex_bool l => flex_bool (pick l permutation)
  | flex_size_t l => flex_size_t (pick l permutation)
  | flex_miller_index l => flex_miller_index (pick l permutation)
  | flex_vec3_double l => flex_vec3_double (pick l permutation)
  end.

(** ** Reflection tables *)

Record flex_reflection_table (D : Type) : Type := mk_table {
  nrows : nat;
  columns : gmap string (column D)
}.
Arguments mk_table {D} nrows columns.
Arguments nrows {D} _.
Arguments columns {D} _.

Section ReflectionTable.
Context {D : Type}.

(** [table.keys()] *)
Definition keys (t : flex_reflection_table D) : list string :=
  (map_to_list (columns t)).*1.

(** [table[key]] *)
Definition getitem (t : flex_reflection_table D) (key : string) : result (column D) :=
  of_option KeyError (columns t !! key).

Definition get_double (t : flex_reflection_table D) (key : string) : result (list D) :=
  c ← getitem t key;
  match c with flex_double l => Ok l | _ => Raise TypeError end.

Definition get_bool (t : flex_reflection_table D) (key : string) : result (list bool) :=
  c ← getitem t key;
  match c with flex_bool l => Ok l | _ => Raise TypeError end.

Definition get_size_t (t : flex_reflection_table D) (key : string) : result (list Z) :=
  c ← getitem t key;
  match c with flex_size_t l => Ok l | _ => Raise TypeError end.

Definition get_miller_index (t : flex_reflection_table D) (key : string)
  : result (list (Z * Z * Z)) :=
  c ← getitem t key;
  match c with flex_miller_index l => Ok l | _ => Raise TypeError end.

Definition get_vec3_double (t : flex_reflection_table D) (key : string)
  : result (list (D * D * D)) :=
  c ← getitem t key;
  match c with flex_vec3_double l => Ok l | _ => Raise TypeError end.

(** [table[key] = column]: the column must have as many entries as the
    table has rows. *)
Definition setitem (t : flex_reflection_table D) (key : string) (c : column D)
  : result (flex_reflection_table D) :=
  if col_size c =? nrows t
  then Ok (mk_table (nrows t) (<[key := c]> (columns t)))
  else Raise RuntimeError.

(** [del table[key]]: erases the column; erasing an absent column does
    nothing. *)
Definition delitem (t : flex_reflection_table D) (key : string) : flex_reflection_table D :=
  mk_table (nrows t) (delete key (columns t)).

(** [table.select(flags)] with a [flex.bool]. *)
Definition select (t : flex_reflection_table D) (flags : list bool)
  : result (flex_reflection_table D) :=
  if length flags =? nrows t
  then Ok (mk_table (length (filter (fun b => b = true) flags))
             ((fun c => col_select_flags c flags) <$> columns t))
  else Raise RuntimeError.

(** [table.select(permutation)] with a [flex.size_t]. *)
Definition select_permutation (t : flex_reflection_table D) (permutation : list nat)
  : result (flex_reflection_table D) :=
  if forallb (fun i => i <? nrows t) permutation
  then Ok (mk_table (length permutation)
             ((fun c => col_pick c permutation) <$> columns t))
  else Raise IndexError.

(** The reflection flags, as bits of the ['flags'] column. *)
Definition get_flags (t : flex_reflection_table D) (flag : Z) : result (list bool) :=
  fl ← get_size_t t "flags";
  Ok (map (fun f => Z.land f flag =? flag)%Z fl).

End ReflectionTable.

(** ** Python values, options and experiments *)

Inductive pyval (D : Type) : Type :=
| PyNone
| PyInt (n : Z)
| PyFloat (x : D)
| PyStr (s : string).
Arguments PyNone {D}.
Arguments PyInt {D} _.
Arguments PyFloat {D} _.
Arguments PyStr {D} _.

Definition miller_index : Type := (Z * Z * Z)%type.

(** What the code reads from the experiment list: the unit cell and space
    group of the first crystal, the oscillation range and the oscillation
    of the first scan, the image size of the first panel. *)
Record ExperimentList (D : Type) : Type := mk_ExperimentList {
  unit_cell : list D;
  space_group : string;
  oscillation_range : D * D;
  oscillation : D * D;
  image_size : Z * Z
}.
Arguments mk_ExperimentList {D}.
Arguments unit_cell {D} _.
Arguments space_group {D} _.
Arguments oscillation_range {D} _.
Arguments oscillation {D} _.
Arguments image_size {D} _.

Section Options.
Context {D : Type} `{HD : Double D}.

(** [options[key]] *)
Definition opt_get (options : gmap string (pyval D)) (key : string)
  : result (pyval D) :=
  of_option KeyError (options !! key).

(** [options[key] == 'name'] *)
Definition opt_is (options : gmap string (pyval D)) (key name : string)
  : result bool :=
  v ← opt_get options key;
  Ok (match v with PyStr s => bool_decide (s = name) | _ => false end).

(** A number read from the options and used in float arithmetic. *)
Definition as_float (v : pyval D) : result D :=
  match v with
  | PyFloat x => Ok x
  | PyInt n => Ok (dlit (inject_Z n))
  | _ => Raise TypeError
  end.

Definition as_int (v : pyval D) : result Z :=
  match v with
  | PyInt n => Ok n
  | _ => Raise TypeError
  end.

End Options.

(** ** Scale-factor components

    Modelled from the spec: module [scale_factor] ([SF]) is not part of the
    sources at hand. "Scale-Factor Component: owns a grid of parameter
    values (1 per grid node) plus normalized coordinate assignment per
    reflection"; "[calculate_smooth_scales()] returns, per observation, a
    value interpolated from the nearest grid nodes". The interpolation
    itself is the parameter [smooth_scales]. *)

Inductive sf_kind : Type :=
| ScaleFactor_plain
| SmoothScaleFactor_1D
| SmoothScaleFactor_2D
| SmoothScaleFactor_GridAbsorption.

Record ScaleFactor (D : Type) : Type := mk_sf {
  sf_class : sf_kind;
  n_parameters : list Z;            (* grid nodes per axis *)
  scale_factors : list D;           (* one parameter per grid node *)
  normalised_values : list (list D);(* one coordinate array per axis *)
  scales : list D                   (* the value per reflection *)
}.
Arguments mk_sf {D}.
Arguments sf_class {D} _.
Arguments n_parameters {D} _.
Arguments scale_factors {D} _.
Arguments normalised_values {D} _.
Arguments scales {D} _.

(** ** Collaborators outside the sources at hand: cctbx symmetry, the
    Wilson outlier test, grid interpolation and its derivatives. *)
Class Collaborators (D : Type) : Type := {
  map_to_asu : list D -> string -> list miller_index -> list miller_index;
  sort_permutation : list miller_index -> list nat;
  calculate_wilson_outliers :
    flex_reflection_table D -> ExperimentList D -> result (list bool * flex_reflection_table D);
  smooth_scales : sf_kind -> list Z -> list D -> list (list D) -> list D;
  smooth_derivatives : sf_kind -> list Z -> list D -> list (list D) -> list (list D)
}.

Section ScaleFactorMethods.
Context {D : Type} `{HD : Double D} `{HC : Collaborators D}.

Definition new_ScaleFactor (kind : sf_kind) (initial_value : D) (n : list Z)
  : ScaleFactor D :=
  mk_sf kind n (replicate (Z.to_nat (foldr Z.mul 1%Z n)) initial_value) [] [].

Definition set_normalised_values (sf : ScaleFactor D) (values : list (list D))
  : ScaleFactor D :=
  mk_sf (sf_class sf) (n_parameters sf) (scale_factors sf) values
    (replicate (length (hd [] values)) (dlit 1)).

Definition set_scale_factors (sf : ScaleFactor D) (parameters : list D)
  : ScaleFactor D :=
  mk_sf (sf_class sf) (n_parameters sf) parameters (normalised_values sf)
    (scales sf).

(** Returns the component with its per-reflection values refreshed, and
    those values. *)
Definition calculate_smooth_scales (sf : ScaleFactor D)
  : ScaleFactor D * list D :=
  let v := smooth_scales (sf_class sf) (n_parameters sf) (scale_factors sf)
             (normalised_values sf) in
  (mk_sf (sf_class sf) (n_parameters sf) (scale_factors sf)
     (normalised_values sf) v, v).

Definition get_scale_factors (sf : ScaleFactor D) : list D := scale_factors sf.

Definition get_scales_of_reflections (sf : ScaleFactor D) : list D := scales sf.

Definition get_derivatives (sf : ScaleFactor D) : list (list D) :=
  smooth_derivatives (sf_class sf) (n_parameters sf) (scale_factors sf)
    (normalised_values sf).

End ScaleFactorMethods.

(** ** Weighting

    Modelled from the spec: class [Weighting] of module
    [reflection_weighting] is not part of the sources at hand. "Sets
    weight=0 (excluded) when: I/σ(I) < Isigma_min, resolution d < d_min, or
    the observation is flagged a Wilson-outlier ... All other weights
    default to 1/variance"; "Side effect: none". *)

Section Weighting.
Context {D : Type} `{HD : Double D} `{HL : Libm D}.

Definition Weighting (t : flex_reflection_table D) : result (list D) :=
  variance ← get_double t "variance";
  Ok (map (fun v => ddiv (dlit 1) v) variance).

Definition apply_Isigma_cutoff (w : list D) (t : flex_reflection_table D)
    (Isigma_min : D) : result (list D) :=
  intensity ← get_double t "intensity";
  variance ← get_double t "variance";
  sel ← flex_zip (fun i v => dltb (ddiv i (dsqrt v)) Isigma_min)
          intensity variance;
  set_selected w sel (dlit 0).

Definition apply_dmin_cutoff (w : list D) (t : flex_reflection_table D) (d_min : D)
  : result (list D) :=
  d ← get_double t "d";
  set_selected w (map (fun x => dltb x d_min) d) (dlit 0).

Definition remove_wilson_outliers (w : list D) (t : flex_reflection_table D)
  : result (list D) :=
  match columns t !! "wilson_outlier_flag" with
  | None => Ok w
  | Some (flex_bool sel) => set_selected w sel (dlit 0)
  | Some _ => Raise TypeError
  end.

End Weighting.

(** ** The Ih table

    Modelled from the spec: class [single_Ih_table] of module [target_Ih]
    is not part of the sources at hand. "grouping is computed by detecting
    boundaries where the asu miller index changes between adjacent rows";
    "For each group: Ih = Σ(scale·I·w) / Σ(scale²·w), with zero-weight-sum
    groups assigned Ih=0 ... Ih is broadcast to all member rows." The
    methods follow the retired [assign_h_index] and [calc_Ih] that
    [data_manager_functions.py] keeps as string literals. *)

Record single_Ih_table (D : Type) : Type := mk_Ih_table {
  Ih_asu_miller_index : list miller_index;
  Ih_intensity : list D;
  Ih_weights : list D;
  Ih_inverse_scale_factor : list D;
  Ih_values : list D;
  Ih_h_index_counter_array : list nat;
  Ih_h_index_cumulative_array : list nat
}.
Arguments mk_Ih_table {D}.
Arguments Ih_asu_miller_index {D} _.
Arguments Ih_intensity {D} _.
Arguments Ih_weights {D} _.
Arguments Ih_inverse_scale_factor {D} _.
Arguments Ih_values {D} _.
Arguments Ih_h_index_counter_array {D} _.
Arguments Ih_h_index_cumulative_array {D} _.

(** The sizes of the runs of equal adjacent indices. *)
Fixpoint h_index_counter (previous : miller_index) (counter : nat)
    (rest : list miller_index) : list nat :=
  match rest with
  | [] => [counter]
  | m :: rest' =>
      if decide (m = previous) then h_index_counter m (S counter) rest'
      else counter :: h_index_counter m 1 rest'
  end.

Fixpoint cumulative (hsum : nat) (counts : list nat) : list nat :=
  match counts with
  | [] => []
  | n :: counts' => (hsum + n) :: cumulative (hsum + n) counts'
  end.

Definition assign_h_index (asu : list miller_index) : list nat * list nat :=
  let counts :=
    match asu with
    | [] => [1]
    | m :: rest => h_index_counter m 1 rest
    end in
  (counts, 0 :: cumulative 0 counts).

Section IhTable.
Context {D : Type} `{HD : Double D}.

(** [numpy.add.reduceat] over the groups: the sum of each run. *)
Fixpoint reduceat (counts : list nat) (a : list D) : list D :=
  match counts with
  | [] => []
  | n :: counts' =>
      match take n a with
      | [] => dlit 0
      | x :: xs => fold_left dadd xs x
      end :: reduceat counts' (drop n a)
  end.

(** [numpy.repeat] *)
Fixpoint repeat_each (values : list D) (counts : list nat) : list D :=
  match values, counts with
  | v :: values', n :: counts' => replicate n v ++ repeat_each values' counts'
  | _, _ => []
  end.

Fixpoint calc_Ih_array (sumgI sumgsq sumweights : list D) : result (list D) :=
  match sumgI, sumgsq, sumweights with
  | val :: sumgI', gsq :: sumgsq', w :: sumweights' =>
      ih ← (if dltb (dlit 0) w then pydiv val gsq else Ok (dlit 0));
      rest ← calc_Ih_array sumgI' sumgsq' sumweights';
      Ok (ih :: rest)
  | _, _, _ => Ok []
  end.

Definition calc_Ih (T : single_Ih_table D) : result (single_Ih_table D) :=
  let scale_factors := Ih_inverse_scale_factor T in
  gsq ← flex_zip dmul (map dsq scale_factors) (Ih_weights T);
  let sumgsq := reduceat (Ih_h_index_counter_array T) gsq in
  gI0 ← flex_zip dmul scale_factors (Ih_intensity T);
  gI ← flex_zip dmul gI0 (Ih_weights T);
  let sumgI := reduceat (Ih_h_index_counter_array T) gI in
  let sumweights := reduceat (Ih_h_index_counter_array T) (Ih_weights T) in
  arr ← calc_Ih_array sumgI sumgsq sumweights;
  Ok (mk_Ih_table (Ih_asu_miller_index T) (Ih_intensity T) (Ih_weights T)
        scale_factors (repeat_each arr (Ih_h_index_counter_array T))
        (Ih_h_index_counter_array T) (Ih_h_index_cumulative_array T)).

Definition update_scale_factors (T : single_Ih_table D) (scalefactors : list D)
  : single_Ih_table D :=
  mk_Ih_table (Ih_asu_miller_index T) (Ih_intensity T) (Ih_weights T)
    scalefactors (Ih_values T)
    (Ih_h_index_counter_array T) (Ih_h_index_cumulative_array T).

(** [single_Ih_table(reflection_table, weights)] *)
Definition new_single_Ih_table (t : flex_reflection_table D) (weights : list D)
  : result (single_Ih_table D) :=
  asu ← get_miller_index t "asu_miller_index";
  intensity ← get_double t "intensity";
  isf ← get_double t "inverse_scale_factor";
  Ih ← get_double t "Ih_values";
  let '(counter, cumul) := assign_h_index asu in
  Ok (mk_Ih_table asu intensity weights isf Ih counter cumul).

End IhTable.

(** ** The data manager

    One record holds the attributes of a [Data_Manager] object of either
    subclass; [cls] says which. An attribute that holds [None], or that no
    code has assigned yet, is [None] here. The scale-factor components are
    objects shared between [self.g_*] and the [g_parameterisation]
    dictionary: they live in the store [components] and are referred to by
    position. The counters [n_g_scale_params], [n_g_decay_params] and the
    attributes [Ih_array], [sorted_by_miller_index], which no live code
    reads, are left out. *)

Inductive dm_class : Type := aimless_Data_Manager | XDS_Data_Manager.

Record Data_Manager (D : Type) : Type := mk_Data_Manager {
  cls : dm_class;
  experiments : ExperimentList D;
  reflection_table : flex_reflection_table D;
  initial_keys : list string;
  sorted_reflections : option (flex_reflection_table D);
  reflections_for_scaling : option (flex_reflection_table D);
  scaling_options : gmap string (pyval D);
  weights_for_scaling : option (list D);
  binning_parameters : gmap string (pyval D);
  components : list (ScaleFactor D);
  g_absorption : option nat;
  g_modulation : option nat;
  g_decay : option nat;
  g_scale : option nat;
  g_parameterisation : option (list (string * nat));
  active_parameterisation : option string;
  n_active_params : option Z;
  constant_g_values : option (list D);
  active_parameters : list D;
  Ih_table : option (single_Ih_table D);
  active_derivatives : option (list (list D));
  bin_boundaries : option (gmap string (list D));
  n_absorption_bins : option Z;
  h_index_counter_array : option (list nat);
  h_index_cumulative_array : option (list nat)
}.
Arguments mk_Data_Manager {D}.
Arguments cls {D} _.
Arguments experiments {D} _.
Arguments reflection_table {D} _.
Arguments initial_keys {D} _.
Arguments sorted_reflections {D} _.
Arguments reflections_for_scaling {D} _.
Arguments scaling_options {D} _.
Arguments weights_for_scaling {D} _.
Arguments binning_parameters {D} _.
Arguments components {D} _.
Arguments g_absorption {D} _.
Arguments g_modulation {D} _.
Arguments g_decay {D} _.
Arguments g_scale {D} _.
Arguments g_parameterisation {D} _.
Arguments active_parameterisation {D} _.
Arguments n_active_params {D} _.
Arguments constant_g_values {D} _.
Arguments active_parameters {D} _.
Arguments Ih_table {D} _.
Arguments active_derivatives {D} _.
Arguments bin_boundaries {D} _.
Arguments n_absorption_bins {D} _.
Arguments h_index_counter_array {D} _.
Arguments h_index_cumulative_array {D} _.

Section Setters.
Context {D : Type}.

Definition set_cls (self : Data_Manager D) (v : dm_class)
  : Data_Manager D :=
  mk_Data_Manager
    (v) (experiments self) (reflection_table self) (initial_keys self)
    (sorted_reflections self) (reflections_for_scaling self)
    (scaling_options self) (weights_for_scaling self)
    (binning_parameters self) (components self) (g_absorption self)
    (g_modulation self) (g_decay self) (g_scale self)
    (g_parameterisation self) (active_parameterisation self)
    (n_active_params self) (constant_g_values self) (active_parameters self)
    (Ih_table self) (active_derivatives self) (bin_boundaries self)
    (n_absorption_bins self) (h_index_counter_array self)
    (h_index_cumulative_array self).

Definition set_experiments (self : Data_Manager D) (v : ExperimentList D)
  : Data_Manager D :=
  mk_Data_Manager
    (cls self) (v) (reflection_table self) (initial_keys self)
    (sorted_reflections self) (reflections_for_scaling self)
    (scaling_options self) (weights_for_scaling self)
    (binning_parameters self) (components self) (g_absorption self)
    (g_modulation self) (g_decay self) (g_scale self)
    (g_parameterisation self) (active_parameterisation self)
    (n_active_params self) (constant_g_values self) (active_parameters self)
    (Ih_table self) (active_derivatives self) (bin_boundaries self)
    (n_absorption_bins self) (h_index_counter_array self)
    (h_index_cumulative_array self).

Definition set_reflection_table (self : Data_Manager D) (v : flex_reflection_table D)
  : Data_Manager D :=
  mk_Data_Manager
    (cls self) (experiments self) (v) (initial_keys self)
    (sorted_reflections self) (reflections_for_scaling self)
    (scaling_options self) (weights_for_scaling self)
    (binning_parameters self) (components self) (g_absorption self)
    (g_modulation self) (g_decay self) (g_scale self)
    (g_parameterisation self) (active_parameterisation self)
    (n_active_params self) (constant_g_values self) (active_parameters self)
    (Ih_table self) (active_derivatives self) (bin_boundaries self)
    (n_absorption_bins self) (h_index_counter_array self)
    (h_index_cumulative_array self).

Definition set_initial_keys (self : Data_Manager D) (v : list string)
  : Data_Manager D :=
  mk_Data_Manager
    (cls self) (experiments self) (reflection_table self) (v)
    (sorted_reflections self) (reflections_for_scaling self)
    (scaling_options self) (weights_for_scaling self)
    (binning_parameters self) (components self) (g_absorption self)
    (g_modulation self) (g_decay self) (g_scale self)
    (g_parameterisation self) (active_parameterisation self)
    (n_active_params self) (constant_g_values self) (active_parameters self)
    (Ih_table self) (active_derivatives self) (bin_boundaries self)
    (n_absorption_bins self) (h_index_counter_array self)
    (h_index_cumulative_array self).

Definition set_sorted_reflections (self : Data_Manager D) (v : option (flex_reflection_table D))
  : Data_Manager D :=
  mk_Data_Manager
    (cls self) (experiments self) (reflection_table self)
    (initial_keys self) (v) (reflections_for_scaling self)
    (scaling_options self) (weights_for_scaling self)
    (binning_parameters self) (components self) (g_absorption self)
    (g_modulation self) (g_decay self) (g_scale self)
    (g_parameterisation self) (active_parameterisation self)
    (n_active_params self) (constant_g_values self) (active_parameters self)
    (Ih_table self) (active_derivatives self) (bin_boundaries self)
    (n_absorption_bins self) (h_index_counter_array self)
    (h_index_cumulative_array self).

Definition set_reflections_for_scaling (self : Data_Manager D) (v : option (flex_reflection_table D))
  : Data_Manager D :=
  mk_Data_Manager
    (cls self) (experiments self) (reflection_table self)
    (initial_keys self) (sorted_reflections self) (v) (scaling_options self)
    (weights_for_scaling self) (binning_parameters self) (components self)
    (g_absorption self) (g_modulation self) (g_decay self) (g_scale self)
    (g_parameterisation self) (active_parameterisation self)
    (n_active_params self) (constant_g_values self) (active_parameters self)
    (Ih_table self) (active_derivatives self) (bin_boundaries self)
    (n_absorption_bins self) (h_index_counter_array self)
    (h_index_cumulative_array self).

Definition set_scaling_options (self : Data_Manager D) (v : gmap string (pyval D))
  : Data_Manager D :=
  mk_Data_Manager
    (cls self) (experiments self) (reflection_table self)
    (initial_keys self) (sorted_reflections self)
    (reflections_for_scaling self) (v) (weights_for_scaling self)
    (binning_parameters self) (components self) (g_absorption self)
    (g_modulation self) (g_decay self) (g_scale self)
    (g_parameterisation self) (active_parameterisation self)
    (n_active_params self) (constant_g_values self) (active_parameters self)
    (Ih_table self) (active_derivatives self) (bin_boundaries self)
    (n_absorption_bins self) (h_index_counter_array self)
    (h_index_cumulative_array self).

Definition set_weights_for_scaling (self : Data_Manager D) (v : option (list D))
  : Data_Manager D :=
  mk_Data_Manager
    (cls self) (experiments self) (reflection_table self)
    (initial_keys self) (sorted_reflections self)
    (reflections_for_scaling self) (scaling_options self) (v)
    (binning_parameters self) (components self) (g_absorption self)
    (g_modulation self) (g_decay self) (g_scale self)
    (g_parameterisation self) (active_parameterisation self)
    (n_active_params self) (constant_g_values self) (active_parameters self)
    (Ih_table self) (active_derivatives self) (bin_boundaries self)
    (n_absorption_bins self) (h_index_counter_array self)
    (h_index_cumulative_array self).

Definition set_binning_parameters (self : Data_Manager D) (v : gmap string (pyval D))
  : Data_Manager D :=
  mk_Data_Manager
    (cls self) (experiments self) (reflection_table self)
    (initial_keys self) (sorted_reflections self)
    (reflections_for_scaling self) (scaling_options self)
    (weights_for_scaling self) (v) (components self) (g_absorption self)
    (g_modulation self) (g_decay self) (g_scale self)
    (g_parameterisation self) (active_parameterisation self)
    (n_active_params self) (constant_g_values self) (active_parameters self)
    (Ih_table self) (active_derivatives self) (bin_boundaries self)
    (n_absorption_bins self) (h_index_counter_array self)
    (h_index_cumulative_array self).

Definition set_components (self : Data_Manager D) (v : list (ScaleFactor D))
  : Data_Manager D :=
  mk_Data_Manager
    (cls self) (experiments self) (reflection_table self)
    (initial_keys self) (sorted_reflections self)
    (reflections_for_scaling self) (scaling_options self)
    (weights_for_scaling self) (binning_parameters self) (v)
    (g_absorption self) (g_modulation self) (g_decay self) (g_scale self)
    (g_parameterisation self) (active_parameterisation self)
    (n_active_params self) (constant_g_values self) (active_parameters self)
    (Ih_table self) (active_derivatives self) (bin_boundaries self)
    (n_absorption_bins self) (h_index_counter_array self)
    (h_index_cumulative_array self).

Definition set_g_absorption (self : Data_Manager D) (v : option nat)
  : Data_Manager D :=
  mk_Data_Manager
    (cls self) (experiments self) (reflection_table self)
    (initial_keys self) (sorted_reflections self)
    (reflections_for_scaling self) (scaling_options self)
    (weights_for_scaling self) (binning_parameters self) (components self)
    (v) (g_modulation self) (g_decay self) (g_scale self)
    (g_parameterisation self) (active_parameterisation self)
    (n_active_params self) (constant_g_values self) (active_parameters self)
    (Ih_table self) (active_derivatives self) (bin_boundaries self)
    (n_absorption_bins self) (h_index_counter_array self)
    (h_index_cumulative_array self).

Definition set_g_modulation (self : Data_Manager D) (v : option nat)
  : Data_Manager D :=
  mk_Data_Manager
    (cls self) (experiments self) (reflection_table self)
    (initial_keys self) (sorted_reflections self)
    (reflections_for_scaling self) (scaling_options self)
    (weights_for_scaling self) (binning_parameters self) (components self)
    (g_absorption self) (v) (g_decay self) (g_scale self)
    (g_parameterisation self) (active_parameterisation self)
    (n_active_params self) (constant_g_values self) (active_parameters self)
    (Ih_table self) (active_derivatives self) (bin_boundaries self)
    (n_absorption_bins self) (h_index_counter_array self)
    (h_index_cumulative_array self).

Definition set_g_decay (self : Data_Manager D) (v : option nat)
  : Data_Manager D :=
  mk_Data_Manager
    (cls self) (experiments self) (reflection_table self)
    (initial_keys self) (sorted_reflections self)
    (reflections_for_scaling self) (scaling_options self)
    (weights_for_scaling self) (binning_parameters self) (components self)
    (g_absorption self) (g_modulation self) (v) (g_scale self)
    (g_parameterisation self) (active_parameterisation self)
    (n_active_params self) (constant_g_values self) (active_parameters self)
    (Ih_table self) (active_derivatives self) (bin_boundaries self)
    (n_absorption_bins self) (h_index_counter_array self)
    (h_index_cumulative_array self).

Definition set_g_scale (self : Data_Manager D) (v : option nat)
  : Data_Manager D :=
  mk_Data_Manager
    (cls self) (experiments self) (reflection_table self)
    (initial_keys self) (sorted_reflections self)
    (reflections_for_scaling self) (scaling_options self)
    (weights_for_scaling self) (binning_parameters self) (components self)
    (g_absorption self) (g_modulation self) (g_decay self) (v)
    (g_parameterisation self) (active_parameterisation self)
    (n_active_params self) (constant_g_values self) (active_parameters self)
    (Ih_table self) (active_derivatives self) (bin_boundaries self)
    (n_absorption_bins self) (h_index_counter_array self)
    (h_index_cumulative_array self).

Definition set_g_parameterisation (self : Data_Manager D) (v : option (list (string * nat)))
  : Data_Manager D :=
  mk_Data_Manager
    (cls self) (experiments self) (reflection_table self)
    (initial_keys self) (sorted_reflections self)
    (reflections_for_scaling self) (scaling_options self)
    (weights_for_scaling self) (binning_parameters self) (components self)
    (g_absorption self) (g_modulation self) (g_decay self) (g_scale self)
    (v) (active_parameterisation self) (n_active_params self)
    (constant_g_values self) (active_parameters self) (Ih_table self)
    (active_derivatives self) (bin_boundaries self) (n_absorption_bins self)
    (h_index_counter_array self) (h_index_cumulative_array self).

Definition set_active_parameterisation (self : Data_Manager D) (v : option string)
  : Data_Manager D :=
  mk_Data_Manager
    (cls self) (experiments self) (reflection_table self)
    (initial_keys self) (sorted_reflections self)
    (reflections_for_scaling self) (scaling_options self)
    (weights_for_scaling self) (binning_parameters self) (components self)
    (g_absorption self) (g_modulation self) (g_decay self) (g_scale self)
    (g_parameterisation self) (v) (n_active_params self)
    (constant_g_values self) (active_parameters self) (Ih_table self)
    (active_derivatives self) (bin_boundaries self) (n_absorption_bins self)
    (h_index_counter_array self) (h_index_cumulative_array self).

Definition set_n_active_params (self : Data_Manager D) (v : option Z)
  : Data_Manager D :=
  mk_Data_Manager
    (cls self) (experiments self) (reflection_table self)
    (initial_keys self) (sorted_reflections self)
    (reflections_for_scaling self) (scaling_options self)
    (weights_for_scaling self) (binning_parameters self) (components self)
    (g_absorption self) (g_modulation self) (g_decay self) (g_scale self)
    (g_parameterisation self) (active_parameterisation self) (v)
    (constant_g_values self) (active_parameters self) (Ih_table self)
    (active_derivatives self) (bin_boundaries self) (n_absorption_bins self)
    (h_index_counter_array self) (h_index_cumulative_array self).

Definition set_constant_g_values (self : Data_Manager D) (v : option (list D))
  : Data_Manager D :=
  mk_Data_Manager
    (cls self) (experiments self) (reflection_table self)
    (initial_keys self) (sorted_reflections self)
    (reflections_for_scaling self) (scaling_options self)
    (weights_for_scaling self) (binning_parameters self) (components self)
    (g_absorption self) (g_modulation self) (g_decay self) (g_scale self)
    (g_parameterisation self) (active_parameterisation self)
    (n_active_params self) (v) (active_parameters self) (Ih_table self)
    (active_derivatives self) (bin_boundaries self) (n_absorption_bins self)
    (h_index_counter_array self) (h_index_cumulative_array self).

Definition set_active_parameters (self : Data_Manager D) (v : list D)
  : Data_Manager D :=
  mk_Data_Manager
    (cls self) (experiments self) (reflection_table self)
    (initial_keys self) (sorted_reflections self)
    (reflections_for_scaling self) (scaling_options self)
    (weights_for_scaling self) (binning_parameters self) (components self)
    (g_absorption self) (g_modulation self) (g_decay self) (g_scale self)
    (g_parameterisation self) (active_parameterisation self)
    (n_active_params self) (constant_g_values self) (v) (Ih_table self)
    (active_derivatives self) (bin_boundaries self) (n_absorption_bins self)
    (h_index_counter_array self) (h_index_cumulative_array self).

Definition set_Ih_table (self : Data_Manager D) (v : option (single_Ih_table D))
  : Data_Manager D :=
  mk_Data_Manager
    (cls self) (experiments self) (reflection_table self)
    (initial_keys self) (sorted_reflections self)
    (reflections_for_scaling self) (scaling_options self)
    (weights_for_scaling self) (binning_parameters self) (components self)
    (g_absorption self) (g_modulation self) (g_decay self) (g_scale self)
    (g_parameterisation self) (active_parameterisation self)
    (n_active_params self) (constant_g_values self) (active_parameters self)
    (v) (active_derivatives self) (bin_boundaries self)
    (n_absorption_bins self) (h_index_counter_array self)
    (h_index_cumulative_array self).

Definition set_active_derivatives (self : Data_Manager D) (v : option (list (list D)))
  : Data_Manager D :=
  mk_Data_Manager
    (cls self) (experiments self) (reflection_table self)
    (initial_keys self) (sorted_reflections self)
    (reflections_for_scaling self) (scaling_options self)
    (weights_for_scaling self) (binning_parameters self) (components self)
    (g_absorption self) (g_modulation self) (g_decay self) (g_scale self)
    (g_parameterisation self) (active_parameterisation self)
    (n_active_params self) (constant_g_values self) (active_parameters self)
    (Ih_table self) (v) (bin_boundaries self) (n_absorption_bins self)
    (h_index_counter_array self) (h_index_cumulative_array self).

Definition set_bin_boundaries (self : Data_Manager D) (v : option (gmap string (list D)))
  : Data_Manager D :=
  mk_Data_Manager
    (cls self) (experiments self) (reflection_table self)
    (initial_keys self) (sorted_reflections self)
    (reflections_for_scaling self) (scaling_options self)
    (weights_for_scaling self) (binning_parameters self) (components self)
    (g_absorption self) (g_modulation self) (g_decay self) (g_scale self)
    (g_parameterisation self) (active_parameterisation self)
    (n_active_params self) (constant_g_values self) (active_parameters self)
    (Ih_table self) (active_derivatives self) (v) (n_absorption_bins self)
    (h_index_counter_array self) (h_index_cumulative_array self).

Definition set_n_absorption_bins (self : Data_Manager D) (v : option Z)
  : Data_Manager D :=
  mk_Data_Manager
    (cls self) (experiments self) (reflection_table self)
    (initial_keys self) (sorted_reflections self)
    (reflections_for_scaling self) (scaling_options self)
    (weights_for_scaling self) (binning_parameters self) (components self)
    (g_absorption self) (g_modulation self) (g_decay self) (g_scale self)
    (g_parameterisation self) (active_parameterisation self)
    (n_active_params self) (constant_g_values self) (active_parameters self)
    (Ih_table self) (active_derivatives self) (bin_boundaries self) (v)
    (h_index_counter_array self) (h_index_cumulative_array self).

Definition set_h_index_counter_array (self : Data_Manager D) (v : option (list nat))
  : Data_Manager D :=
  mk_Data_Manager
    (cls self) (experiments self) (reflection_table self)
    (initial_keys self) (sorted_reflections self)
    (reflections_for_scaling self) (scaling_options self)
    (weights_for_scaling self) (binning_parameters self) (components self)
    (g_absorption self) (g_modulation self) (g_decay self) (g_scale self)
    (g_parameterisation self) (active_parameterisation self)
    (n_active_params self) (constant_g_values self) (active_parameters self)
    (Ih_table self) (active_derivatives self) (bin_boundaries self)
    (n_absorption_bins self) (v) (h_index_cumulative_array self).

Definition set_h_index_cumulative_array (self : Data_Manager D) (v : option (list nat))
  : Data_Manager D :=
  mk_Data_Manager
    (cls self) (experiments self) (reflection_table self)
    (initial_keys self) (sorted_reflections self)
    (reflections_for_scaling self) (scaling_options self)
    (weights_for_scaling self) (binning_parameters self) (components self)
    (g_absorption self) (g_modulation self) (g_decay self) (g_scale self)
    (g_parameterisation self) (active_parameterisation self)
    (n_active_params self) (constant_g_values self) (active_parameters self)
    (Ih_table self) (active_derivatives self) (bin_boundaries self)
    (n_absorption_bins self) (h_index_counter_array self) (v).

End Setters.

(** ** [Data_Manager]: the base class *)

(** The value of [flex.reflection_table.flags.integrated]: summation- and
    profile-integrated. *)
Definition integrated : Z := Z.lor (Z.shiftl 1 8) (Z.shiftl 1 9).

(** Reading an attribute that holds no object. *)
Definition attr {A} (o : option A) : result A := of_option AttributeError o.

Section DataManager.
Context {D : Type} `{HD : Double D} `{HL : Libm D} `{HC : Collaborators D}.

Definition update_weights_for_scaling (self : Data_Manager D)
    (reflection_table : flex_reflection_table D) : result (list D) :=
  weights_for_scaling ← Weighting reflection_table;
  v ← opt_get (scaling_options self) "Isigma_min";
  Isigma_min ← as_float v;
  weights_for_scaling ←
    apply_Isigma_cutoff weights_for_scaling reflection_table Isigma_min;
  v ← opt_get (scaling_options self) "d_min";
  d_min ← as_float v;
  weights_for_scaling ←
    apply_dmin_cutoff weights_for_scaling reflection_table d_min;
  remove_wilson_outliers weights_for_scaling reflection_table.

Definition extract_reflections_for_scaling (self : Data_Manager D)
    (reflection_table : flex_reflection_table D)
  : result (flex_reflection_table D * list D) :=
  weights_for_scaling ← update_weights_for_scaling self reflection_table;
  let sel := map (fun w => dltb (dlit 0) w) weights_for_scaling in
  reflections_for_scaling ← select reflection_table sel;
  weights_for_scaling ← update_weights_for_scaling self reflections_for_scaling;
  Ok (reflections_for_scaling, weights_for_scaling).

(** Returns the table it was given, with the new column, and the sorted
    copy. *)
Definition map_indices_to_asu (self : Data_Manager D)
    (reflection_table : flex_reflection_table D)
  : result (flex_reflection_table D * flex_reflection_table D) :=
  let u_c := unit_cell (experiments self) in
  let s_g := space_group (experiments self) in
  indices ← get_miller_index reflection_table "miller_index";
  reflection_table ←
    setitem reflection_table "asu_miller_index"
      (flex_miller_index (map_to_asu u_c s_g indices));
  let permuted := sort_permutation (map_to_asu u_c s_g indices) in
  sorted_reflections ← select_permutation reflection_table permuted;
  Ok (reflection_table, sorted_reflections).

(** The body of the ['sum'] / ['prf'] branch. *)
Definition scale_intensities (intstr : string) (t : flex_reflection_table D)
  : result (flex_reflection_table D) :=
  value ← get_double t ("intensity." +:+ intstr +:+ ".value");
  lp ← get_double t "lp";
  value_lp ← flex_zip dmul value lp;
  dqe ← get_double t "dqe";
  intensity ← flex_zip ddiv value_lp dqe;
  t ← setitem t "intensity" (flex_double intensity);
  variance ← get_double t ("intensity." +:+ intstr +:+ ".variance");
  lp ← get_double t "lp";
  variance_lp ← flex_zip dmul variance (map dsq lp);
  dqe ← get_double t "dqe";
  variance ← flex_zip ddiv variance_lp (map dsq dqe);
  setitem t "variance" (flex_double variance).

Definition select_optimal_intensities (self : Data_Manager D)
  : result (Data_Manager D) :=
  is_sum ← opt_is (scaling_options self) "integration_method" "sum";
  is_prf ← opt_is (scaling_options self) "integration_method" "prf";
  if is_sum || is_prf then
    (t ← scale_intensities (if is_sum then "sum" else "prf")
           (reflection_table self);
     Ok (set_reflection_table self t))
  else
    (is_combine ← opt_is (scaling_options self) "integration_method" "combine";
     if is_combine : bool then
       (let self :=
          set_scaling_options self
            (<["integration_method" := PyStr "prf"]> (scaling_options self)) in
        t ← scale_intensities "prf" (reflection_table self);
        Ok (set_reflection_table self t))
     else Ok self).

Definition Data_Manager_init (c : dm_class)
    (reflections : list (flex_reflection_table D))
    (experiments : ExperimentList D)
    (scaling_options : gmap string (pyval D)) : result (Data_Manager D) :=
  t ← of_option IndexError (reflections !! 0);
  flags ← get_flags t integrated;
  t ← select t flags;
  let initial_keys := keys t in
  xyz ← get_vec3_double t "xyzobs.px.value";
  t ← setitem t "x_value" (flex_double (map (fun v => v.1.1) xyz));
  xyz ← get_vec3_double t "xyzobs.px.value";
  t ← setitem t "y_value" (flex_double (map (fun v => v.1.2) xyz));
  xyz ← get_vec3_double t "xyzobs.px.value";
  t ← setitem t "z_value" (flex_double (map (fun v => v.2) xyz));
  t ← setitem t "inverse_scale_factor"
        (flex_double (replicate (nrows t) (dlit 1)));
  t ← setitem t "Ih_values" (flex_double (replicate (nrows t) (dlit 0)));
  let self :=
    mk_Data_Manager c experiments t initial_keys None None scaling_options
      None ∅ [] None None None None None None None None [] None None None
      None None None in
  self ← select_optimal_intensities self;
  '(t, sorted_reflections) ← map_indices_to_asu self (reflection_table self);
  let self :=
    set_sorted_reflections (set_reflection_table self t)
      (Some sorted_reflections) in
  w ← update_weights_for_scaling self sorted_reflections;
  Ok (set_weights_for_scaling self (Some w)).

(** *** Access to the shared scale-factor objects *)

Definition new_component (self : Data_Manager D) (sf : ScaleFactor D)
  : Data_Manager D * nat :=
  (set_components self (components self ++ [sf]), length (components self)).

Definition get_component (self : Data_Manager D) (r : option nat)
  : result (ScaleFactor D) :=
  i ← attr r;
  of_option AttributeError (components self !! i).

Definition update_component (self : Data_Manager D) (r : option nat)
    (f : ScaleFactor D -> ScaleFactor D) : result (Data_Manager D) :=
  i ← attr r;
  sf ← of_option AttributeError (components self !! i);
  Ok (set_components self (<[i := f sf]> (components self))).

(** [g.set_normalised_values(table[k1], table[k2], ...)] *)
Definition call_set_normalised_values (self : Data_Manager D) (r : option nat)
    (t : flex_reflection_table D) (names : list string)
  : result (Data_Manager D) :=
  _ ← get_component self r;
  values ← foldr (fun name acc =>
                    v ← get_double t name; vs ← acc; Ok (v :: vs))
             (Ok []) names;
  update_component self r (fun g => set_normalised_values g values).

(** [values = g.calculate_smooth_scales()] *)
Definition call_calculate_smooth_scales (self : Data_Manager D) (r : option nat)
  : result (Data_Manager D * list D) :=
  g ← get_component self r;
  let '(g, values) := calculate_smooth_scales g in
  self ← update_component self r (fun _ => g);
  Ok (self, values).

(** [int((max(values)//1) + above)] and [int((min(values)//1) - below)] *)
Definition highest_parameter_value (values : list D) (above : Z) : result Z :=
  m ← pymax values;
  dint (dadd (dfloor1 m) (dlit (inject_Z above))).

Definition lowest_parameter_value (values : list D) (below : Z) : result Z :=
  m ← pymin values;
  dint (dsub (dfloor1 m) (dlit (inject_Z below))).

(** The initial value of a component's parameters: [0.0] for the log
    parameterization, [1.0] otherwise. *)
Definition initial_g_value (self : Data_Manager D) : result D :=
  is_log ← opt_is (scaling_options self) "parameterization" "log";
  Ok (if is_log : bool then dlit 0 else dlit 1).

End DataManager.

(** ** [XDS_Data_Manager] *)

Section XDS.
Context {D : Type} `{HD : Double D} `{HL : Libm D} `{HC : Collaborators D}.

Definition bin_reflections_decay (self : Data_Manager D)
  : result (Data_Manager D) :=
  ndbins ← opt_get (binning_parameters self) "n_d_bins";
  nzbins ← opt_get (binning_parameters self) "n_z_bins";
  sorted ← attr (sorted_reflections self);
  z ← get_double sorted "z_value";
  m ← pymax z;
  let zmax := dadd m (dlit (1 # 1000)) in
  m ← pymin z;
  let zmin := dsub m (dlit (1 # 1000)) in
  d ← get_double sorted "d";
  m ← pymin d;
  r ← pydiv (dlit 1) (dsq m);
  let resmax := dadd r (dlit (1 # 1000)) in
  m ← pymax d;
  r ← pydiv (dlit 1) (dsq m);
  let resmin := dsub r (dlit (1 # 1000)) in
  n ← as_float ndbins;
  one_resbin_width ← pydiv (dsub resmax resmin) n;
  n ← as_float nzbins;
  one_time_width ← pydiv (dsub zmax zmin) n;
  sorted ←
    setitem sorted "normalised_res_values"
      (flex_double
         (map (fun x => ddiv (dsub (ddiv (dlit 1) (dsq x)) resmin)
                          one_resbin_width) d));
  nrv ← get_double sorted "normalised_res_values";
  highest ← highest_parameter_value nrv 2;
  lowest ← lowest_parameter_value nrv 1;
  let n_res_parameters := (highest - lowest + 1)%Z in
  sorted ←
    setitem sorted "normalised_time_values"
      (flex_double (map (fun x => ddiv (dsub x zmin) one_time_width) z));
  ntv ← get_double sorted "normalised_time_values";
  highest ← highest_parameter_value ntv 2;
  lowest ← lowest_parameter_value ntv 1;
  let n_time_parameters := (highest - lowest + 1)%Z in
  g0 ← initial_g_value self;
  let g :=
    set_normalised_values
      (new_ScaleFactor SmoothScaleFactor_2D g0
         [n_res_parameters; n_time_parameters])
      [nrv; ntv] in
  let '(self, r) := new_component self g in
  Ok (set_g_decay (set_sorted_reflections self (Some sorted)) (Some r)).

Definition bin_reflections_modulation (self : Data_Manager D)
  : result (Data_Manager D) :=
  nbins ← opt_get (binning_parameters self) "n_detector_bins";
  sorted ← attr (sorted_reflections self);
  xvalues ← get_double sorted "x_value";
  m ← pymax xvalues;
  let xmax := dadd m (dlit (1 # 1000)) in
  m ← pymin xvalues;
  let xmin := dsub m (dlit (1 # 1000)) in
  yvalues ← get_double sorted "y_value";
  m ← pymax yvalues;
  let ymax := dadd m (dlit (1 # 1000)) in
  m ← pymin yvalues;
  let ymin := dsub m (dlit (1 # 1000)) in
  n ← as_float nbins;
  one_x_width ← pydiv (dsub xmax xmin) n;
  one_y_width ← pydiv (dsub ymax ymin) n;
  sorted ←
    setitem sorted "normalised_x_values"
      (flex_double (map (fun x => ddiv (dsub x xmin) one_x_width) xvalues));
  sorted ←
    setitem sorted "normalised_y_values"
      (flex_double (map (fun y => ddiv (dsub y ymin) one_y_width) yvalues));
  nxv ← get_double sorted "normalised_x_values";
  highest ← highest_parameter_value nxv 2;
  lowest ← lowest_parameter_value nxv 1;
  let n_x_parameters := (highest - lowest + 1)%Z in
  nyv ← get_double sorted "normalised_y_values";
  highest ← highest_parameter_value nyv 2;
  lowest ← lowest_parameter_value nyv 1;
  let n_y_parameters := (highest - lowest + 1)%Z in
  g0 ← initial_g_value self;
  let g :=
    set_normalised_values
      (new_ScaleFactor SmoothScaleFactor_2D g0 [n_x_parameters; n_y_parameters])
      [nxv; nyv] in
  let '(self, r) := new_component self g in
  Ok (set_g_modulation (set_sorted_reflections self (Some sorted)) (Some r)).

Definition bin_reflections_absorption (self : Data_Manager D)
  : result (Data_Manager D) :=
  let nbins := dlit 4 in
  sorted ← attr (sorted_reflections self);
  xvalues ← get_double sorted "x_value";
  m ← pymax xvalues;
  let xmax := dadd m (dlit (1 # 1000)) in
  m ← pymin xvalues;
  let xmin := dsub m (dlit (1 # 1000)) in
  yvalues ← get_double sorted "y_value";
  m ← pymax yvalues;
  let ymax := dadd m (dlit (1 # 1000)) in
  m ← pymin yvalues;
  let ymin := dsub m (dlit (1 # 1000)) in
  one_x_width ← pydiv (dsub xmax xmin) nbins;
  one_y_width ← pydiv (dsub ymax ymin) nbins;
  sorted ←
    setitem sorted "normalised_x_abs_values"
      (flex_double (map (fun x => ddiv (dsub x xmin) one_x_width) xvalues));
  sorted ←
    setitem sorted "normalised_y_abs_values"
      (flex_double (map (fun y => ddiv (dsub y ymin) one_y_width) yvalues));
  nxv ← get_double sorted "normalised_x_abs_values";
  highest ← highest_parameter_value nxv 1;
  m ← pymin nxv;
  lowest ← dint (dfloor1 m);
  let n_x_parameters := (highest - lowest + 1)%Z in
  nyv ← get_double sorted "normalised_y_abs_values";
  highest ← highest_parameter_value nyv 1;
  m ← pymin nyv;
  lowest ← dint (dfloor1 m);
  let n_y_parameters := (highest - lowest + 1)%Z in
  ntv ← get_double sorted "normalised_time_values";
  highest ← highest_parameter_value ntv 1;
  lowest ← lowest_parameter_value ntv 0;
  let n_time_parameters := (highest - lowest + 1)%Z in
  g0 ← initial_g_value self;
  let g :=
    set_normalised_values
      (new_ScaleFactor SmoothScaleFactor_GridAbsorption g0
         [n_x_parameters; n_y_parameters; n_time_parameters])
      [nxv; nyv; ntv] in
  let '(self, r) := new_component self g in
  Ok (set_g_absorption (set_sorted_reflections self (Some sorted)) (Some r)).

Definition XDS_initialise_scale_factors (self : Data_Manager D)
  : result (Data_Manager D) :=
  self ← bin_reflections_decay self;
  self ← bin_reflections_absorption self;
  bin_reflections_modulation self.

(** The loop that copies the binning options over the defaults. *)
Definition override_binning_parameters
    (defaults scaling_options : gmap string (pyval D)) : gmap string (pyval D) :=
  map_imap (fun key value =>
              Some (default value (scaling_options !! key))) defaults.

Definition XDS_binning_defaults : gmap string (pyval D) :=
  <["n_d_bins" := PyNone]>
    (<["n_z_bins" := PyNone]>
       (<["n_absorption_positions" := PyInt 5]>
          (<["n_detector_bins" := PyNone]> ∅))).

Definition XDS_Data_Manager_init
    (reflections : list (flex_reflection_table D))
    (experiments : ExperimentList D)
    (scaling_options : gmap string (pyval D)) : result (Data_Manager D) :=
  self ← Data_Manager_init XDS_Data_Manager reflections experiments
           scaling_options;
  let self :=
    set_binning_parameters self
      (override_binning_parameters XDS_binning_defaults scaling_options) in
  self ← XDS_initialise_scale_factors self;
  sorted ← attr (sorted_reflections self);
  '(outliers, sorted) ← calculate_wilson_outliers sorted (experiments);
  sorted ← setitem sorted "wilson_outlier_flag" (flex_bool outliers);
  let self := set_sorted_reflections self (Some sorted) in
  '(rfs, w) ← extract_reflections_for_scaling self sorted;
  let self :=
    set_weights_for_scaling (set_reflections_for_scaling self (Some rfs))
      (Some w) in
  T ← new_single_Ih_table rfs w;
  let self := set_Ih_table self (Some T) in
  self ← call_set_normalised_values self (g_modulation self) rfs
           ["normalised_x_values"; "normalised_y_values"];
  self ← call_set_normalised_values self (g_decay self) rfs
           ["normalised_res_values"; "normalised_time_values"];
  self ← call_set_normalised_values self (g_absorption self) rfs
           ["normalised_x_abs_values"; "normalised_y_abs_values";
            "normalised_time_values"];
  ra ← attr (g_absorption self);
  rm ← attr (g_modulation self);
  rd ← attr (g_decay self);
  Ok (set_g_parameterisation self
        (Some [("g_absorption", ra); ("g_modulation", rm); ("g_decay", rd)])).


Definition XDS_expand_scales_to_all_reflections (self : Data_Manager D)
  : result (Data_Manager D) :=
  sorted ← attr (sorted_reflections self);
  self ← call_set_normalised_values self (g_modulation self) sorted
           ["normalised_x_values"; "normalised_y_values"];
  '(self, gscalevalues) ← call_calculate_smooth_scales self (g_modulation self);
  self ← call_set_normalised_values self (g_decay self) sorted
           ["normalised_res_values"; "normalised_time_values"];
  '(self, gdecayvalues) ← call_calculate_smooth_scales self (g_decay self);
  self ← call_set_normalised_values self (g_absorption self) sorted
           ["normalised_x_abs_values"; "normalised_y_abs_values";
            "normalised_time_values"];
  '(self, gabsvalues) ← call_calculate_smooth_scales self (g_absorption self);
  is_log ← opt_is (scaling_options self) "parameterization" "log";
  inverse_scale_factor ←
    (if is_log : bool then
       (s ← flex_zip dadd gscalevalues gdecayvalues;
        s ← flex_zip dadd s gabsvalues;
        Ok (map dexp s))
     else
       (p ← flex_zip dmul gscalevalues gdecayvalues;
        flex_zip dmul p gabsvalues));
  sorted ← setitem sorted "inverse_scale_factor"
             (flex_double inverse_scale_factor);
  let self := set_sorted_reflections self (Some sorted) in
  w ← update_weights_for_scaling self sorted;
  let self := set_weights_for_scaling self (Some w) in
  Ih_table_sorted_refl ← new_single_Ih_table sorted w;
  let self :=
    set_h_index_cumulative_array
      (set_h_index_counter_array self
         (Some (Ih_h_index_counter_array Ih_table_sorted_refl)))
      (Some (Ih_h_index_cumulative_array Ih_table_sorted_refl)) in
  Ih_table_sorted_refl ← calc_Ih Ih_table_sorted_refl;
  sorted ← setitem sorted "Ih_values"
             (flex_double (Ih_values Ih_table_sorted_refl));
  Ok (set_sorted_reflections self (Some sorted)).

(** [numpy.prod(numpy.array(arrays), axis=0)] and [numpy.sum]: the arrays
    are combined elementwise, from the first on. *)
Definition np_reduce (op : D -> D -> D) (arrays : list (list D))
  : result (list D) :=
  match arrays with
  | [] => Raise TypeError
  | a :: rest =>
      foldl (fun acc b => acc ← acc; flex_zip op acc b) (Ok a) rest
  end.

(** The loop of [set_up_minimisation] over the dictionary: the parameters
    of the component called [param_name], if one was met, and the
    per-reflection values of the others. *)
Definition split_parameterisation (self : Data_Manager D) (param_name : string)
    (items : list (string * nat))
  : result (option (list D) * list (list D)) :=
  foldl (fun acc item =>
           '(x, constant_g_values) ← acc;
           scalefactor ← get_component self (Some item.2);
           if bool_decide (param_name = item.1)
           then Ok (Some (get_scale_factors scalefactor), constant_g_values)
           else Ok (x, constant_g_values
                         ++ [get_scales_of_reflections scalefactor]))
    (Ok (None, [])) items.

Definition XDS_set_up_minimisation (self : Data_Manager D) (param_name : string)
  : result (Data_Manager D * list D) :=
  items ← attr (g_parameterisation self);
  '(x, constant_g_values) ← split_parameterisation self param_name items;
  let self :=
    match x with
    | Some x =>
        set_active_parameterisation
          (set_n_active_params self (Some (Z.of_nat (length x))))
          (Some param_name)
    | None => self
    end in
  is_standard ← opt_is (scaling_options self) "parameterization" "standard";
  self ←
    (if is_standard : bool then
       (c ← np_reduce dmul constant_g_values;
        Ok (set_constant_g_values self (Some c)))
     else
       (is_log ← opt_is (scaling_options self) "parameterization" "log";
        if is_log : bool then
          (c ← np_reduce dadd constant_g_values;
           Ok (set_constant_g_values self (Some c)))
        else Ok self));
  x ← of_option UnboundLocalError x;
  Ok (self, x).

Definition XDS_added_columns : list string :=
  ["l_bin_index"; "a_bin_index"; "xy_bin_index"; "h_index";
   "asu_miller_index"; "normalised_y_values";
   "normalised_x_values"; "normalised_y_abs_values";
   "normalised_x_abs_values"; "normalised_time_values";
   "normalised_res_values"; "wilson_outlier_flag";
   "centric_flag"].

Definition XDS_clean_reflection_table (self : Data_Manager D)
  : result (Data_Manager D) :=
  let self :=
    set_initial_keys self (initial_keys self ++ ["inverse_scale_factor"]) in
  sorted ← attr (sorted_reflections self);
  let sorted :=
    foldl (fun t key =>
             if bool_decide (key ∈ initial_keys self) then t
             else delitem t key)
      sorted (keys (reflection_table self)) in
  let sorted := foldl delitem sorted XDS_added_columns in
  Ok (set_sorted_reflections self (Some sorted)).

End XDS.

(** *** [bin_reflections_absorption_radially] *)

Section RadialBinning.
Context {D : Type} `{HD : Double D} `{HL : Libm D} `{HC : Collaborators D}.

(** [list[i]] *)
Definition index {A} (l : list A) (i : nat) : result A :=
  of_option IndexError (l !! i).

Definition radial_bins (image_size : Z * Z) : list D :=
  let x_center := ddiv (dlit (inject_Z image_size.1)) (dlit 2) in
  let y_center := ddiv (dlit (inject_Z image_size.2)) (dlit 2) in
  let radial_divider :=
    if dltb x_center y_center then y_center else x_center in
  [dlit (- 1 # 10000);
   ddiv radial_divider (dlit 3);
   ddiv (dmul (dlit 2) radial_divider) (dlit 3);
   dadd (ddiv (dsqrt (dlit (inject_Z (image_size.1 ^ 2 + image_size.2 ^ 2))))
           (dlit 2))
     (dlit 5)].

Definition angular_bins : list D :=
  [dlit (- 1 # 10000);
   ddiv dpi (dlit 4);
   ddiv (dmul (dlit 2) dpi) (dlit 4);
   ddiv (dmul (dlit 3) dpi) (dlit 4);
   dpi;
   ddiv (dmul (dlit 5) dpi) (dlit 4);
   ddiv (dmul (dlit 6) dpi) (dlit 4);
   ddiv (dmul (dlit 7) dpi) (dlit 4);
   dmul (dlit 2) dpi].

(** The two nested loops over the angular and the radial bins. *)
Definition assign_firstbin_index (angular_values radial_values : list D)
    (angular_bins radial_bins : list D) (firstbin_index : list Z)
  : result (list Z) :=
  foldl (fun acc i =>
           firstbin_index ← acc;
           lo ← index angular_bins i;
           hi ← index angular_bins (i + 1);
           let selection1 := select_variables_in_range angular_values lo hi in
           foldl (fun acc j =>
                    firstbin_index ← acc;
                    lo ← index radial_bins j;
                    hi ← index radial_bins (j + 1);
                    let selection2 :=
                      select_variables_in_range radial_values lo hi in
                    sel ← flex_zip andb selection1 selection2;
                    set_selected firstbin_index sel
                      (Z.of_nat (i * (length radial_bins - 1) + j)))
             (Ok firstbin_index) (seq 0 (length radial_bins - 1)))
    (Ok firstbin_index) (seq 0 (length angular_bins - 1)).

(** The loop over the z bins. *)
Definition assign_secondbin_index (z_value z_bins : list D) (nzbins : Z)
    (secondbin_index : list Z) : result (list Z) :=
  foldl (fun acc i =>
           secondbin_index ← acc;
           lo ← index z_bins i;
           hi ← index z_bins (i + 1);
           let selection := select_variables_in_range z_value lo hi in
           set_selected secondbin_index selection (Z.of_nat i))
    (Ok secondbin_index) (seq 0 (Z.to_nat nzbins)).

(** The method up to the end of its assignment loops: the two arrays of
    bin indices and the number of z bins. *)
Definition radial_bin_indices (self : Data_Manager D)
  : result (list Z * list Z * Z) :=
  _ ← opt_get (binning_parameters self) "n_absorption_positions";
  nzbins ← opt_get (binning_parameters self) "n_z_bins";
  boundaries ← attr (bin_boundaries self);
  z_bins ← of_option KeyError (boundaries !! "z_value");
  let image_size := image_size (experiments self) in
  sorted ← attr (sorted_reflections self);
  xvalues ← get_double sorted "x_value";
  yvalues ← get_double sorted "y_value";
  let x_center := ddiv (dlit (inject_Z image_size.1)) (dlit 2) in
  let y_center := ddiv (dlit (inject_Z image_size.2)) (dlit 2) in
  let xrelvalues := map (fun x => dsub x x_center) xvalues in
  let yrelvalues := map (fun y => dsub y y_center) yvalues in
  r2 ← flex_zip dadd (map dsq xrelvalues) (map dsq yrelvalues);
  let radial_values := map dsqrt r2 in
  q ← flex_zip ddiv yrelvalues radial_values;
  let angular_values := map darccos q in
  angular_values ←
    flex_zip (fun a x =>
                if dltb x (dlit 0) then dsub (dmul (dlit 2) dpi) a else a)
      angular_values xrelvalues;
  z_value ← get_double sorted "z_value";
  let firstbin_index := replicate (length z_value) (-1)%Z in
  let secondbin_index := replicate (length z_value) (-1)%Z in
  firstbin_index ←
    assign_firstbin_index angular_values radial_values angular_bins
      (radial_bins image_size) firstbin_index;
  nzbins ← as_int nzbins;
  secondbin_index ←
    assign_secondbin_index z_value z_bins nzbins secondbin_index;
  Ok (firstbin_index, secondbin_index, nzbins).

(** [array.count(value)] *)
Definition count (array : list Z) (value : Z) : nat :=
  length (filter (fun v => v = value) array).

Definition bin_reflections_absorption_radially (self : Data_Manager D)
  : result (Data_Manager D) :=
  '(firstbin_index, secondbin_index, nzbins) ← radial_bin_indices self;
  if (0 <? count firstbin_index (-1)) || (0 <? count secondbin_index (-1))
  then Raise ValueError
  else
    (let n_angular := Z.of_nat (length angular_bins - 1) in
     let n_radial :=
       Z.of_nat (length (radial_bins (image_size (experiments self))) - 1) in
     sorted ← attr (sorted_reflections self);
     a_bin_index ←
       flex_zip Z.add firstbin_index
         (map (fun s => (s * n_angular * n_radial)%Z) secondbin_index);
     sorted ← setitem sorted "a_bin_index" (flex_int a_bin_index);
     let self := set_sorted_reflections self (Some sorted) in
     let self := set_n_absorption_bins self (Some (n_angular * n_radial)%Z) in
     g0 ← initial_g_value self;
     let '(self, r) :=
       new_component self
         (new_ScaleFactor ScaleFactor_plain g0
            [(n_angular * n_radial * nzbins)%Z]) in
     Ok (set_g_absorption self (Some r))).

End RadialBinning.

(** ** [aimless_Data_Manager] *)

Section Aimless.
Context {D : Type} `{HD : Double D} `{HL : Libm D} `{HC : Collaborators D}.

(** The first lines of [initialise_decay_term] and of
    [initialise_scale_term], which are the same in both: the rotation
    interval. *)
Definition rotation_interval (osc_range : D * D) : result D :=
  let rotation_interval := dlit 15 in
  q ← pydiv osc_range.2 rotation_interval;
  rotation_interval ←
    (if dltb (dmod1 q) (dlit (33 # 100)) then
       (q ← pydiv osc_range.2 rotation_interval;
        n_phi_bins ← dint q;
        r ← pydiv (dlit (inject_Z n_phi_bins)) osc_range.2;
        Ok (dadd r (dlit (1 # 1000))))
     else Ok rotation_interval);
  Ok (dadd (dlit 15) (dlit (1 # 1000))).

Definition initialise_decay_term (self : Data_Manager D)
  : result (Data_Manager D) :=
  let osc_range := oscillation_range (experiments self) in
  rotation_interval ← rotation_interval osc_range;
  let one_oscillation_width := (oscillation (experiments self)).2 in
  reflection_table ← attr (sorted_reflections self);
  z_value ← get_double reflection_table "z_value";
  reflection_table ←
    setitem reflection_table "normalised_time_values"
      (flex_double
         (map (fun z =>
                 ddiv (dsub (dmul z one_oscillation_width)
                         (dsub osc_range.1 (dlit (1 # 1000))))
                   rotation_interval)
            z_value));
  values ← get_double reflection_table "normalised_time_values";
  highest_parameter_value ← highest_parameter_value values 3;
  lowest_parameter_value ← lowest_parameter_value values 2;
  let n := (highest_parameter_value - lowest_parameter_value + 1)%Z in
  let g :=
    set_normalised_values
      (new_ScaleFactor SmoothScaleFactor_1D (dlit 0) [n]) [values] in
  let '(self, r) := new_component self g in
  let self :=
    set_g_decay (set_sorted_reflections self (Some reflection_table))
      (Some r) in
  n_active_params ← attr (n_active_params self);
  Ok (set_n_active_params self (Some (n_active_params + n)%Z)).

Definition initialise_scale_term (self : Data_Manager D)
  : result (Data_Manager D) :=
  let osc_range := oscillation_range (experiments self) in
  rotation_interval ← rotation_interval osc_range;
  let one_oscillation_width := (oscillation (experiments self)).2 in
  reflection_table ← attr (sorted_reflections self);
  z_value ← get_double reflection_table "z_value";
  reflection_table ←
    setitem reflection_table "normalised_rotation_angle"
      (flex_double
         (map (fun z =>
                 ddiv (dsub (dmul z one_oscillation_width)
                         (dsub osc_range.1 (dlit (1 # 1000))))
                   rotation_interval)
            z_value));
  values ← get_double reflection_table "normalised_rotation_angle";
  highest_parameter_value ← highest_parameter_value values 3;
  lowest_parameter_value ← lowest_parameter_value values 2;
  let n := (highest_parameter_value - lowest_parameter_value + 1)%Z in
  let g :=
    set_normalised_values
      (new_ScaleFactor SmoothScaleFactor_1D (dlit 1) [n]) [values] in
  let '(self, r) := new_component self g in
  let self :=
    set_g_scale (set_sorted_reflections self (Some reflection_table))
      (Some r) in
  n_active_params ← attr (n_active_params self);
  Ok (set_n_active_params self (Some (n_active_params + n)%Z)).

(** The two methods as the spec reads them, "treat the fixed interval as
    authoritative": the adaptive branch is taken out and the interval is
    the constant [15.0 + 0.001]. *)
Definition initialise_decay_term_fixed (self : Data_Manager D)
  : result (Data_Manager D) :=
  let osc_range := oscillation_range (experiments self) in
  let rotation_interval := dadd (dlit 15) (dlit (1 # 1000)) in
  let one_oscillation_width := (oscillation (experiments self)).2 in
  reflection_table ← attr (sorted_reflections self);
  z_value ← get_double reflection_table "z_value";
  reflection_table ←
    setitem reflection_table "normalised_time_values"
      (flex_double
         (map (fun z =>
                 ddiv (dsub (dmul z one_oscillation_width)
                         (dsub osc_range.1 (dlit (1 # 1000))))
                   rotation_interval)
            z_value));
  values ← get_double reflection_table "normalised_time_values";
  highest_parameter_value ← highest_parameter_value values 3;
  lowest_parameter_value ← lowest_parameter_value values 2;
  let n := (highest_parameter_value - lowest_parameter_value + 1)%Z in
  let g :=
    set_normalised_values
      (new_ScaleFactor SmoothScaleFactor_1D (dlit 0) [n]) [values] in
  let '(self, r) := new_component self g in
  let self :=
    set_g_decay (set_sorted_reflections self (Some reflection_table))
      (Some r) in
  n_active_params ← attr (n_active_params self);
  Ok (set_n_active_params self (Some (n_active_params + n)%Z)).

Definition initialise_scale_term_fixed (self : Data_Manager D)
  : result (Data_Manager D) :=
  let osc_range := oscillation_range (experiments self) in
  let rotation_interval := dadd (dlit 15) (dlit (1 # 1000)) in
  let one_oscillation_width := (oscillation (experiments self)).2 in
  reflection_table ← attr (sorted_reflections self);
  z_value ← get_double reflection_table "z_value";
  reflection_table ←
    setitem reflection_table "normalised_rotation_angle"
      (flex_double
         (map (fun z =>
                 ddiv (dsub (dmul z one_oscillation_width)
                         (dsub osc_range.1 (dlit (1 # 1000))))
                   rotation_interval)
            z_value));
  values ← get_double reflection_table "normalised_rotation_angle";
  highest_parameter_value ← highest_parameter_value values 3;
  lowest_parameter_value ← lowest_parameter_value values 2;
  let n := (highest_parameter_value - lowest_parameter_value + 1)%Z in
  let g :=
    set_normalised_values
      (new_ScaleFactor SmoothScaleFactor_1D (dlit 1) [n]) [values] in
  let '(self, r) := new_component self g in
  let self :=
    set_g_scale (set_sorted_reflections self (Some reflection_table))
      (Some r) in
  n_active_params ← attr (n_active_params self);
  Ok (set_n_active_params self (Some (n_active_params + n)%Z)).

Definition aimless_initialise_scale_factors (self : Data_Manager D)
  : result (Data_Manager D) :=
  self ← initialise_scale_term self;
  self ← initialise_decay_term self;
  g ← get_component self (g_scale self);
  let self :=
    set_active_parameters self (active_parameters self ++ get_scale_factors g) in
  g ← get_component self (g_decay self);
  Ok (set_active_parameters self
        (active_parameters self ++ get_scale_factors g)).

Definition aimless_binning_defaults : gmap string (pyval D) :=
  <["n_scale_bins" := PyNone]>
    (<["n_B_bins" := PyNone]>
       (<["lmax" := PyInt 4]>
          (<["n_d_bins" := PyNone]> ∅))).

Definition aimless_Data_Manager_init
    (reflections : list (flex_reflection_table D))
    (experiments : ExperimentList D)
    (scaling_options : gmap string (pyval D)) : result (Data_Manager D) :=
  self ← Data_Manager_init aimless_Data_Manager reflections experiments
           scaling_options;
  let self :=
    set_binning_parameters self
      (override_binning_parameters aimless_binning_defaults scaling_options) in
  let self := set_n_active_params self (Some 0%Z) in
  self ← aimless_initialise_scale_factors self;
  sorted ← attr (sorted_reflections self);
  '(outliers, sorted) ← calculate_wilson_outliers sorted experiments;
  sorted ← setitem sorted "wilson_outlier_flag" (flex_bool outliers);
  let self := set_sorted_reflections self (Some sorted) in
  '(rfs, w) ← extract_reflections_for_scaling self sorted;
  let self :=
    set_weights_for_scaling (set_reflections_for_scaling self (Some rfs))
      (Some w) in
  self ← call_set_normalised_values self (g_scale self) rfs
           ["normalised_rotation_angle"];
  call_set_normalised_values self (g_decay self) rfs
    ["normalised_time_values"].

(** The statements of [expand_scales_to_all_reflections] that run before
    the call of [self.assign_h_index]. *)
Definition aimless_expand_scales (self : Data_Manager D)
  : result (Data_Manager D) :=
  sorted ← attr (sorted_reflections self);
  self ← call_set_normalised_values self (g_scale self) sorted
           ["normalised_rotation_angle"];
  '(self, angular) ← call_calculate_smooth_scales self (g_scale self);
  sorted ← setitem sorted "angular_scale_factor" (flex_double angular);
  self ← call_set_normalised_values self (g_decay self) sorted
           ["normalised_time_values"];
  '(self, b_factors) ← call_calculate_smooth_scales self (g_decay self);
  d ← get_double sorted "d";
  e ← flex_zip ddiv b_factors (map (fun x => dmul (dlit 2) (dsq x)) d);
  sorted ← setitem sorted "decay_factor" (flex_double (map dexp e));
  angular ← get_double sorted "angular_scale_factor";
  decay ← get_double sorted "decay_factor";
  isf ← flex_zip dmul angular decay;
  sorted ← setitem sorted "inverse_scale_factor" (flex_double isf);
  let self := set_sorted_reflections self (Some sorted) in
  w ← update_weights_for_scaling self sorted;
  Ok (set_weights_for_scaling self (Some w)).

(** [assign_h_index] survives only inside a string literal of the class
    body, so the call of [self.assign_h_index] finds no such method. *)
Definition aimless_expand_scales_to_all_reflections (self : Data_Manager D)
  : result (Data_Manager D) :=
  _ ← aimless_expand_scales self;
  Raise AttributeError.

Definition aimless_added_columns : list string :=
  ["Ih_values"; "h_index"; "asu_miller_index";
   "decay_factor"; "angular_scale_factor";
   "normalised_rotation_angle"; "normalised_time_values";
   "wilson_outlier_flag"; "centric_flag"].

Definition aimless_clean_reflection_table (self : Data_Manager D)
  : result (Data_Manager D) :=
  let self :=
    set_initial_keys self (initial_keys self ++ ["inverse_scale_factor"]) in
  sorted ← attr (sorted_reflections self);
  let sorted :=
    foldl (fun t key =>
             if bool_decide (key ∈ initial_keys self) then t
             else delitem t key)
      sorted (keys (reflection_table self)) in
  let sorted := foldl delitem sorted aimless_added_columns in
  Ok (set_sorted_reflections self (Some sorted)).

Definition aimless_set_up_minimisation (self : Data_Manager D)
    (param_name : string) : result (Data_Manager D * list D) :=
  Ok (self, active_parameters self).

End Aimless.

(** ** Basis and target functions

    Modelled from the spec: modules [basis_functions] and [target_function]
    are not part of the sources at hand. "For each reflection, scale =
    product (or exp-sum) over all active components' individual
    contributions; derivative matrix column block per component follows the
    product rule: ∂scale/∂paramsⱼ(component A) = scale_others ·
    ∂(componentA)/∂params"; "Target state: residual vector R = I_obs −
    scale·Ih, weight vector w". The parameter vector of the minimiser is
    written into the active component before its values are computed. *)

Section BasisAndTarget.
Context {D : Type} `{HD : Double D} `{HL : Libm D} `{HC : Collaborators D}.

Definition scale_rows (derivatives : list (list D)) (factors : list D)
  : list (list D) :=
  zip_with (fun row c => map (fun x => dmul x c) row) derivatives factors.

Definition XDS_get_basis_function (self : Data_Manager D) (parameters : list D)
  : result (Data_Manager D * (list D * list (list D))) :=
  name ← attr (active_parameterisation self);
  items ← attr (g_parameterisation self);
  r ← of_option KeyError (snd <$> list_find (fun item => item.1 = name) items);
  self ← update_component self (Some r.2)
           (fun g => set_scale_factors g parameters);
  '(self, gxvalues) ← call_calculate_smooth_scales self (Some r.2);
  g ← get_component self (Some r.2);
  constant_g_values ← attr (constant_g_values self);
  is_log ← opt_is (scaling_options self) "parameterization" "log";
  if is_log : bool then
    (s ← flex_zip dadd gxvalues constant_g_values;
     let scales := map dexp s in
     Ok (self, (scales, scale_rows (get_derivatives g) scales)))
  else
    (scales ← flex_zip dmul gxvalues constant_g_values;
     Ok (self, (scales, scale_rows (get_derivatives g) constant_g_values))).

Definition aimless_get_basis_function (self : Data_Manager D)
    (parameters : list D)
  : result (Data_Manager D * (list D * list (list D))) :=
  g ← get_component self (g_scale self);
  let n_g_scale_params := length (scale_factors g) in
  self ← update_component self (g_scale self)
           (fun g => set_scale_factors g (take n_g_scale_params parameters));
  self ← update_component self (g_decay self)
           (fun g => set_scale_factors g (drop n_g_scale_params parameters));
  '(self, angular) ← call_calculate_smooth_scales self (g_scale self);
  '(self, b_factors) ← call_calculate_smooth_scales self (g_decay self);
  rfs ← attr (reflections_for_scaling self);
  d ← get_double rfs "d";
  e ← flex_zip ddiv b_factors (map (fun x => dmul (dlit 2) (dsq x)) d);
  let decay := map dexp e in
  scales ← flex_zip dmul angular decay;
  g_s ← get_component self (g_scale self);
  g_d ← get_component self (g_decay self);
  Ok (self,
      (scales,
       zip_with app (scale_rows (get_derivatives g_s) decay)
         (scale_rows (get_derivatives g_d) scales))).

(** The method every subclass overrides. *)
Definition get_basis_function (self : Data_Manager D) (parameters : list D)
  : result (Data_Manager D * (list D * list (list D))) :=
  match cls self with
  | XDS_Data_Manager => XDS_get_basis_function self parameters
  | aimless_Data_Manager => aimless_get_basis_function self parameters
  end.

(** [Data_Manager.update_for_minimisation] *)
Definition update_for_minimisation (self : Data_Manager D) (parameters : list D)
  : result (Data_Manager D) :=
  '(self, basis_fn) ← get_basis_function self parameters;
  rfs ← attr (reflections_for_scaling self);
  rfs ← setitem rfs "inverse_scale_factor" (flex_double basis_fn.1);
  let self := set_reflections_for_scaling self (Some rfs) in
  let self := set_active_derivatives self (Some basis_fn.2) in
  T ← attr (Ih_table self);
  isf ← get_double rfs "inverse_scale_factor";
  T ← calc_Ih (update_scale_factors T isf);
  Ok (set_Ih_table self (Some T)).

(** The residuals of the target function on an Ih table. *)
Definition calculate_residuals (T : single_Ih_table D) : result (list D) :=
  scaled ← flex_zip dmul (Ih_inverse_scale_factor T) (Ih_values T);
  flex_zip dsub (Ih_intensity T) scaled.

(** [ScalingTargetFixedIH.compute_residuals]: the residuals and the
    weights. *)
Definition compute_residuals (T : single_Ih_table D)
  : result (list D * list D) :=
  R ← calculate_residuals T;
  Ok (R, Ih_weights T).

End BasisAndTarget.

(** The fixture [mock_single_Ih_table] of
    [test_basis_and_target_function.py]. *)
Definition mock_single_Ih_table : single_Ih_table float :=
  mk_Ih_table []
    [10; 10; 12]%float
    [1; 1; 1]%float
    [1; 1 / 1.1; 1]%float
    [11; 11; 11]%float
    [] [].

(** The same table with the inverse scale factors as the spec prints
    them. *)
Definition spec_single_Ih_table : single_Ih_table float :=
  mk_Ih_table []
    [10; 10; 12]%float
    [1; 1; 1]%float
    [1; 0.909; 1]%float
    [11; 11; 11]%float
    [] [].

(** ** Fixtures

    The reflection table [generated_refl] and the experiment
    [generated_single_exp] of [test_basis_and_target_function.py], a set of
    options for the XDS parameterization, and simple stand-ins for the
    collaborators, on which the definitions above can be run. *)

Section Fixtures.
Context {D : Type} `{HD : Double D}.

Definition generated_refl : flex_reflection_table D :=
  mk_table 3
    (<["intensity.prf.value" := flex_double [dlit 75; dlit 10; dlit 100]]>
    (<["intensity.prf.variance" := flex_double [dlit 50; dlit 10; dlit 100]]>
    (<["miller_index" :=
         flex_miller_index [(1, 0, 0); (0, 0, 1); (1, 0, 0)]%Z]>
    (<["d" := flex_double [dlit 2; dlit (8 # 10); dlit 2]]>
    (<["lp" := flex_double [dlit 1; dlit 1; dlit 1]]>
    (<["dqe" := flex_double [dlit 1; dlit 1; dlit 1]]>
    (<["partiality" := flex_double [dlit 1; dlit 1; dlit 1]]>
    (<["xyzobs.px.value" :=
         flex_vec3_double
           [(dlit 0, dlit 0, dlit 0); (dlit 0, dlit 0, dlit 5);
            (dlit 0, dlit 0, dlit 10)]]>
    (<["s1" :=
         flex_vec3_double
           [(dlit 0, dlit (1 # 10), dlit 1); (dlit 0, dlit (1 # 10), dlit 1);
            (dlit 0, dlit (1 # 10), dlit 20)]]>
    (<["flags" := flex_size_t [integrated; integrated; integrated]]>
       ∅)))))))))).

(** The same table with the second reflection not integrated. *)
Definition generated_refl_partly_integrated : flex_reflection_table D :=
  mk_table 3
    (<["flags" := flex_size_t [integrated; Z.shiftl 1 8; integrated]]>
       (columns generated_refl)).

Definition generated_single_exp : ExperimentList D :=
  mk_ExperimentList
    [dlit 1; dlit 1; dlit 2; dlit 90; dlit 90; dlit 90] " C 2y"
    (dlit 0, dlit 61) (dlit 0, dlit 1) (0, 0)%Z.

(** A scan that ends at zero degrees. *)
Definition exp_ending_at_zero : ExperimentList D :=
  mk_ExperimentList
    [dlit 1; dlit 1; dlit 2; dlit 90; dlit 90; dlit 90] " C 2y"
    (dlit (- 61), dlit 0) (dlit 0, dlit 1) (0, 0)%Z.

Definition xds_options (parameterization : string) : gmap string (pyval D) :=
  <["Isigma_min" := PyFloat (dlit 0)]>
    (<["d_min" := PyFloat (dlit 0)]>
       (<["integration_method" := PyStr "prf"]>
          (<["parameterization" := PyStr parameterization]>
             (<["n_d_bins" := PyInt 2]>
                (<["n_z_bins" := PyInt 2]>
                   (<["n_detector_bins" := PyInt 2]> ∅)))))).

End Fixtures.

Definition miller_leb (a b : miller_index) : bool :=
  let '(h1, k1, l1) := a in
  let '(h2, k2, l2) := b in
  ((h1 <? h2) || ((h1 =? h2) && ((k1 <? k2) || ((k1 =? k2) && (l1 <=? l2)))))%Z.

(** Stand-ins: no symmetry, a stable sort of the indices, no Wilson
    outlier (the test adds a ['centric_flag'] column), and a "grid" whose
    value at every reflection is its first parameter. *)
Definition demo_collaborators (D : Type) `{Double D} : Collaborators D := {|
  map_to_asu := fun _ _ indices => indices;
  sort_permutation := fun indices =>
    (merge_sort (fun a b : nat * miller_index => Is_true (miller_leb a.2 b.2))
       (zip (seq 0 (length indices)) indices)).*1;
  calculate_wilson_outliers := fun t _ =>
    t' ← setitem t "centric_flag" (flex_bool (replicate (nrows t) false));
    Ok (replicate (nrows t) false, t');
  smooth_scales := fun _ _ parameters coordinates =>
    replicate (length (hd [] coordinates)) (hd (dlit 1) parameters);
  smooth_derivatives := fun _ _ parameters coordinates =>
    replicate (length (hd [] coordinates))
      (replicate (length parameters) (dlit 1))
|}.

(** Stand-ins for the math library on the rationals: the integer square
    root, the first-order exponential, a constant. *)
Definition demo_libm_Q : Libm Q := {|
  dsqrt := fun x => inject_Z (Z.sqrt (Qfloor x));
  dexp := fun x => Qred (1 + x);
  darccos := fun _ => 0%Q;
  dpi := (22 # 7)%Q
|}.

(** On binary64 the square root is the real one. *)
Definition demo_libm_float : Libm float := {|
  dsqrt := PrimFloat.sqrt;
  dexp := fun x => PrimFloat.add 1 x;
  darccos := fun _ => 0%float;
  dpi := 0x1.921fb54442d18p+1%float
|}.

Definition is_Ok {A} (r : result A) : bool :=
  match r with Ok _ => true | Raise _ => false end.

(** An aimless data manager in binary64, on the fixture table and the scan
    that ends at zero degrees, as [aimless_Data_Manager.__init__] has it
    when it calls [initialise_scale_factors]. *)
Definition aimless_manager_ending_at_zero : result (Data_Manager float) :=
  self ← Data_Manager_init (HL := demo_libm_float)
           (HC := demo_collaborators float) aimless_Data_Manager
           [generated_refl] exp_ending_at_zero (xds_options "standard");
  Ok (set_n_active_params
        (set_binning_parameters self
           (override_binning_parameters aimless_binning_defaults
              (xds_options "standard")))
        (Some 0%Z)).

(** A data manager with no attribute assigned. *)
Definition empty_manager {D : Type} `{Double D} : Data_Manager D :=
  mk_Data_Manager XDS_Data_Manager generated_single_exp (mk_table 0 ∅) []
    None None ∅ None ∅ [] None None None None None None None None [] None
    None None None None None.

Definition get_Ok {A} (default : A) (r : result A) : A :=
  match r with Ok a => a | Raise _ => default end.

(** The XDS data manager of the fixture table, over the rationals, after
    [__init__]. *)
Definition fixture_XDS_init (parameterization : string)
  : result (Data_Manager Q) :=
  XDS_Data_Manager_init (HL := demo_libm_Q) (HC := demo_collaborators Q)
    [generated_refl] generated_single_exp (xds_options parameterization).

Definition fixture_XDS_manager (parameterization : string) : Data_Manager Q :=
  get_Ok empty_manager (fixture_XDS_init parameterization).

(** ** Predicates used in the statements *)

Section Predicates.
Context {D : Type}.

(** Two components with the same class, grid and parameters: only the
    coordinates and the cached values differ. *)
Definition same_grid (g g' : ScaleFactor D) : Prop :=
  sf_class g = sf_class g' /\ n_parameters g = n_parameters g'
  /\ scale_factors g = scale_factors g'.

(** Two stores whose components are pairwise so. *)
Definition grids_kept (cs0 cs : list (ScaleFactor D)) : Prop :=
  length cs0 = length cs
  /\ forall i g0 g, cs0 !! i = Some g0 -> cs !! i = Some g -> same_grid g0 g.

(** Reflection [k] lies in the angular bin [i] and the radial bin [j], and
    [v] is the index of that pair of bins. *)
Definition in_first_bin `{Double D} (ab rb av rv : list D) (k : nat) (v : Z)
  : Prop :=
  exists i j lo hi lo' hi' a r,
    i < length ab - 1 /\ j < length rb - 1
    /\ v = Z.of_nat (i * (length rb - 1) + j)
    /\ ab !! i = Some lo /\ ab !! (i + 1) = Some hi
    /\ rb !! j = Some lo' /\ rb !! (j + 1) = Some hi'
    /\ av !! k = Some a /\ rv !! k = Some r
    /\ in_range lo hi a = true /\ in_range lo' hi' r = true.

(** Reflection [k] lies in the z bin [v]. *)
Definition in_second_bin `{Double D} (zb z : list D) (nzbins : Z) (k : nat)
    (v : Z) : Prop :=
  exists i lo hi x,
    i < Z.to_nat nzbins /\ v = Z.of_nat i
    /\ zb !! i = Some lo /\ zb !! (i + 1) = Some hi
    /\ z !! k = Some x /\ in_range lo hi x = true.


(** [t'] has the rows of [t] and its columns, those named in [names]
    apart. *)
Definition same_outside (names : list string)
    (t t' : flex_reflection_table D) : Prop :=
  nrows t' = nrows t
  /\ forall key, key ∉ names -> columns t' !! key = columns t !! key.

(** The columns that [Data_Manager.__init__] writes. *)
Definition derived_columns : list string :=
  ["x_value"; "y_value"; "z_value"; "inverse_scale_factor"; "Ih_values";
   "intensity"; "variance"; "asu_miller_index"].


End Predicates.

(** The fixture XDS data manager with boundaries for the z bins, which
    [bin_reflections_absorption_radially] expects to find. *)
Definition fixture_radial_manager (z_bins : list Q) : Data_Manager Q :=
  set_bin_boundaries (fixture_XDS_manager "standard")
    (Some (<["z_value" := z_bins]> ∅)).

(** The fixture XDS data manager ('standard' parameterization) after
    [expand_scales_to_all_reflections], and after
    [set_up_minimisation('g_decay')] with what that call returns. *)
Definition fixture_XDS_expanded : Data_Manager Q :=
  get_Ok empty_manager
    (XDS_expand_scales_to_all_reflections (HL := demo_libm_Q)
       (HC := demo_collaborators Q) (fixture_XDS_manager "standard")).

Definition fixture_XDS_minimised : Data_Manager Q * list Q :=
  get_Ok (empty_manager, [])
    (XDS_set_up_minimisation (fixture_XDS_manager "standard") "g_decay").

(** The aimless data manager of the fixture table, over the rationals, as
    [aimless_Data_Manager.__init__] has it when it calls
    [initialise_scale_factors]. *)
Definition fixture_aimless_start : Data_Manager Q :=
  get_Ok empty_manager
    (self ← Data_Manager_init (HL := demo_libm_Q)
              (HC := demo_collaborators Q) aimless_Data_Manager
              [generated_refl] generated_single_exp (xds_options "standard");
     Ok (set_n_active_params
           (set_binning_parameters self
              (override_binning_parameters aimless_binning_defaults
                 (xds_options "standard")))
           (Some 0%Z))).


(** * Properties *)

Section SelectVariablesFacts.
Context {D : Type} `{HD : Double D}.

Lemma select_variables_in_range_fold (l : list D) lo hi (acc : list bool) :
  fold_left
    (fun sel variable =>
       if in_range lo hi variable then sel ++ [true] else sel ++ [false])
    l acc
  = acc ++ map (in_range lo hi) l.
Proof.
  revert acc; induction l as [|x l IH]; intros acc; simpl.
  - by rewrite app_nil_r.
  - rewrite IH. destruct (in_range lo hi x); by rewrite <- app_assoc.
Qed.

Lemma select_variables_in_range_map (l : list D) lo hi :
  select_variables_in_range l lo hi = map (in_range lo hi) l.
Proof. apply select_variables_in_range_fold. Qed.

Lemma select_variables_in_range_length (l : list D) lo hi :
  length (select_variables_in_range l lo hi) = length l.
Proof. by rewrite select_variables_in_range_map, length_map. Qed.

Lemma select_variables_in_range_lookup (l : list D) lo hi (i : nat) :
  select_variables_in_range l lo hi !! i = in_range lo hi <$> l !! i.
Proof. by rewrite select_variables_in_range_map, list_lookup_fmap. Qed.

End SelectVariablesFacts.


(** *** The order on the rationals is lawful *)

Lemma Qltb_lt (x y : Q) : Qltb x y = true <-> (x < y)%Q.
Proof.
  unfold Qltb. rewrite negb_true_iff, <- not_true_iff_false, Qle_bool_iff.
  split; [apply Qnot_le_lt | apply Qlt_not_le].
Qed.

#[export] Instance DoubleOrder_Q : DoubleOrder Q.
Proof.
  constructor. intros x y z Hxy Hyz Hzx. simpl in *.
  apply Qle_bool_iff in Hxy, Hyz. apply Qltb_lt in Hzx.
  apply (Qlt_irrefl x). eapply Qle_lt_trans; [|exact Hzx].
  eapply Qle_trans; eassumption.
Qed.

(** C10. [select_variables_in_range] returns a boolean array as long as
    its input, which is [True] at position [i] exactly when
    [lower_limit < variable_array[i] <= upper_limit]; hence, over boundaries
    in increasing order, no value (one lying on a boundary included) is
    selected by two different intervals [(bins[i], bins[i+1]]]. *)
Theorem select_variables_in_range_spec
    {D : Type} `{DoubleOrder D}
    (variable_array : list D) (lower_limit upper_limit : D) :
  length (select_variables_in_range variable_array lower_limit upper_limit)
  = length variable_array
  /\ (forall i : nat,
        select_variables_in_range variable_array lower_limit upper_limit !! i
        = Some true
        <-> exists x, variable_array !! i = Some x
                      /\ dltb lower_limit x = true /\ dleb x upper_limit = true)
  /\ (forall (bins : list D) (i j k : nat) (lo1 hi1 lo2 hi2 : D),
        increasing bins -> i < j ->
        bins !! i = Some lo1 -> bins !! S i = Some hi1 ->
        bins !! j = Some lo2 -> bins !! S j = Some hi2 ->
        ~ (select_variables_in_range variable_array lo1 hi1 !! k = Some true
           /\ select_variables_in_range variable_array lo2 hi2 !! k = Some true)).
Proof.
  split; [apply select_variables_in_range_length|]. split.
  - intros i. rewrite select_variables_in_range_lookup.
    destruct (variable_array !! i) as [x|]; simpl.
    + unfold in_range. split.
      * intros [= Hx]. apply andb_true_iff in Hx. eauto.
      * intros (y & [= <-] & H1 & H2). by rewrite H1, H2.
    + split; [done | intros (x & ? & _); done].
  - intros bins i j k lo1 hi1 lo2 hi2 Hinc Hij Hlo1 Hhi1 Hlo2 Hhi2 [H1 H2].
    rewrite select_variables_in_range_lookup in H1, H2.
    destruct (variable_array !! k) as [x|]; simpl in *; [|done].
    injection H1 as H1. injection H2 as H2. unfold in_range in *.
    apply andb_true_iff in H1 as [_ Hle], H2 as [Hlt _].
    eapply (dle_le_lt_false x hi1 lo2); [exact Hle | | exact Hlt].
    eapply (Hinc (S i) j); [lia | eassumption..].
Qed.

Lemma select_variables_in_range_spec_witness :
  let variable_array := [3 # 2; 2 # 1; 3 # 1]%Q in
  length (select_variables_in_range variable_array (1 # 1)%Q (2 # 1)%Q) = 3
  /\ ~ (select_variables_in_range variable_array (1 # 1)%Q (2 # 1)%Q !! 1
        = Some true
        /\ select_variables_in_range variable_array (2 # 1)%Q (3 # 1)%Q !! 1
           = Some true).
Proof.
  intros variable_array.
  destruct (select_variables_in_range_spec variable_array (1 # 1)%Q (2 # 1)%Q)
    as (Hlen & _ & Hbins).
  split; [exact Hlen|].
  apply (Hbins [1 # 1; 2 # 1; 3 # 1]%Q 0 1 1
           (1 # 1)%Q (2 # 1)%Q (2 # 1)%Q (3 # 1)%Q);
    try reflexivity; try lia.
  intros a b x y Hab Ha Hb.
  destruct a as [|[|[|a]]], b as [|[|[|b]]]; simpl in Ha, Hb;
    try lia; try discriminate; injection Ha as <-; injection Hb as <-;
    reflexivity.
Defined.

(** ** Results: inversion of a sequence of fallible steps *)

Lemma rbind_Ok {A B} (m : result A) (k : A -> result B) (b : B) :
  m ≫= k = Ok b -> exists a, m = Ok a /\ k a = Ok b.
Proof. destruct m as [a|e]; simpl; [eauto | discriminate]. Qed.

Lemma rbind_Raise {A B} (m : result A) (k : A -> result B) (e : exception) :
  m ≫= k = Raise e ->
  m = Raise e \/ exists a, m = Ok a /\ k a = Raise e.
Proof. destruct m as [a|e']; simpl; [eauto | intros [= ->]; eauto]. Qed.

Lemma of_option_Ok {A} (e : exception) (o : option A) (a : A) :
  of_option e o = Ok a <-> o = Some a.
Proof. destruct o; simpl; split; congruence. Qed.

Lemma attr_Ok {A} (o : option A) (a : A) : attr o = Ok a <-> o = Some a.
Proof. apply of_option_Ok. Qed.

(** Splits a hypothesis [H : (x ← m; k) = Ok b] into its steps. *)
Ltac inv_bind H :=
  let a := fresh "a" in
  let Ha := fresh "E" in
  apply rbind_Ok in H; destruct H as (a & Ha & H); simpl in H.

Ltac inv_steps H :=
  repeat
    (match type of H with
     | (_ ≫= _) = Ok _ => inv_bind H
     | (let '(_, _) := ?p in _) = Ok _ => destruct p; simpl in H
     | (match ?p with (_, _) => _ end) = Ok _ => destruct p; simpl in H
     end).

(** ** Flex arrays and reflection tables *)

Lemma flex_zip_Ok {A B C} (f : A -> B -> C) (a : list A) (b : list B) c :
  flex_zip f a b = Ok c <-> length a = length b /\ c = zip_with f a b.
Proof.
  unfold flex_zip. destruct (Nat.eqb_spec (length a) (length b)); split.
  - by intros [= <-].
  - by intros [_ ->].
  - discriminate.
  - by intros [? _].
Qed.

Lemma flex_zip_length {A B C} (f : A -> B -> C) (a : list A) (b : list B) c :
  flex_zip f a b = Ok c -> length c = length a.
Proof.
  intros [Hlen ->]%flex_zip_Ok. rewrite length_zip_with. lia.
Qed.

Lemma set_selected_Ok {A} (array : list A) (flags : list bool) v c :
  set_selected array flags v = Ok c <->
  length array = length flags
  /\ c = zip_with (fun a (f : bool) => if f then v else a) array flags.
Proof. apply flex_zip_Ok. Qed.

Section TableFacts.
Context {D : Type}.

Lemma setitem_Ok (t t' : flex_reflection_table D) key c :
  setitem t key c = Ok t' <->
  col_size c = nrows t /\ t' = mk_table (nrows t) (<[key := c]> (columns t)).
Proof.
  unfold setitem. destruct (Nat.eqb_spec (col_size c) (nrows t)); split.
  - by intros [= <-].
  - by intros [_ ->].
  - discriminate.
  - by intros [? _].
Qed.

Lemma getitem_Ok (t : flex_reflection_table D) key c :
  getitem t key = Ok c <-> columns t !! key = Some c.
Proof. apply of_option_Ok. Qed.

Lemma get_double_Ok (t : flex_reflection_table D) key l :
  get_double t key = Ok l <-> columns t !! key = Some (flex_double l).
Proof.
  unfold get_double, getitem. destruct (columns t !! key) as [[]|]; simpl;
    split; congruence.
Qed.

Lemma get_double_setitem (t t' : flex_reflection_table D) key l :
  setitem t key (flex_double l) = Ok t' -> get_double t' key = Ok l.
Proof.
  intros [_ ->]%setitem_Ok. apply get_double_Ok. simpl.
  apply lookup_insert_eq.
Qed.

Lemma get_double_setitem_ne (t t' : flex_reflection_table D) key key' c l :
  setitem t key c = Ok t' -> key <> key' ->
  get_double t' key' = Ok l <-> get_double t key' = Ok l.
Proof.
  intros [_ ->]%setitem_Ok Hne. rewrite !get_double_Ok. simpl.
  by rewrite lookup_insert_ne.
Qed.

Lemma setitem_nrows (t t' : flex_reflection_table D) key c :
  setitem t key c = Ok t' -> nrows t' = nrows t.
Proof. by intros [_ ->]%setitem_Ok. Qed.

Lemma setitem_dom (t t' : flex_reflection_table D) key c :
  setitem t key c = Ok t' -> dom (columns t') = {[key]} ∪ dom (columns t).
Proof. intros [_ ->]%setitem_Ok. simpl. apply dom_insert_L. Qed.

End TableFacts.

Section OptionFacts.
Context {D : Type} `{HD : Double D}.



End OptionFacts.

(** ** C5: the fixed-Ih target on the fixture of the test *)

(** C5, as the spec prints the input. With the inverse scale factors
    [1.0, 0.909, 1.0], constant Ih 11.0, intensities [10, 10, 12] and unit
    weights, the residuals are not [-1.0, 0.0, 1.0]: the second one is
    about 0.001. *)
Lemma compute_residuals_spec_input :
  ~ exists weights,
      compute_residuals spec_single_Ih_table
      = Ok ([-1; 0; 1]%float, weights).
Proof.
  intros [weights Hw].
  apply (f_equal (fun r => match r with
                           | Ok ([_; x; _], _) => PrimFloat.eqb x 0
                           | _ => true
                           end)) in Hw.
  vm_compute in Hw. discriminate Hw.
Qed.

(** C5, amended. On the fixture [mock_single_Ih_table], whose inverse
    scale factors are [1.0, 1.0/1.1, 1.0], with constant Ih 11.0,
    intensities [10, 10, 12] and unit weights, [compute_residuals] returns
    exactly the residuals [-1.0, 0.0, 1.0] (and the weights) in binary64. *)
Theorem compute_residuals_fixture :
  compute_residuals mock_single_Ih_table
  = Ok ([-1; 0; 1]%float, [1; 1; 1]%float).
Proof. vm_compute. reflexivity. Qed.

(** ** C8: the rotation interval of the aimless terms *)

Section RotationInterval.
Context {D : Type} `{HD : Double D}.

(** Whenever the first lines of the two methods return, they return the
    constant [15.0 + 0.001]. *)
Lemma rotation_interval_Ok (osc_range : D * D) (r : D) :
  rotation_interval osc_range = Ok r -> r = dadd (dlit 15) (dlit (1 # 1000)).
Proof.
  unfold rotation_interval. intros Hr.
  inv_bind Hr. inv_bind Hr. by injection Hr as <-.
Qed.

(** Whenever [initialise_scale_term] returns, the method without the
    adaptive branch returns the same data manager. *)
Lemma initialise_scale_term_refines (self s : Data_Manager D) :
  initialise_scale_term self = Ok s -> initialise_scale_term_fixed self = Ok s.
Proof.
  unfold initialise_scale_term, initialise_scale_term_fixed. intros Hs.
  apply rbind_Ok in Hs as (r & Hr & Hs).
  apply rotation_interval_Ok in Hr. subst r. exact Hs.
Qed.

Lemma initialise_decay_term_refines (self s : Data_Manager D) :
  initialise_decay_term self = Ok s -> initialise_decay_term_fixed self = Ok s.
Proof.
  unfold initialise_decay_term, initialise_decay_term_fixed. intros Hs.
  apply rbind_Ok in Hs as (r & Hr & Hs).
  apply rotation_interval_Ok in Hr. subst r. exact Hs.
Qed.

(** The adaptive branch divides by the end of the oscillation range: when
    that end is zero the first lines raise. *)
Lemma rotation_interval_zero_end (osc_range : D * D) :
  deqb (dlit 15) (dlit 0) = false ->
  deqb osc_range.2 (dlit 0) = true ->
  dltb (dmod1 (ddiv osc_range.2 (dlit 15))) (dlit (33 # 100)) = true ->
  dint (ddiv osc_range.2 (dlit 15)) = Ok 0%Z ->
  rotation_interval osc_range = Raise ZeroDivisionError.
Proof.
  intros H15 H0 Hlt Hint. unfold rotation_interval, pydiv. cbv zeta.
  rewrite H15. simpl. rewrite Hlt. simpl. rewrite Hint. simpl.
  by rewrite H0.
Qed.

End RotationInterval.

(** On the rationals the first lines return exactly when the end of the
    oscillation range is not zero. *)
Lemma rotation_interval_Q (osc_range : Q * Q) :
  ~ (osc_range.2 == 0)%Q ->
  rotation_interval osc_range = Ok (15 + (1 # 1000))%Q.
Proof.
  intros Hne. unfold rotation_interval, pydiv. cbv zeta. simpl.
  assert (Qeq_bool osc_range.2 0 = false) as ->.
  { apply not_true_iff_false. intros Heq. by apply Qeq_bool_iff in Heq. }
  change (Qeq_bool 15 0) with false. simpl.
  by destruct (Qltb _ _).
Qed.

Lemma initialise_scale_term_Q (self : Data_Manager Q) :
  ~ ((oscillation_range (experiments self)).2 == 0)%Q ->
  initialise_scale_term self = initialise_scale_term_fixed self.
Proof.
  intros Hne. unfold initialise_scale_term, initialise_scale_term_fixed.
  by rewrite rotation_interval_Q.
Qed.

Lemma initialise_decay_term_Q (self : Data_Manager Q) :
  ~ ((oscillation_range (experiments self)).2 == 0)%Q ->
  initialise_decay_term self = initialise_decay_term_fixed self.
Proof.
  intros Hne. unfold initialise_decay_term, initialise_decay_term_fixed.
  by rewrite rotation_interval_Q.
Qed.

(** C8, at a scan that ends at zero degrees (oscillation range
    [(-61.0, 0.0)]), in binary64. [initialise_scale_term] and
    [initialise_decay_term] raise [ZeroDivisionError] in the adaptive
    branch, at [float(n_phi_bins)/osc_range[1]]; the methods without that
    branch return: the branch is not without effect. *)
Theorem initialise_terms_end_at_zero :
  is_Ok aimless_manager_ending_at_zero = true
  /\ (aimless_manager_ending_at_zero ≫= initialise_scale_term)
     = Raise ZeroDivisionError
  /\ (aimless_manager_ending_at_zero ≫= initialise_decay_term)
     = Raise ZeroDivisionError
  /\ is_Ok (aimless_manager_ending_at_zero ≫= initialise_scale_term_fixed)
     = true
  /\ is_Ok (aimless_manager_ending_at_zero ≫= initialise_decay_term_fixed)
     = true.
Proof. repeat split; vm_compute; reflexivity. Qed.

(** ** The store of scale-factor components *)

Section Components.
Context {D : Type} `{HD : Double D} `{HC : Collaborators D}.

Lemma same_grid_refl (g : ScaleFactor D) : same_grid g g.
Proof. by repeat split. Qed.

Lemma same_grid_trans (g1 g2 g3 : ScaleFactor D) :
  same_grid g1 g2 -> same_grid g2 g3 -> same_grid g1 g3.
Proof. intros (? & ? & ?) (? & ? & ?). repeat split; congruence. Qed.

Lemma grids_kept_refl (cs : list (ScaleFactor D)) : grids_kept cs cs.
Proof.
  split; [done|]. intros i g0 g Hg0 Hg1. rewrite Hg0 in Hg1.
  injection Hg1 as <-. apply same_grid_refl.
Qed.

Lemma grids_kept_insert (cs0 cs : list (ScaleFactor D)) i g g' :
  grids_kept cs0 cs -> cs !! i = Some g -> same_grid g g' ->
  grids_kept cs0 (<[i := g']> cs).
Proof.
  intros [Hlen HF] Hi Hg. split; [by rewrite length_insert|].
  intros j g0 g1 Hg0 Hg1. destruct (decide (i = j)) as [<-|Hne].
  - rewrite list_lookup_insert_eq in Hg1 by (by eapply lookup_lt_Some).
    injection Hg1 as <-. eapply same_grid_trans; [|exact Hg]. eauto.
  - rewrite list_lookup_insert_ne in Hg1 by done. eauto.
Qed.

Lemma grids_kept_lookup (cs0 cs : list (ScaleFactor D)) i g :
  grids_kept cs0 cs -> cs !! i = Some g ->
  exists g0, cs0 !! i = Some g0 /\ same_grid g0 g.
Proof.
  intros [Hlen HF] Hi.
  destruct (lookup_lt_is_Some_2 cs0 i) as [g0 Hg0].
  { rewrite Hlen. by eapply lookup_lt_Some. }
  eauto.
Qed.

Lemma update_component_Ok (self self' : Data_Manager D) r f :
  update_component self r f = Ok self' ->
  exists i g, r = Some i /\ components self !! i = Some g
              /\ self' = set_components self (<[i := f g]> (components self)).
Proof.
  unfold update_component. intros Hu. inv_steps Hu.
  apply attr_Ok in E. apply of_option_Ok in E0.
  injection Hu as <-. eauto.
Qed.

Lemma get_component_Ok (self : Data_Manager D) r g :
  get_component self r = Ok g <->
  exists i, r = Some i /\ components self !! i = Some g.
Proof.
  unfold get_component. split.
  - intros Hg. inv_steps Hg. apply attr_Ok in E. apply of_option_Ok in Hg.
    eauto.
  - intros (i & -> & Hi). simpl. by rewrite Hi.
Qed.

(** The columns read for [set_normalised_values]. *)
Lemma read_columns_Ok (t : flex_reflection_table D) names values :
  foldr (fun name acc => v ← get_double t name; vs ← acc; Ok (v :: vs))
    (Ok []) names = Ok values ->
  Forall2 (fun name v => get_double t name = Ok v) names values.
Proof.
  revert values. induction names as [|name names IH]; simpl; intros values Hv.
  - injection Hv as <-. constructor.
  - inv_steps Hv. injection Hv as <-. constructor; auto.
Qed.

Lemma call_set_normalised_values_Ok (self self' : Data_Manager D) r t names :
  call_set_normalised_values self r t names = Ok self' ->
  exists i g values,
    r = Some i /\ components self !! i = Some g
    /\ Forall2 (fun name v => get_double t name = Ok v) names values
    /\ self' = set_components self
                 (<[i := set_normalised_values g values]> (components self)).
Proof.
  unfold call_set_normalised_values. intros Hc. inv_steps Hc.
  apply read_columns_Ok in E0.
  apply update_component_Ok in Hc as (i & g & -> & Hi & ->).
  eauto 10.
Qed.

Lemma call_calculate_smooth_scales_Ok (self self' : Data_Manager D) r values :
  call_calculate_smooth_scales self r = Ok (self', values) ->
  exists i g,
    r = Some i /\ components self !! i = Some g
    /\ values = smooth_scales (sf_class g) (n_parameters g) (scale_factors g)
                  (normalised_values g)
    /\ self' = set_components self
                 (<[i := (calculate_smooth_scales g).1]> (components self)).
Proof.
  unfold call_calculate_smooth_scales. intros Hc. inv_steps Hc.
  apply get_component_Ok in E as (i & -> & Hi).
  apply update_component_Ok in E0 as (j & g & [= <-] & Hj & ->).
  injection Hc as <- <-. rewrite Hi in Hj. injection Hj as <-.
  exists i, a. by repeat split.
Qed.

(** One component is given the coordinates of a table and evaluated: the
    values are the interpolation of its own parameters at those
    coordinates, and no component changes class, grid or parameters. *)
Lemma set_then_calculate (cs0 : list (ScaleFactor D))
    (self a b : Data_Manager D) r t names values :
  grids_kept cs0 (components self) ->
  call_set_normalised_values self r t names = Ok a ->
  call_calculate_smooth_scales a r = Ok (b, values) ->
  exists i g0 cols,
    r = Some i /\ cs0 !! i = Some g0
    /\ Forall2 (fun name v => get_double t name = Ok v) names cols
    /\ values = smooth_scales (sf_class g0) (n_parameters g0)
                  (scale_factors g0) cols
    /\ grids_kept cs0 (components b)
    /\ b = set_components self (components b).
Proof.
  intros Hk Hset Hcalc.
  apply call_set_normalised_values_Ok in Hset
    as (i & g & cols & -> & Hi & Hcols & ->).
  apply call_calculate_smooth_scales_Ok in Hcalc
    as (j & g1 & [= <-] & Hj & -> & ->).
  simpl in Hj.
  rewrite list_lookup_insert_eq in Hj by (by eapply lookup_lt_Some).
  injection Hj as <-.
  destruct (grids_kept_lookup _ _ _ _ Hk Hi) as (g0 & Hg0 & Hs0 & Hs1 & Hs2).
  exists i, g0, cols. simpl.
  split; [done|]. split; [done|]. split; [done|].
  split; [by rewrite Hs0, Hs1, Hs2|]. split; [|done].
  eapply grids_kept_insert.
  - eapply grids_kept_insert; [exact Hk | exact Hi | by repeat split].
  - apply list_lookup_insert_eq. by eapply lookup_lt_Some.
  - by repeat split.
Qed.

End Components.

(** ** How the component values are combined *)

Section Parameterization.
Context {D : Type} `{HD : Double D} `{HL : Libm D} `{HC : Collaborators D}.



Lemma split_parameterisation_snoc (self : Data_Manager D)
    (param_name : string) (items : list (string * nat)) (item : string * nat) :
  split_parameterisation self param_name (items ++ [item])
  = ('(x, constant_g_values) ← split_parameterisation self param_name items;
     scalefactor ← get_component self (Some item.2);
     if bool_decide (param_name = item.1)
     then Ok (Some (get_scale_factors scalefactor), constant_g_values)
     else Ok (x, constant_g_values ++ [get_scales_of_reflections scalefactor])).
Proof. unfold split_parameterisation. by rewrite foldl_app. Qed.



End Parameterization.


(** ** Radial binning for the absorption correction *)

Lemma foldl_bind_Raise {A B} (step : A -> B -> result A) (l : list B) e :
  foldl (fun acc b => acc ≫= fun a => step a b) (Raise e) l = Raise e.
Proof. induction l as [|b l IH]; simpl; auto. Qed.

(** A loop whose body may raise: an invariant of the body holds at the
    end, when the loop ends. *)
Lemma foldl_bind_Ok {A B} (P : A -> Prop) (step : A -> B -> result A)
    (l : list B) (a0 a : A) :
  foldl (fun acc b => acc ≫= fun a => step a b) (Ok a0) l = Ok a ->
  P a0 ->
  (forall x b x', b ∈ l -> P x -> step x b = Ok x' -> P x') ->
  P a.
Proof.
  revert a0. induction l as [|b l IH]; simpl; intros a0 Hf H0 Hstep.
  - by injection Hf as <-.
  - destruct (step a0 b) as [a1|e] eqn:Hb.
    + eapply (IH a1); [exact Hf | |].
      * eapply Hstep; [left | exact H0 | exact Hb].
      * intros x b' x' Hin. apply Hstep. by right.
    + by rewrite foldl_bind_Raise in Hf.
Qed.

(** A loop raises what its body raises. *)
Lemma foldl_bind_raises {A B} (Q : exception -> Prop)
    (step : A -> B -> result A) (l : list B) (a0 : A) e :
  foldl (fun acc b => acc ≫= fun a => step a b) (Ok a0) l = Raise e ->
  (forall x b, step x b = Raise e -> Q e) ->
  Q e.
Proof.
  revert a0. induction l as [|b l IH]; simpl; intros a0 Hf Hstep.
  - discriminate.
  - destruct (step a0 b) as [a1|e'] eqn:Hb.
    + eapply IH; eauto.
    + rewrite foldl_bind_Raise in Hf. injection Hf as ->. eauto.
Qed.

Lemma of_option_Raise {A} (e e' : exception) (o : option A) :
  of_option e o = Raise e' -> e' = e.
Proof. destruct o; simpl; congruence. Qed.

Lemma flex_zip_Raise {A B C} (f : A -> B -> C) a b e :
  flex_zip f a b = Raise e -> e = RuntimeError.
Proof. unfold flex_zip. case_match; congruence. Qed.

Section RadialBinningFacts.
Context {D : Type} `{HD : Double D} `{HL : Libm D} `{HC : Collaborators D}.

Lemma get_double_Raise (t : flex_reflection_table D) key e :
  get_double t key = Raise e -> e = KeyError \/ e = TypeError.
Proof.
  unfold get_double, getitem. destruct (columns t !! key) as [[]|]; simpl;
    intros [= <-]; auto.
Qed.

Lemma setitem_Raise (t : flex_reflection_table D) key c e :
  setitem t key c = Raise e -> e = RuntimeError.
Proof. unfold setitem. case_match; congruence. Qed.

Lemma as_int_Raise (v : pyval D) e : as_int v = Raise e -> e = TypeError.
Proof. destruct v; simpl; congruence. Qed.

Lemma opt_is_Raise (options : gmap string (pyval D)) key name e :
  opt_is options key name = Raise e -> e = KeyError.
Proof.
  unfold opt_is, opt_get. destruct (options !! key); simpl; congruence.
Qed.

Lemma initial_g_value_Raise (self : Data_Manager D) e :
  initial_g_value self = Raise e -> e = KeyError.
Proof.
  unfold initial_g_value. intros [He|(b & _ & He)]%rbind_Raise.
  - by eapply opt_is_Raise.
  - discriminate.
Qed.

Lemma index_Raise {A} (l : list A) i e : index l i = Raise e -> e = IndexError.
Proof. apply of_option_Raise. Qed.

(** The assignment loops raise no [ValueError]. *)
Lemma assign_firstbin_index_Raise (av rv ab rb : list D) (fb : list Z) e :
  assign_firstbin_index av rv ab rb fb = Raise e -> e <> ValueError.
Proof.
  unfold assign_firstbin_index. intros Hf.
  eapply (foldl_bind_raises (fun e => e <> ValueError)) in Hf; [exact Hf|].
  clear Hf. intros x i Hstep.
  apply rbind_Raise in Hstep as [He|(lo & _ & Hstep)];
    [apply index_Raise in He; by subst|].
  apply rbind_Raise in Hstep as [He|(hi & _ & Hstep)];
    [apply index_Raise in He; by subst|].
  eapply (foldl_bind_raises (fun e => e <> ValueError)) in Hstep;
    [exact Hstep|].
  clear Hstep. intros y j Hstep.
  apply rbind_Raise in Hstep as [He|(lo' & _ & Hstep)];
    [apply index_Raise in He; by subst|].
  apply rbind_Raise in Hstep as [He|(hi' & _ & Hstep)];
    [apply index_Raise in He; by subst|].
  apply rbind_Raise in Hstep as [He|(sel & _ & Hstep)];
    [apply flex_zip_Raise in He; by subst|].
  apply flex_zip_Raise in Hstep. by subst.
Qed.

Lemma assign_secondbin_index_Raise (z zb : list D) (nz : Z) (sb : list Z) e :
  assign_secondbin_index z zb nz sb = Raise e -> e <> ValueError.
Proof.
  unfold assign_secondbin_index. intros Hf.
  eapply (foldl_bind_raises (fun e => e <> ValueError)) in Hf; [exact Hf|].
  clear Hf. intros x i Hstep.
  apply rbind_Raise in Hstep as [He|(lo & _ & Hstep)];
    [apply index_Raise in He; by subst|].
  apply rbind_Raise in Hstep as [He|(hi & _ & Hstep)];
    [apply index_Raise in He; by subst|].
  apply flex_zip_Raise in Hstep. by subst.
Qed.

(** Up to the end of its loops the method raises no [ValueError]. *)
Lemma radial_bin_indices_Raise (self : Data_Manager D) e :
  radial_bin_indices self = Raise e -> e <> ValueError.
Proof.
  unfold radial_bin_indices. intros Hr.
  repeat
    (apply rbind_Raise in Hr as [He|(? & _ & Hr)];
     [first
        [ apply of_option_Raise in He; by subst
        | apply get_double_Raise in He as [->| ->]; done
        | apply flex_zip_Raise in He; by subst
        | apply as_int_Raise in He; by subst
        | by eapply assign_firstbin_index_Raise
        | by eapply assign_secondbin_index_Raise ]
     |]).
  discriminate.
Qed.

Lemma set_selected_lookup {A} (array : list A) flags (value : A) c k v :
  set_selected array flags value = Ok c -> c !! k = Some v ->
  exists old (f : bool),
    array !! k = Some old /\ flags !! k = Some f
    /\ v = if f then value else old.
Proof.
  intros [_ ->]%set_selected_Ok Hk. rewrite lookup_zip_with in Hk.
  destruct (array !! k) as [old|]; simpl in Hk; [|done].
  destruct (flags !! k) as [f|]; simpl in Hk; [|done].
  injection Hk as <-. eauto.
Qed.

Lemma set_selected_length {A} (array : list A) flags (value : A) c :
  set_selected array flags value = Ok c -> length c = length array.
Proof. apply flex_zip_length. Qed.

(** X3. After the two nested loops over the angular and the radial bins
    every entry of the index array is the one it started with or the index
    [i * (len(radial_bins) - 1) + j] of a pair of bins [i], [j] whose
    intervals contain the angle and the radius of that reflection.  *)
Theorem assign_firstbin_index_spec (av rv ab rb : list D) (fb first : list Z) :
  assign_firstbin_index av rv ab rb fb = Ok first ->
  length first = length fb
  /\ forall k v, first !! k = Some v ->
       fb !! k = Some v \/ in_first_bin ab rb av rv k v.
Proof.
  unfold assign_firstbin_index. intros Hf.
  eapply (foldl_bind_Ok
            (fun x => length x = length fb
                      /\ forall k v, x !! k = Some v ->
                           fb !! k = Some v \/ in_first_bin ab rb av rv k v))
    in Hf; [exact Hf | by auto |].
  clear Hf first. intros x i x' Hi%elem_of_seq [Hlen Hx] Hstep.
  apply rbind_Ok in Hstep as (lo & Hlo%of_option_Ok & Hstep).
  apply rbind_Ok in Hstep as (hi & Hhi%of_option_Ok & Hstep).
  eapply (foldl_bind_Ok
            (fun x => length x = length fb
                      /\ forall k v, x !! k = Some v ->
                           fb !! k = Some v \/ in_first_bin ab rb av rv k v))
    in Hstep; [exact Hstep | by auto |].
  clear Hstep x x' Hlen Hx. intros y j y' Hj%elem_of_seq [Hlen Hy] Hstep.
  apply rbind_Ok in Hstep as (lo' & Hlo'%of_option_Ok & Hstep).
  apply rbind_Ok in Hstep as (hi' & Hhi'%of_option_Ok & Hstep).
  apply rbind_Ok in Hstep as (sel & [_ ->]%flex_zip_Ok & Hstep).
  split; [by rewrite (set_selected_length _ _ _ _ Hstep)|].
  intros k v Hk.
  destruct (set_selected_lookup _ _ _ _ _ _ Hstep Hk)
    as (old & f & Hold & Hf & ->).
  destruct f; [|by auto].
  right. rewrite lookup_zip_with in Hf.
  rewrite !select_variables_in_range_lookup in Hf.
  destruct (av !! k) as [a|] eqn:Ha; simpl in Hf; [|done].
  destruct (rv !! k) as [r|] eqn:Hr; simpl in Hf; [|done].
  injection Hf as Hf. apply andb_true_iff in Hf as [Hin1 Hin2].
  exists i, j, lo, hi, lo', hi', a, r.
  repeat split; try done; lia.
Qed.

(** X4. After the loop over the z bins every entry of the index array is
    the one it started with or the index [i < nzbins] of a bin whose
    interval [(z_bins[i], z_bins[i+1]]] contains the z value of that
    reflection. *)
Theorem assign_secondbin_index_spec (z zb : list D) (nz : Z)
    (sb second : list Z) :
  assign_secondbin_index z zb nz sb = Ok second ->
  length second = length sb
  /\ forall k v, second !! k = Some v ->
       sb !! k = Some v \/ in_second_bin zb z nz k v.
Proof.
  unfold assign_secondbin_index. intros Hf.
  eapply (foldl_bind_Ok
            (fun x => length x = length sb
                      /\ forall k v, x !! k = Some v ->
                           sb !! k = Some v \/ in_second_bin zb z nz k v))
    in Hf; [exact Hf | by auto |].
  clear Hf second. intros x i x' Hi%elem_of_seq [Hlen Hx] Hstep.
  apply rbind_Ok in Hstep as (lo & Hlo%of_option_Ok & Hstep).
  apply rbind_Ok in Hstep as (hi & Hhi%of_option_Ok & Hstep).
  split; [by rewrite (set_selected_length _ _ _ _ Hstep)|].
  intros k v Hk.
  destruct (set_selected_lookup _ _ _ _ _ _ Hstep Hk)
    as (old & f & Hold & Hf & ->).
  destruct f; [|by auto].
  right. rewrite select_variables_in_range_lookup in Hf.
  destruct (z !! k) as [a|] eqn:Ha; simpl in Hf; [|done].
  injection Hf as Hf.
  exists i, lo, hi, a. repeat split; try done; lia.
Qed.

Lemma count_pos (array : list Z) (value : Z) :
  (0 <? count array value) = true <-> value ∈ array.
Proof.
  unfold count. rewrite Nat.ltb_lt. induction array as [|x array IH].
  - simpl. split; [lia | by intros ?%elem_of_nil].
  - rewrite filter_cons. case_decide as Hx; simpl.
    + subst. split; [intros _; left | lia].
    + rewrite IH. split; [by right|]. by intros [?|?]%elem_of_cons.
Qed.

(** What the method has when its loops end: two arrays as long as the
    table, whose entries are [-1] or the index of a bin. *)
Lemma radial_bin_indices_Ok (self : Data_Manager D) first second nz :
  radial_bin_indices self = Ok (first, second, nz) ->
  exists sorted z_value,
    sorted_reflections self = Some sorted
    /\ get_double sorted "z_value" = Ok z_value
    /\ length first = length z_value /\ length second = length z_value
    /\ (forall k v, first !! k = Some v -> v = (-1)%Z \/ (0 <= v < 24)%Z)
    /\ (forall k v, second !! k = Some v -> v = (-1)%Z \/ (0 <= v < nz)%Z).
Proof.
  unfold radial_bin_indices. intros Hr.
  apply rbind_Ok in Hr as (? & _ & Hr).
  apply rbind_Ok in Hr as (nzbins & _ & Hr).
  apply rbind_Ok in Hr as (boundaries & _ & Hr).
  apply rbind_Ok in Hr as (z_bins & _ & Hr).
  apply rbind_Ok in Hr as (sorted & Hsorted%attr_Ok & Hr).
  apply rbind_Ok in Hr as (xvalues & _ & Hr).
  apply rbind_Ok in Hr as (yvalues & _ & Hr).
  cbv zeta in Hr.
  apply rbind_Ok in Hr as (r2 & _ & Hr).
  apply rbind_Ok in Hr as (q & _ & Hr).
  apply rbind_Ok in Hr as (angular_values & _ & Hr).
  apply rbind_Ok in Hr as (z_value & Hz & Hr).
  apply rbind_Ok in Hr as (fb & Hfb & Hr).
  apply rbind_Ok in Hr as (nz' & _ & Hr).
  apply rbind_Ok in Hr as (sb & Hsb & Hr).
  injection Hr as <- <- <-.
  apply assign_firstbin_index_spec in Hfb as [Hlen1 Hfirst].
  apply assign_secondbin_index_spec in Hsb as [Hlen2 Hsecond].
  rewrite length_replicate in Hlen1, Hlen2.
  exists sorted, z_value. repeat split; try done.
  - intros k v Hk. destruct (Hfirst k v Hk) as [Hrep|Hbin].
    + apply lookup_replicate in Hrep as [-> _]. by left.
    + right.
      destruct Hbin as (i & j & ? & ? & ? & ? & ? & ? & Hi & Hj & -> & _).
      change (length angular_bins - 1) with 8 in Hi.
      change (length (radial_bins (image_size (experiments self))) - 1)
        with 3 in Hj |- *.
      lia.
  - intros k v Hk. destruct (Hsecond k v Hk) as [Hrep|Hbin].
    + apply lookup_replicate in Hrep as [-> _]. by left.
    + right. destruct Hbin as (i & ? & ? & ? & Hi & -> & _). lia.
Qed.

(** X2. [bin_reflections_absorption_radially] raises [ValueError] if and
    only if its assignment loops end and leave some reflection with the bin
    index [-1], in the array of the angular and radial bins or in the array
    of the z bins. When it returns, the sorted table has a column
    ['a_bin_index'] with one entry per reflection, and every entry is
    [f + s * 8 * 3] for an angular-radial bin [0 <= f < 24] and a z bin
    [0 <= s < nzbins] that the loops assigned to the reflection. *)
Theorem bin_reflections_absorption_radially_spec (self : Data_Manager D) :
  (bin_reflections_absorption_radially self = Raise ValueError <->
   exists first second nz,
     radial_bin_indices self = Ok (first, second, nz)
     /\ ((-1)%Z ∈ first \/ (-1)%Z ∈ second))
  /\ (forall self',
        bin_reflections_absorption_radially self = Ok self' ->
        exists sorted z_value sorted' a_bin_index first second nz,
          sorted_reflections self = Some sorted
          /\ get_double sorted "z_value" = Ok z_value
          /\ radial_bin_indices self = Ok (first, second, nz)
          /\ sorted_reflections self' = Some sorted'
          /\ columns sorted' !! "a_bin_index" = Some (flex_int a_bin_index)
          /\ length a_bin_index = length z_value
          /\ forall k, k < length z_value ->
               exists f s,
                 first !! k = Some f /\ second !! k = Some s
                 /\ (0 <= f < 24)%Z /\ (0 <= s < nz)%Z
                 /\ a_bin_index !! k = Some (f + s * 8 * 3)%Z).
Proof.
  unfold bin_reflections_absorption_radially. split; [split|].
  - intros [Hr|([[first second] nz] & Hr & Hrest)]%rbind_Raise.
    { by apply radial_bin_indices_Raise in Hr. }
    exists first, second, nz. split; [done|].
    destruct (0 <? count first (-1)) eqn:Hc1;
      [left; by apply count_pos|].
    destruct (0 <? count second (-1)) eqn:Hc2;
      [right; by apply count_pos|].
    simpl in Hrest. exfalso.
    apply rbind_Raise in Hrest as [He|(sorted & _ & Hrest)];
      [by apply of_option_Raise in He|].
    apply rbind_Raise in Hrest as [He|(a & _ & Hrest)];
      [by apply flex_zip_Raise in He|].
    apply rbind_Raise in Hrest as [He|(sorted' & _ & Hrest)];
      [by apply setitem_Raise in He|].
    apply rbind_Raise in Hrest as [He|(g0 & _ & Hrest)];
      [by apply initial_g_value_Raise in He|].
    discriminate.
  - intros (first & second & nz & -> & Hin). simpl.
    destruct Hin as [Hin|Hin]; apply count_pos in Hin; rewrite Hin; simpl;
      [done|]. by rewrite orb_true_r.
  - intros self' Hb.
    apply rbind_Ok in Hb as ([[first second] nz] & Hr & Hb).
    destruct (0 <? count first (-1)) eqn:Hc1; [discriminate|].
    destruct (0 <? count second (-1)) eqn:Hc2; [discriminate|].
    simpl in Hb.
    apply rbind_Ok in Hb as (sorted & Hsorted%attr_Ok & Hb).
    apply rbind_Ok in Hb as (a & [Hlen ->]%flex_zip_Ok & Hb).
    apply rbind_Ok in Hb as (sorted' & [_ ->]%setitem_Ok & Hb).
    apply rbind_Ok in Hb as (g0 & _ & Hb). injection Hb as <-.
    destruct (radial_bin_indices_Ok _ _ _ _ Hr)
      as (sorted0 & z_value & Hsorted0 & Hz & Hl1 & Hl2 & Hf & Hs).
    assert (sorted0 = sorted) as -> by congruence.
    exists sorted, z_value. eexists _, _. exists first, second, nz.
    split; [done|]. split; [done|]. split; [done|].
    split; [reflexivity|]. split; [apply lookup_insert_eq|].
    rewrite length_map in Hlen.
    split; [rewrite length_zip_with, length_map; lia|].
    intros k Hk.
    destruct (lookup_lt_is_Some_2 first k) as [f Hfk]; [lia|].
    destruct (lookup_lt_is_Some_2 second k) as [s Hsk]; [lia|].
    exists f, s. split; [done|]. split; [done|].
    assert (f <> (-1)%Z) as Hf1.
    { intros ->. apply not_true_iff_false in Hc1. apply Hc1, count_pos.
      by eapply list_elem_of_lookup_2. }
    assert (s <> (-1)%Z) as Hs1.
    { intros ->. apply not_true_iff_false in Hc2. apply Hc2, count_pos.
      by eapply list_elem_of_lookup_2. }
    split; [destruct (Hf k f Hfk); [done|lia]|].
    split; [destruct (Hs k s Hsk); [done|lia]|].
    rewrite lookup_zip_with, list_lookup_fmap, Hfk, Hsk. reflexivity.
Qed.

End RadialBinningFacts.

Lemma assign_firstbin_index_spec_witness :
  [(-1)%Z] !! 0 = Some 0%Z
  \/ in_first_bin [0; 2]%Q [0; 2]%Q [1]%Q [1]%Q 0 0%Z.
Proof.
  destruct (assign_firstbin_index_spec [1]%Q [1]%Q [0; 2]%Q [0; 2]%Q
              [(-1)%Z] [0%Z]) as [_ Hbin]; [vm_compute; reflexivity|].
  apply (Hbin 0 0%Z). reflexivity.
Defined.

Lemma assign_secondbin_index_spec_witness :
  [(-1)%Z; (-1)%Z] !! 1 = Some 1%Z
  \/ in_second_bin [0; 2; 4]%Q [1; 3]%Q 2 1 1%Z.
Proof.
  destruct (assign_secondbin_index_spec [1; 3]%Q [0; 2; 4]%Q 2
              [(-1)%Z; (-1)%Z] [0%Z; 1%Z]) as [_ Hbin];
    [vm_compute; reflexivity|].
  apply (Hbin 1 1%Z). reflexivity.
Defined.

Lemma bin_reflections_absorption_radially_spec_witness :
  bin_reflections_absorption_radially (HL := demo_libm_Q)
    (fixture_radial_manager [-1; 5; 6]%Q)
  = Raise ValueError.
Proof.
  apply bin_reflections_absorption_radially_spec.
  exists [0; 0; 0]%Z, [0; -1; 0]%Z, 2%Z. split.
  - vm_compute. reflexivity.
  - right. apply list_elem_of_In. right. left. reflexivity.
Defined.

(** ** The aimless terms and the fixed rotation interval *)

(** X5. Whenever [initialise_scale_term] returns, the method with the
    adaptive branch taken out and the interval fixed at [15.0 + 0.001]
    returns the same data manager; the same holds of
    [initialise_decay_term]. The value the adaptive branch computes never
    reaches the normalised columns. *)
Theorem initialise_terms_refine
    {D : Type} `{HD : Double D} (self : Data_Manager D) :
  (forall s, initialise_scale_term self = Ok s ->
             initialise_scale_term_fixed self = Ok s)
  /\ (forall s, initialise_decay_term self = Ok s ->
                initialise_decay_term_fixed self = Ok s).
Proof.
  split; intros s Hs.
  - by apply initialise_scale_term_refines.
  - by apply initialise_decay_term_refines.
Qed.

Lemma initialise_terms_refine_witness :
  initialise_scale_term_fixed fixture_aimless_start
  = Ok (get_Ok empty_manager (initialise_scale_term fixture_aimless_start)).
Proof.
  assert (initialise_scale_term fixture_aimless_start
          = Ok (get_Ok empty_manager
                  (initialise_scale_term fixture_aimless_start))) as Hs
    by (vm_compute; reflexivity).
  exact (proj1 (initialise_terms_refine fixture_aimless_start) _ Hs).
Defined.

(** X6. In exact arithmetic, for every oscillation range that does not end
    at zero, [initialise_scale_term] and [initialise_decay_term] behave as
    the methods with the fixed interval do, errors included. *)
Theorem initialise_terms_fixed_Q (self : Data_Manager Q) :
  ~ ((oscillation_range (experiments self)).2 == 0)%Q ->
  initialise_scale_term self = initialise_scale_term_fixed self
  /\ initialise_decay_term self = initialise_decay_term_fixed self.
Proof.
  intros Hne. split.
  - by apply initialise_scale_term_Q.
  - by apply initialise_decay_term_Q.
Qed.

Lemma initialise_terms_fixed_Q_witness :
  initialise_scale_term fixture_aimless_start
  = initialise_scale_term_fixed fixture_aimless_start
  /\ initialise_decay_term fixture_aimless_start
     = initialise_decay_term_fixed fixture_aimless_start.
Proof.
  assert (~ ((oscillation_range (experiments fixture_aimless_start)).2
             == 0)%Q) as Hne
    by (vm_compute; discriminate).
  exact (initialise_terms_fixed_Q fixture_aimless_start Hne).
Defined.

(** ** [clean_reflection_table] *)

Section Clean.
Context {D : Type}.

Lemma elem_of_keys (t : flex_reflection_table D) (key : string) :
  key ∈ keys t <-> is_Some (columns t !! key).
Proof.
  unfold keys. rewrite list_elem_of_fmap. split.
  - intros ([k c] & -> & Hin). apply elem_of_map_to_list in Hin. eauto.
  - intros [c Hc]. exists (key, c). split; [done|].
    by apply elem_of_map_to_list.
Qed.

Lemma foldl_delitem_nrows (t : flex_reflection_table D) (l : list string) :
  nrows (foldl delitem t l) = nrows t.
Proof.
  revert t. induction l as [|k l IH]; intros t; simpl; [done|].
  by rewrite IH.
Qed.

Lemma foldl_delitem_lookup (t : flex_reflection_table D) (l : list string)
    (key : string) :
  columns (foldl delitem t l) !! key
  = if decide (key ∈ l) then None else columns t !! key.
Proof.
  revert t. induction l as [|k l IH]; intros t; simpl.
  - by destruct (decide (key ∈ [])) as [Hin%elem_of_nil|].
  - rewrite IH. cbn [delitem columns].
    destruct (decide (key ∈ l)) as [Hin|Hin],
      (decide (key ∈ k :: l)) as [Hin'|Hin']; try done.
    + exfalso. apply Hin'. by right.
    + apply elem_of_cons in Hin' as [->|?]; [|done].
      apply lookup_delete_eq.
    + apply lookup_delete_ne. intros ->. apply Hin'. by left.
Qed.

Lemma foldl_cond_delitem_nrows (ik : list string)
    (t : flex_reflection_table D) (l : list string) :
  nrows (foldl (fun t key => if bool_decide (key ∈ ik) then t
                             else delitem t key) t l)
  = nrows t.
Proof.
  revert t. induction l as [|k l IH]; intros t; simpl; [done|].
  rewrite IH. by case_bool_decide.
Qed.

Lemma foldl_cond_delitem_lookup (ik : list string)
    (t : flex_reflection_table D) (l : list string) (key : string) :
  columns (foldl (fun t key => if bool_decide (key ∈ ik) then t
                               else delitem t key) t l) !! key
  = if decide (key ∈ l /\ key ∉ ik) then None else columns t !! key.
Proof.
  revert t. induction l as [|k l IH]; intros t; simpl.
  - by destruct (decide (key ∈ [] /\ key ∉ ik)) as [[Hin%elem_of_nil _]|].
  - rewrite IH.
    destruct (decide (key ∈ l /\ key ∉ ik)) as [[Hin Hik]|Hin],
      (decide (key ∈ k :: l /\ key ∉ ik)) as [[Hin' Hik']|Hin']; try done.
    + exfalso. apply Hin'. split; [by right|done].
    + apply elem_of_cons in Hin' as [->|?]; [|by destruct Hin].
      rewrite bool_decide_eq_false_2 by done. apply lookup_delete_eq.
    + case_bool_decide as Hk; [done|]. apply lookup_delete_ne.
      intros ->. apply Hin'. split; [by left|done].
Qed.

End Clean.

Section CleanSpec.
Context {D : Type}.

(** X7. When the sorted table exists, [XDS_Data_Manager.clean_reflection_table]
    returns. It appends ['inverse_scale_factor'] to [initial_keys], keeps
    the number of rows, and leaves in the sorted table exactly the columns
    that are not named in [added_columns] and that are an initial key,
    ['inverse_scale_factor'] or no column of [reflection_table]; the
    columns it leaves keep their contents. *)
Theorem XDS_clean_reflection_table_spec
    (self : Data_Manager D) (sorted : flex_reflection_table D) :
  sorted_reflections self = Some sorted ->
  exists self' sorted',
    XDS_clean_reflection_table self = Ok self'
    /\ sorted_reflections self' = Some sorted'
    /\ initial_keys self' = initial_keys self ++ ["inverse_scale_factor"]
    /\ reflection_table self' = reflection_table self
    /\ nrows sorted' = nrows sorted
    /\ forall key : string,
         columns sorted' !! key
         = if decide (key ∈ XDS_added_columns
                      \/ (is_Some (columns (reflection_table self) !! key)
                          /\ key ∉ initial_keys self
                                    ++ ["inverse_scale_factor"]))
           then None else columns sorted !! key.
Proof.
  intros Hsorted. unfold XDS_clean_reflection_table. cbv zeta.
  cbn [sorted_reflections set_initial_keys]. rewrite Hsorted.
  eexists _, _. split; [reflexivity|].
  cbn [sorted_reflections set_sorted_reflections set_initial_keys
       initial_keys reflection_table].
  split; [reflexivity|]. split; [reflexivity|]. split; [reflexivity|].
  split.
  - by rewrite foldl_delitem_nrows, foldl_cond_delitem_nrows.
  - intros key. rewrite foldl_delitem_lookup, foldl_cond_delitem_lookup.
    destruct (decide (key ∈ XDS_added_columns)) as [Hadd|Hadd].
    { rewrite decide_True by (by left). done. }
    destruct (decide (key ∈ keys (reflection_table self)
                      /\ key ∉ initial_keys self ++ ["inverse_scale_factor"]))
      as [[Hk Hik]|Hk].
    { rewrite decide_True; [done|]. right. by rewrite <- elem_of_keys. }
    rewrite decide_False; [done|]. intros [?|[Hin Hik]]; [done|].
    apply Hk. by rewrite elem_of_keys.
Qed.


(** X8. When the sorted table exists, [aimless_Data_Manager.clean_reflection_table]
    returns. It appends ['inverse_scale_factor'] to [initial_keys], keeps
    the number of rows, and leaves in the sorted table exactly the columns
    that are not named in [added_columns] and that are an initial key,
    ['inverse_scale_factor'] or no column of [reflection_table]; the
    columns it leaves keep their contents. *)
Theorem aimless_clean_reflection_table_spec
    (self : Data_Manager D) (sorted : flex_reflection_table D) :
  sorted_reflections self = Some sorted ->
  exists self' sorted',
    aimless_clean_reflection_table self = Ok self'
    /\ sorted_reflections self' = Some sorted'
    /\ initial_keys self' = initial_keys self ++ ["inverse_scale_factor"]
    /\ reflection_table self' = reflection_table self
    /\ nrows sorted' = nrows sorted
    /\ forall key : string,
         columns sorted' !! key
         = if decide (key ∈ aimless_added_columns
                      \/ (is_Some (columns (reflection_table self) !! key)
                          /\ key ∉ initial_keys self
                                    ++ ["inverse_scale_factor"]))
           then None else columns sorted !! key.
Proof.
  intros Hsorted. unfold aimless_clean_reflection_table. cbv zeta.
  cbn [sorted_reflections set_initial_keys]. rewrite Hsorted.
  eexists _, _. split; [reflexivity|].
  cbn [sorted_reflections set_sorted_reflections set_initial_keys
       initial_keys reflection_table].
  split; [reflexivity|]. split; [reflexivity|]. split; [reflexivity|].
  split.
  - by rewrite foldl_delitem_nrows, foldl_cond_delitem_nrows.
  - intros key. rewrite foldl_delitem_lookup, foldl_cond_delitem_lookup.
    destruct (decide (key ∈ aimless_added_columns)) as [Hadd|Hadd].
    { rewrite decide_True by (by left). done. }
    destruct (decide (key ∈ keys (reflection_table self)
                      /\ key ∉ initial_keys self ++ ["inverse_scale_factor"]))
      as [[Hk Hik]|Hk].
    { rewrite decide_True; [done|]. right. by rewrite <- elem_of_keys. }
    rewrite decide_False; [done|]. intros [?|[Hin Hik]]; [done|].
    apply Hk. by rewrite elem_of_keys.
Qed.


Lemma reflection_table_eq (t t' : flex_reflection_table D) :
  nrows t = nrows t' ->
  (forall key : string, columns t !! key = columns t' !! key) ->
  t = t'.
Proof.
  destruct t as [n c], t' as [n' c']. simpl. intros -> Hc.
  f_equal. by apply map_eq.
Qed.

(** X9. A second call of [XDS_Data_Manager.clean_reflection_table] leaves
    the sorted table as the first call left it, but appends
    ['inverse_scale_factor'] to [initial_keys] a second time. *)
Theorem XDS_clean_reflection_table_twice (self s1 : Data_Manager D) :
  XDS_clean_reflection_table self = Ok s1 ->
  exists s2,
    XDS_clean_reflection_table s1 = Ok s2
    /\ sorted_reflections s2 = sorted_reflections s1
    /\ initial_keys s2
       = initial_keys self
         ++ ["inverse_scale_factor"; "inverse_scale_factor"].
Proof.
  intros H1.
  destruct (sorted_reflections self) as [sorted|] eqn:Hsorted.
  2: { unfold XDS_clean_reflection_table in H1. cbv zeta in H1.
       cbn [sorted_reflections set_initial_keys] in H1.
       by rewrite Hsorted in H1. }
  destruct (XDS_clean_reflection_table_spec self sorted Hsorted)
    as (s1' & sorted1 & H1' & Hs1 & Hik1 & Hrt1 & Hn1 & Hc1).
  rewrite H1 in H1'. injection H1' as <-.
  destruct (XDS_clean_reflection_table_spec s1 sorted1 Hs1)
    as (s2 & sorted2 & H2 & Hs2 & Hik2 & Hrt2 & Hn2 & Hc2).
  exists s2. split; [done|]. split.
  - rewrite Hs1, Hs2. f_equal. apply reflection_table_eq; [done|].
    intros key. rewrite Hc2, Hc1, Hrt1, Hik1.
    destruct (decide (key ∈ XDS_added_columns)) as [Hadd|Hadd].
    { rewrite !decide_True by (by left). done. }
    destruct (decide (is_Some (columns (reflection_table self) !! key)
                      /\ key ∉ initial_keys self ++ ["inverse_scale_factor"]))
      as [[Hk Hik]|Hk].
    { rewrite (decide_True (P := _ \/ (_ /\ key ∉ initial_keys self ++ _)))
        by (by right).
      by case_decide. }
    rewrite decide_False; [done|]. intros [?|[Hin Hik]]; [done|].
    apply Hk. split; [done|]. intros Hin'. apply Hik.
    apply elem_of_app. by left.
  - rewrite Hik2, Hik1. by rewrite <- app_assoc.
Qed.

End CleanSpec.

Lemma XDS_clean_reflection_table_spec_witness :
  exists self' sorted',
    XDS_clean_reflection_table fixture_XDS_expanded = Ok self'
    /\ sorted_reflections self' = Some sorted'
    /\ columns sorted' !! "normalised_x_values" = None.
Proof.
  destruct (XDS_clean_reflection_table_spec fixture_XDS_expanded
              (default (mk_table 0 ∅)
                 (sorted_reflections fixture_XDS_expanded)))
    as (self' & sorted' & Hc & Hs & _ & _ & _ & Hcols);
    [vm_compute; reflexivity|].
  exists self', sorted'. split; [exact Hc|]. split; [exact Hs|].
  rewrite Hcols. apply decide_True. left. vm_compute.
  apply list_elem_of_In. simpl. tauto.
Defined.

Lemma aimless_clean_reflection_table_spec_witness :
  exists self' sorted',
    aimless_clean_reflection_table fixture_aimless_start = Ok self'
    /\ sorted_reflections self' = Some sorted'
    /\ columns sorted' !! "asu_miller_index" = None.
Proof.
  destruct (aimless_clean_reflection_table_spec fixture_aimless_start
              (default (mk_table 0 ∅)
                 (sorted_reflections fixture_aimless_start)))
    as (self' & sorted' & Hc & Hs & _ & _ & _ & Hcols);
    [vm_compute; reflexivity|].
  exists self', sorted'. split; [exact Hc|]. split; [exact Hs|].
  rewrite Hcols. apply decide_True. left. vm_compute.
  apply list_elem_of_In. simpl. tauto.
Defined.

Lemma XDS_clean_reflection_table_twice_witness :
  exists s2,
    XDS_clean_reflection_table
      (get_Ok empty_manager (XDS_clean_reflection_table fixture_XDS_expanded))
    = Ok s2.
Proof.
  destruct (XDS_clean_reflection_table_twice fixture_XDS_expanded
              (get_Ok empty_manager
                 (XDS_clean_reflection_table fixture_XDS_expanded)))
    as (s2 & H2 & _); [vm_compute; reflexivity|].
  exists s2. exact H2.
Defined.

(** ** [set_up_minimisation] *)

Section SetUp.
Context {D : Type} `{HD : Double D}.

Lemma split_parameterisation_active (self : Data_Manager D)
    (param_name : string) (items : list (string * nat)) x constant :
  split_parameterisation self param_name items = Ok (x, constant) ->
  match x with
  | Some xs =>
      exists i g, (param_name, i) ∈ items /\ components self !! i = Some g
                  /\ xs = scale_factors g
  | None => param_name ∉ items.*1
  end.
Proof.
  revert x constant. induction items as [|item items IH] using rev_ind;
    intros x constant Hs.
  - injection Hs as <- <-. apply not_elem_of_nil.
  - rewrite split_parameterisation_snoc in Hs.
    apply rbind_Ok in Hs as ([x0 c0] & H0 & Hs). simpl in Hs.
    apply rbind_Ok in Hs as (g & (i & [= <-] & Hi)%get_component_Ok & Hs).
    apply IH in H0. destruct item as [name i]. simpl in *.
    case_bool_decide as Hname.
    + injection Hs as <- <-. subst name. exists i, g.
      split; [|done]. apply elem_of_app. right. by left.
    + injection Hs as <- <-. destruct x0 as [xs|].
      * destruct H0 as (j & g' & Hin & Hj & ->). exists j, g'.
        split; [|done]. apply elem_of_app. by left.
      * rewrite fmap_app. intros [Hin|Hin]%elem_of_app; [done|].
        simpl in Hin. apply list_elem_of_singleton in Hin. done.
Qed.

(** X10. [XDS_Data_Manager.set_up_minimisation] returns only when
    [param_name] is a key of [g_parameterisation]; it then returns the
    parameters of that component, records the name in
    [active_parameterisation] and their number in [n_active_params], and
    changes neither the components nor the tables. *)
Theorem XDS_set_up_minimisation_spec (self self' : Data_Manager D)
    (param_name : string) (x : list D) :
  XDS_set_up_minimisation self param_name = Ok (self', x) ->
  exists items i g,
    g_parameterisation self = Some items
    /\ (param_name, i) ∈ items /\ components self !! i = Some g
    /\ x = scale_factors g
    /\ active_parameterisation self' = Some param_name
    /\ n_active_params self' = Some (Z.of_nat (length x))
    /\ components self' = components self
    /\ sorted_reflections self' = sorted_reflections self
    /\ reflections_for_scaling self' = reflections_for_scaling self.
Proof.
  unfold XDS_set_up_minimisation. intros Hmin.
  apply rbind_Ok in Hmin as (items & Hitems%attr_Ok & Hmin).
  apply rbind_Ok in Hmin as ([x' constant] & Hsplit & Hmin).
  apply rbind_Ok in Hmin as (is_standard & Hstd & Hmin).
  apply rbind_Ok in Hmin as (s & Hs & Hmin).
  apply rbind_Ok in Hmin as (x'' & Hx%of_option_Ok & Hmin).
  injection Hmin as <- <-. subst x'.
  apply split_parameterisation_active in Hsplit as (i & g & Hin & Hi & ->).
  exists items, i, g. do 4 (split; [done|]).
  destruct is_standard.
  - apply rbind_Ok in Hs as (c & _ & Hs). by injection Hs as <-.
  - apply rbind_Ok in Hs as (is_log & _ & Hs). destruct is_log.
    + apply rbind_Ok in Hs as (c & _ & Hs). by injection Hs as <-.
    + by injection Hs as <-.
Qed.

(** X11. For a parameterization that is neither ['standard'] nor ['log'],
    [set_up_minimisation] leaves [constant_g_values] as it was. *)
Theorem XDS_set_up_minimisation_other (self self' : Data_Manager D)
    (param_name : string) (x : list D) :
  XDS_set_up_minimisation self param_name = Ok (self', x) ->
  opt_is (scaling_options self) "parameterization" "standard" = Ok false ->
  opt_is (scaling_options self) "parameterization" "log" = Ok false ->
  constant_g_values self' = constant_g_values self.
Proof.
  unfold XDS_set_up_minimisation. intros Hmin Hstd Hlog.
  apply rbind_Ok in Hmin as (items & Hitems%attr_Ok & Hmin).
  apply rbind_Ok in Hmin as ([x' constant] & Hsplit & Hmin).
  apply rbind_Ok in Hmin as (is_standard & Hstd' & Hmin).
  apply rbind_Ok in Hmin as (s & Hs & Hmin).
  apply rbind_Ok in Hmin as (x'' & Hx%of_option_Ok & Hmin).
  injection Hmin as <- <-. subst x'. cbn in Hstd', Hs.
  rewrite Hstd in Hstd'. injection Hstd' as <-.
  rewrite Hlog in Hs. simpl in Hs. by injection Hs as <-.
Qed.

End SetUp.

Lemma XDS_set_up_minimisation_spec_witness :
  exists items i g,
    g_parameterisation (fixture_XDS_manager "standard") = Some items
    /\ (("g_decay" : string), i) ∈ items
    /\ components (fixture_XDS_manager "standard") !! i = Some g
    /\ fixture_XDS_minimised.2 = scale_factors g.
Proof.
  destruct (XDS_set_up_minimisation_spec (fixture_XDS_manager "standard")
              fixture_XDS_minimised.1 "g_decay" fixture_XDS_minimised.2)
    as (items & i & g & H1 & H2 & H3 & H4 & _); [vm_compute; reflexivity|].
  exists items, i, g. exact (conj H1 (conj H2 (conj H3 H4))).
Defined.

Lemma XDS_set_up_minimisation_other_witness :
  constant_g_values
    (get_Ok (empty_manager, [])
       (XDS_set_up_minimisation (fixture_XDS_manager "other") "g_decay")).1
  = constant_g_values (fixture_XDS_manager "other").
Proof.
  apply (XDS_set_up_minimisation_other (fixture_XDS_manager "other") _
           "g_decay"
           (get_Ok (empty_manager, [])
              (XDS_set_up_minimisation (fixture_XDS_manager "other")
                 "g_decay")).2);
    vm_compute; reflexivity.
Defined.

(** ** Bins that cover a value *)

Lemma Qle_bool_false (x y : Q) : Qle_bool x y = false <-> (y < x)%Q.
Proof.
  rewrite <- not_true_iff_false, Qle_bool_iff.
  split; [apply Qnot_le_lt | apply Qlt_not_le].
Qed.

Lemma bins_cover (bins : list Q) (v lo hi : Q) :
  bins !! 0 = Some lo -> last bins = Some hi ->
  (lo < v)%Q -> (v <= hi)%Q ->
  exists i a b, bins !! i = Some a /\ bins !! S i = Some b
                /\ in_range a b v = true.
Proof.
  revert lo. induction bins as [|x bins IH]; intros lo Hlo Hhi Hlt Hle;
    [done|].
  injection Hlo as Hx. subst x. destruct bins as [|y bins].
  - injection Hhi as Hx. subst hi. exfalso. apply (Qlt_irrefl v).
    eapply Qle_lt_trans; eassumption.
  - destruct (Qle_bool v y) eqn:Hy.
    + exists 0, lo, y. repeat split; try done. unfold in_range. simpl.
      rewrite Hy, andb_true_r. by apply Qltb_lt.
    + apply Qle_bool_false in Hy.
      destruct (IH y eq_refl Hhi Hy Hle) as (i & a & b & Ha & Hb & Hin).
      exists (S i), a, b. by repeat split.
Qed.

(** X12. Over the rationals, when the first boundary is below a value and
    the last boundary is not, some interval [(bins[i], bins[i+1]]] of
    adjacent boundaries selects the value: boundaries that span the data
    leave no value without a bin. *)
Theorem select_variables_in_range_covers
    (bins variable_array : list Q) (k : nat) (v lo hi : Q) :
  variable_array !! k = Some v ->
  bins !! 0 = Some lo -> last bins = Some hi ->
  (lo < v)%Q -> (v <= hi)%Q ->
  exists i a b,
    bins !! i = Some a /\ bins !! S i = Some b
    /\ select_variables_in_range variable_array a b !! k = Some true.
Proof.
  intros Hk Hlo Hhi Hlt Hle.
  destruct (bins_cover bins v lo hi Hlo Hhi Hlt Hle)
    as (i & a & b & Ha & Hb & Hin).
  exists i, a, b. split; [done|]. split; [done|].
  by rewrite select_variables_in_range_lookup, Hk; simpl; rewrite Hin.
Qed.

Lemma select_variables_in_range_covers_witness :
  exists i a b,
    [0; 5; 10]%Q !! i = Some a /\ [0; 5; 10]%Q !! S i = Some b
    /\ select_variables_in_range [7]%Q a b !! 0 = Some true.
Proof.
  apply (select_variables_in_range_covers [0; 5; 10]%Q [7]%Q 0 7%Q 0%Q 10%Q);
    vm_compute; congruence.
Defined.

Lemma foldl_bind_app_Ok {A B} (step : A -> B -> result A) (l1 l2 : list B)
    (a0 a : A) :
  foldl (fun acc b => acc ≫= fun a => step a b) (Ok a0) (l1 ++ l2) = Ok a ->
  exists a1,
    foldl (fun acc b => acc ≫= fun a => step a b) (Ok a0) l1 = Ok a1
    /\ foldl (fun acc b => acc ≫= fun a => step a b) (Ok a1) l2 = Ok a.
Proof.
  rewrite foldl_app. intros Hf.
  destruct (foldl _ (Ok a0) l1) as [a1|e]; [eauto|].
  by rewrite foldl_bind_Raise in Hf.
Qed.

(** X13. Over the rationals, when [z_bins] has [nzbins + 1] boundaries and
    a reflection's z value lies above the first and not above the last,
    the loop over the z bins gives that reflection the index of a bin: its
    entry is not left at [-1], whatever it held before. *)
Theorem assign_secondbin_index_covers
    (z zb : list Q) (nz : Z) (sb second : list Z) (k : nat) (v lo hi : Q) :
  assign_secondbin_index z zb nz sb = Ok second ->
  z !! k = Some v ->
  zb !! 0 = Some lo -> last zb = Some hi -> length zb = S (Z.to_nat nz) ->
  (lo < v)%Q -> (v <= hi)%Q ->
  exists i, second !! k = Some (Z.of_nat i) /\ i < Z.to_nat nz.
Proof.
  intros Hf Hk Hlo Hhi Hlen Hlt Hle.
  destruct (bins_cover zb v lo hi Hlo Hhi Hlt Hle)
    as (i & a & b & Ha & Hb & Hin).
  assert (i < Z.to_nat nz) as Hi.
  { apply lookup_lt_Some in Hb. lia. }
  unfold assign_secondbin_index in Hf.
  replace (seq 0 (Z.to_nat nz))
    with (seq 0 i ++ [i] ++ seq (S i) (Z.to_nat nz - S i)) in Hf.
  2: { change ([i] ++ seq (S i) (Z.to_nat nz - S i))
         with (seq i (S (Z.to_nat nz - S i))).
       rewrite <- seq_app. f_equal. lia. }
  apply foldl_bind_app_Ok in Hf as (x1 & _ & Hf).
  apply foldl_bind_app_Ok in Hf as (x2 & Hstep & Hf).
  simpl in Hstep. rewrite Nat.add_1_r in Hstep.
  unfold index in Hstep. rewrite Ha, Hb in Hstep. simpl in Hstep.
  assert (x2 !! k = Some (Z.of_nat i)) as Hx2.
  { apply set_selected_Ok in Hstep as [Hl ->].
    rewrite select_variables_in_range_length in Hl.
    destruct (lookup_lt_is_Some_2 x1 k) as [old Hold].
    { rewrite Hl. by eapply lookup_lt_Some. }
    rewrite lookup_zip_with, Hold, select_variables_in_range_lookup, Hk.
    simpl. by rewrite Hin. }
  eapply (foldl_bind_Ok
            (fun x => exists j, x !! k = Some (Z.of_nat j) /\ j < Z.to_nat nz))
    in Hf; [exact Hf | by eauto |].
  clear. intros x j x' Hj%elem_of_seq (j0 & Hx & Hj0) Hstep.
  apply rbind_Ok in Hstep as (lo & _ & Hstep).
  apply rbind_Ok in Hstep as (hi & _ & Hstep).
  apply set_selected_Ok in Hstep as [Hl ->].
  rewrite lookup_zip_with, Hx. simpl.
  destruct (select_variables_in_range z lo hi !! k) as [[]|] eqn:Hsel; simpl.
  - exists j. split; [done|]. lia.
  - by exists j0.
  - apply lookup_ge_None in Hsel. apply lookup_lt_Some in Hx. lia.
Qed.

Lemma assign_secondbin_index_covers_witness :
  exists i, [0%Z; 1%Z] !! 1 = Some (Z.of_nat i) /\ i < Z.to_nat 2.
Proof.
  apply (assign_secondbin_index_covers [1; 3]%Q [0; 2; 4]%Q 2
           [(-1)%Z; (-1)%Z] [0%Z; 1%Z] 1 3%Q 0%Q 4%Q);
    vm_compute; congruence.
Defined.

(** ** Grid extents *)





















(** ** The options a constructor reads *)

Section XDSOptions.
Context {D : Type} `{HD : Double D} `{HL : Libm D} `{HC : Collaborators D}.













End XDSOptions.


(** ** The constructor of the base class *)

Section Init.
Context {D : Type} `{HD : Double D} `{HL : Libm D} `{HC : Collaborators D}.

Lemma same_outside_refl names (t : flex_reflection_table D) :
  same_outside names t t.
Proof. by split. Qed.

Lemma same_outside_trans names (t1 t2 t3 : flex_reflection_table D) :
  same_outside names t1 t2 -> same_outside names t2 t3 ->
  same_outside names t1 t3.
Proof.
  intros [Hn1 Hc1] [Hn2 Hc2]. split; [congruence|].
  intros key Hkey. by rewrite Hc2, Hc1.
Qed.

Lemma same_outside_mono names names' (t t' : flex_reflection_table D) :
  names ⊆ names' -> same_outside names t t' -> same_outside names' t t'.
Proof.
  intros Hsub [Hn Hc]. split; [done|]. intros key Hkey. apply Hc.
  intros Hin. apply Hkey, Hsub, Hin.
Qed.

Lemma setitem_same_outside (t t' : flex_reflection_table D) key c :
  setitem t key c = Ok t' -> same_outside [key] t t'.
Proof.
  intros [_ ->]%setitem_Ok. split; [done|]. intros key' Hkey'. simpl.
  apply lookup_insert_ne. set_solver.
Qed.

Lemma scale_intensities_same_outside intstr (t t' : flex_reflection_table D) :
  scale_intensities intstr t = Ok t' ->
  same_outside ["intensity"; "variance"] t t'.
Proof.
  unfold scale_intensities. intros Hs. inv_steps Hs.
  apply setitem_same_outside in E4, Hs.
  eapply same_outside_trans; eapply same_outside_mono; try eassumption;
    intros ? ?%list_elem_of_In; apply list_elem_of_In; simpl in *; tauto.
Qed.

Lemma select_optimal_intensities_table (self self' : Data_Manager D) :
  select_optimal_intensities self = Ok self' ->
  same_outside ["intensity"; "variance"]
    (reflection_table self) (reflection_table self')
  /\ initial_keys self' = initial_keys self
  /\ experiments self' = experiments self
  /\ sorted_reflections self' = sorted_reflections self.
Proof.
  unfold select_optimal_intensities. intros Hs. inv_bind Hs. inv_bind Hs.
  destruct (a || a0).
  - inv_bind Hs. injection Hs as <-.
    apply scale_intensities_same_outside in E1. done.
  - inv_bind Hs. destruct a1.
    + inv_bind Hs. injection Hs as <-.
      apply scale_intensities_same_outside in E2. done.
    + injection Hs as <-. split; [apply same_outside_refl|done].
Qed.

Lemma select_Ok (t t' : flex_reflection_table D) flags :
  select t flags = Ok t' <->
  length flags = nrows t
  /\ t' = mk_table (length (filter (fun b => b = true) flags))
            ((fun c => col_select_flags c flags) <$> columns t).
Proof.
  unfold select. destruct (Nat.eqb_spec (length flags) (nrows t)); split.
  - by intros [= <-].
  - by intros [_ ->].
  - discriminate.
  - by intros [? _].
Qed.

Lemma select_permutation_Ok (t t' : flex_reflection_table D) permutation :
  select_permutation t permutation = Ok t' <->
  Forall (fun i => i < nrows t) permutation
  /\ t' = mk_table (length permutation)
            ((fun c => col_pick c permutation) <$> columns t).
Proof.
  unfold select_permutation.
  destruct (forallb (fun i => i <? nrows t) permutation) eqn:Hall; split.
  - intros [= <-]. split; [|done]. apply Forall_forall. intros i Hi.
    rewrite forallb_forall in Hall. apply Nat.ltb_lt, Hall.
    by apply list_elem_of_In.
  - by intros [_ ->].
  - discriminate.
  - intros [Hf _]. exfalso.
    assert (forallb (fun i => i <? nrows t) permutation = true); [|congruence].
    apply forallb_forall. intros i Hi. apply Nat.ltb_lt.
    rewrite Forall_forall in Hf. by apply Hf, list_elem_of_In.
Qed.

Lemma map_indices_to_asu_Ok (self : Data_Manager D)
    (t t' sorted : flex_reflection_table D) :
  map_indices_to_asu self t = Ok (t', sorted) ->
  same_outside ["asu_miller_index"] t t'
  /\ exists permuted,
       Forall (fun i => i < nrows t') permuted
       /\ nrows sorted = length permuted
       /\ forall key,
            columns sorted !! key
            = (fun c => col_pick c permuted) <$> columns t' !! key.
Proof.
  unfold map_indices_to_asu. intros Hm. cbv zeta in Hm. inv_steps Hm.
  injection Hm as <- <-.
  split; [by eapply setitem_same_outside|].
  apply select_permutation_Ok in E1 as [Hall ->].
  eexists. split; [exact Hall|]. split; [done|].
  intros key. simpl. by rewrite lookup_fmap.
Qed.

(** X19. When [Data_Manager.__init__] returns, the reflection table it
    keeps has one row per input row that carries both bits of the
    'integrated' flag; [initial_keys] names exactly the columns of the
    input; every column other than the eight the constructor writes is the
    input column restricted to those rows; the scale factors start at 1 and
    the Ih values at 0; and the sorted table is a selection of rows of the
    kept table, column by column. *)
Theorem Data_Manager_init_integrated c reflections experiments
    (scaling_options : gmap string (pyval D)) (self : Data_Manager D) :
  Data_Manager_init c reflections experiments scaling_options = Ok self ->
  exists t0 fl sorted permuted,
    reflections !! 0 = Some t0
    /\ get_size_t t0 "flags" = Ok fl
    /\ length fl = nrows t0
    /\ nrows (reflection_table self)
       = length (filter (fun f => Z.land f integrated = integrated) fl)
    /\ (forall key, key ∈ initial_keys self <-> is_Some (columns t0 !! key))
    /\ (forall key, key ∉ derived_columns ->
          columns (reflection_table self) !! key
          = (fun col =>
               col_select_flags col
                 (map (fun f => Z.land f integrated =? integrated)%Z fl))
              <$> columns t0 !! key)
    /\ get_double (reflection_table self) "inverse_scale_factor"
       = Ok (replicate (nrows (reflection_table self)) (dlit 1))
    /\ get_double (reflection_table self) "Ih_values"
       = Ok (replicate (nrows (reflection_table self)) (dlit 0))
    /\ sorted_reflections self = Some sorted
    /\ nrows sorted = length permuted
    /\ Forall (fun i => i < nrows (reflection_table self)) permuted
    /\ (forall key,
          columns sorted !! key
          = (fun col => col_pick col permuted)
              <$> columns (reflection_table self) !! key).
Proof.
  unfold Data_Manager_init. intros Hi.
  apply rbind_Ok in Hi as (t0 & Ht0%of_option_Ok & Hi).
  apply rbind_Ok in Hi as (flags & Hflags & Hi).
  apply rbind_Ok in Hi as (t1 & Ht1 & Hi). cbv zeta in Hi.
  apply rbind_Ok in Hi as (? & _ & Hi).
  apply rbind_Ok in Hi as (t2 & Ht2 & Hi).
  apply rbind_Ok in Hi as (? & _ & Hi).
  apply rbind_Ok in Hi as (t3 & Ht3 & Hi).
  apply rbind_Ok in Hi as (? & _ & Hi).
  apply rbind_Ok in Hi as (t4 & Ht4 & Hi).
  apply rbind_Ok in Hi as (t5 & Ht5 & Hi).
  apply rbind_Ok in Hi as (t6 & Ht6 & Hi). cbv zeta in Hi.
  apply rbind_Ok in Hi as (s1 & Hs1 & Hi).
  apply rbind_Ok in Hi as ([t7 sorted] & Hm & Hi). cbv zeta in Hi.
  apply rbind_Ok in Hi as (w & _ & Hi).
  injection Hi as <-.
  unfold get_flags in Hflags.
  apply rbind_Ok in Hflags as (fl & Hfl & [= <-]).
  apply select_Ok in Ht1 as [Hlen ->]. rewrite length_map in Hlen.
  apply select_optimal_intensities_table in Hs1 as (Hs1 & Hik & _ & _).
  apply map_indices_to_asu_Ok in Hm as (Hm & permuted & Hall & Hrows & Hcols).
  cbn [reflection_table initial_keys sorted_reflections set_sorted_reflections
       set_reflection_table set_weights_for_scaling] in *.
  pose proof (setitem_nrows _ _ _ _ Ht5) as Hn5.
  pose proof (get_double_setitem _ _ _ _ Ht5) as Hisf.
  pose proof (get_double_setitem _ _ _ _ Ht6) as HIh.
  apply (get_double_setitem_ne _ _ _ "inverse_scale_factor" _ _ Ht6) in Hisf;
    [|done].
  apply setitem_same_outside in Ht2, Ht3, Ht4, Ht5, Ht6.
  assert (same_outside derived_columns
            (mk_table (length (filter (fun b => b = true)
                                 (map (fun f => Z.land f integrated =? integrated)%Z fl)))
               ((fun c => col_select_flags c
                            (map (fun f => Z.land f integrated =? integrated)%Z fl))
                  <$> columns t0))
            t7) as [Hn Hc].
  { repeat (eapply same_outside_trans;
            [|eapply same_outside_mono; [|eassumption];
              intros ? ?%list_elem_of_In; apply list_elem_of_In;
              unfold derived_columns; simpl in *; tauto]).
    apply same_outside_refl. }
  assert (same_outside ["intensity"; "variance"; "asu_miller_index"] t6 t7)
    as [Hn67 Hc67].
  { repeat (eapply same_outside_trans;
            [|eapply same_outside_mono; [|eassumption];
              intros ? ?%list_elem_of_In; apply list_elem_of_In;
              unfold derived_columns; simpl in *; tauto]).
    apply same_outside_refl. }
  exists t0, fl, sorted, permuted.
  split; [done|]. split; [done|]. split; [done|].
  split.
  { rewrite Hn. simpl. clear. induction fl as [|f fl IH]; [done|]. simpl.
    rewrite !filter_cons. destruct (Z.eqb_spec (Z.land f integrated) integrated).
    - rewrite !decide_True by done. simpl. by rewrite IH.
    - rewrite !decide_False by done. done. }
  split.
  { intros key. rewrite Hik. simpl. rewrite elem_of_keys. simpl.
    rewrite lookup_fmap, fmap_is_Some. done. }
  split.
  { intros key Hkey. rewrite Hc by done. simpl. by rewrite lookup_fmap. }
  assert (nrows t7 = nrows t5) as Hn75.
  { destruct Ht6 as [Hn6 _]. congruence. }
  split.
  { rewrite Hn75, Hn5. apply get_double_Ok. rewrite Hc67.
    - by apply get_double_Ok.
    - intros Hin%list_elem_of_In. simpl in Hin.
      destruct Hin as [|[|[|[]]]]; discriminate. }
  split.
  { rewrite Hn75. apply get_double_Ok. rewrite Hc67.
    - by apply get_double_Ok.
    - intros Hin%list_elem_of_In. simpl in Hin.
      destruct Hin as [|[|[|[]]]]; discriminate. }
  done.
Qed.

End Init.

Lemma Data_Manager_init_integrated_witness :
  exists self : Data_Manager Q, nrows (reflection_table self) = 2.
Proof.
  pose (self :=
          get_Ok empty_manager
            (Data_Manager_init (HL := demo_libm_Q)
               (HC := demo_collaborators Q) XDS_Data_Manager
               [generated_refl_partly_integrated] generated_single_exp
               (xds_options "standard"))).
  destruct (Data_Manager_init_integrated (HL := demo_libm_Q)
              (HC := demo_collaborators Q) XDS_Data_Manager
              [generated_refl_partly_integrated] generated_single_exp
              (xds_options "standard") self)
    as (t0 & fl & _ & _ & Ht0 & Hfl & _ & Hn & _);
    [vm_compute; reflexivity|].
  exists self. rewrite Hn.
  injection Ht0 as <-. vm_compute in Hfl. injection Hfl as <-.
  vm_compute. reflexivity.
Defined.

(** ** The choice of intensities *)




(** ** What the constructors leave behind *)

Section Frames.
Context {D : Type} `{HD : Double D} `{HL : Libm D} `{HC : Collaborators D}.

Lemma bin_reflections_decay_frame (self self' : Data_Manager D) :
  bin_reflections_decay self = Ok self' ->
  exists g sorted,
    sf_class g = SmoothScaleFactor_2D
    /\ self' = set_g_decay
                 (set_sorted_reflections
                    (set_components self (components self ++ [g]))
                    (Some sorted))
                 (Some (length (components self))).
Proof.
  unfold bin_reflections_decay. intros Hb. inv_steps Hb.
  injection Hb as <-. eexists _, _. split; [|reflexivity]. reflexivity.
Qed.

Lemma bin_reflections_absorption_frame (self self' : Data_Manager D) :
  bin_reflections_absorption self = Ok self' ->
  exists g sorted,
    sf_class g = SmoothScaleFactor_GridAbsorption
    /\ self' = set_g_absorption
                 (set_sorted_reflections
                    (set_components self (components self ++ [g]))
                    (Some sorted))
                 (Some (length (components self))).
Proof.
  unfold bin_reflections_absorption. intros Hb. inv_steps Hb.
  injection Hb as <-. eexists _, _. split; [|reflexivity]. reflexivity.
Qed.

Lemma bin_reflections_modulation_frame (self self' : Data_Manager D) :
  bin_reflections_modulation self = Ok self' ->
  exists g sorted,
    sf_class g = SmoothScaleFactor_2D
    /\ self' = set_g_modulation
                 (set_sorted_reflections
                    (set_components self (components self ++ [g]))
                    (Some sorted))
                 (Some (length (components self))).
Proof.
  unfold bin_reflections_modulation. intros Hb. inv_steps Hb.
  injection Hb as <-. eexists _, _. split; [|reflexivity]. reflexivity.
Qed.

Lemma select_optimal_intensities_frame (self self' : Data_Manager D) :
  select_optimal_intensities self = Ok self' ->
  exists options t,
    self' = set_reflection_table (set_scaling_options self options) t.
Proof.
  unfold select_optimal_intensities. intros Hs. inv_bind Hs. inv_bind Hs.
  destruct (a || a0).
  - inv_bind Hs. injection Hs as <-. exists (scaling_options self). eexists.
    by destruct self.
  - inv_bind Hs. destruct a1.
    + inv_bind Hs. injection Hs as <-. eexists _, _. reflexivity.
    + injection Hs as <-.
      exists (scaling_options self), (reflection_table self).
      by destruct self.
Qed.

Lemma Data_Manager_init_frame c reflections experiments
    (scaling_options : gmap string (pyval D)) (self : Data_Manager D) :
  Data_Manager_init c reflections experiments scaling_options = Ok self ->
  exists t initial_keys sorted options w,
    self = mk_Data_Manager c experiments t initial_keys (Some sorted) None
             options (Some w) ∅ [] None None None None None None None None
             [] None None None None None None.
Proof.
  unfold Data_Manager_init. intros Hi.
  do 11 (apply rbind_Ok in Hi as (? & _ & Hi); cbv zeta in Hi).
  apply rbind_Ok in Hi as (s1 & Hs1 & Hi).
  apply rbind_Ok in Hi as ([t sorted] & _ & Hi). cbv zeta in Hi.
  apply rbind_Ok in Hi as (w & Hw & Hi).
  injection Hi as <-.
  apply select_optimal_intensities_frame in Hs1 as (options & t' & ->).
  eexists _, _, _, _, _. reflexivity.
Qed.

Lemma update_weights_for_scaling_ext (a b : Data_Manager D) t :
  scaling_options a = scaling_options b ->
  update_weights_for_scaling a t = update_weights_for_scaling b t.
Proof. unfold update_weights_for_scaling. by intros ->. Qed.

Lemma extract_reflections_for_scaling_Ok (self : Data_Manager D) t rfs w :
  extract_reflections_for_scaling self t = Ok (rfs, w) ->
  exists w0,
    update_weights_for_scaling self t = Ok w0
    /\ select t (map (fun x => dltb (dlit 0) x) w0) = Ok rfs
    /\ update_weights_for_scaling self rfs = Ok w.
Proof.
  unfold extract_reflections_for_scaling. intros He.
  apply rbind_Ok in He as (w0 & Hw0 & He). cbv zeta in He.
  apply rbind_Ok in He as (rfs' & Hsel & He).
  apply rbind_Ok in He as (w' & Hw & He).
  injection He as <- <-. eauto.
Qed.

End Frames.

Section XDSInitSpec.
Context {D : Type} `{HD : Double D} `{HL : Libm D} `{HC : Collaborators D}.

(** X21. When [XDS_Data_Manager.__init__] returns, [g_absorption],
    [g_modulation] and [g_decay] are three different scale-factor objects
    of the classes [SmoothScaleFactor_GridAbsorption], [SmoothScaleFactor_2D]
    and [SmoothScaleFactor_2D], and [g_parameterisation] names these same
    objects; the reflections for scaling are the rows of the sorted table
    with a positive weight, and the weights kept are those computed again on
    that selection; each component holds the normalised coordinates of the
    reflections for scaling, not of the sorted table; the Ih table is built
    from those reflections and weights; no parameterisation is active
    yet. *)
Theorem XDS_Data_Manager_init_spec reflections experiments
    (scaling_options : gmap string (pyval D)) (self : Data_Manager D) :
  XDS_Data_Manager_init reflections experiments scaling_options = Ok self ->
  exists ra rm rd ga gm gd sorted rfs w w0 T,
    g_absorption self = Some ra /\ g_modulation self = Some rm
    /\ g_decay self = Some rd
    /\ ra <> rm /\ ra <> rd /\ rm <> rd
    /\ g_parameterisation self
       = Some [("g_absorption", ra); ("g_modulation", rm); ("g_decay", rd)]
    /\ components self !! ra = Some ga /\ components self !! rm = Some gm
    /\ components self !! rd = Some gd
    /\ sf_class ga = SmoothScaleFactor_GridAbsorption
    /\ sf_class gm = SmoothScaleFactor_2D
    /\ sf_class gd = SmoothScaleFactor_2D
    /\ sorted_reflections self = Some sorted
    /\ reflections_for_scaling self = Some rfs
    /\ weights_for_scaling self = Some w
    /\ update_weights_for_scaling self sorted = Ok w0
    /\ select sorted (map (fun x => dltb (dlit 0) x) w0) = Ok rfs
    /\ update_weights_for_scaling self rfs = Ok w
    /\ Forall2 (fun name v => get_double rfs name = Ok v)
         ["normalised_x_abs_values"; "normalised_y_abs_values";
          "normalised_time_values"] (normalised_values ga)
    /\ Forall2 (fun name v => get_double rfs name = Ok v)
         ["normalised_x_values"; "normalised_y_values"] (normalised_values gm)
    /\ Forall2 (fun name v => get_double rfs name = Ok v)
         ["normalised_res_values"; "normalised_time_values"]
         (normalised_values gd)
    /\ Ih_table self = Some T /\ new_single_Ih_table rfs w = Ok T
    /\ active_parameterisation self = None
    /\ constant_g_values self = None.
Proof.
  unfold XDS_Data_Manager_init, XDS_initialise_scale_factors. intros Hi.
  apply rbind_Ok in Hi as (s0 & Hs0 & Hi). cbv zeta in Hi.
  apply rbind_Ok in Hi as (s3 & Hs3 & Hi).
  apply rbind_Ok in Hs3 as (s1 & Hs1 & Hs3).
  apply rbind_Ok in Hs3 as (s2 & Hs2 & Hs3).
  apply Data_Manager_init_frame in Hs0 as (t & ik & sorted0 & opts & w1 & ->).
  apply bin_reflections_decay_frame in Hs1 as (gd & sorted1 & Hgd & ->).
  apply bin_reflections_absorption_frame in Hs2 as (ga & sorted2 & Hga & ->).
  apply bin_reflections_modulation_frame in Hs3 as (gm & sorted3 & Hgm & ->).
  apply rbind_Ok in Hi as (sorted & Hsorted & Hi).
  cbn in Hsorted. injection Hsorted as <-.
  apply rbind_Ok in Hi as ([outliers sorted'] & _ & Hi).
  apply rbind_Ok in Hi as (sorted4 & _ & Hi). cbv zeta in Hi.
  apply rbind_Ok in Hi as ([rfs w] & Hex & Hi). cbv zeta in Hi.
  apply rbind_Ok in Hi as (T & HT & Hi). cbv zeta in Hi.
  apply rbind_Ok in Hi as (s4 & H4 & Hi).
  apply rbind_Ok in Hi as (s5 & H5 & Hi).
  apply rbind_Ok in Hi as (s6 & H6 & Hi).
  apply extract_reflections_for_scaling_Ok in Hex as (w0 & Hw0 & Hsel & Hw).
  apply call_set_normalised_values_Ok in H4
    as (i & g & vm & Hr & Hg & Hvm & ->).
  cbn in Hr, Hg. injection Hr as <-. injection Hg as <-.
  apply call_set_normalised_values_Ok in H5
    as (i & g & vd & Hr & Hg & Hvd & ->).
  cbn in Hr, Hg. injection Hr as <-. injection Hg as <-.
  apply call_set_normalised_values_Ok in H6
    as (i & g & va & Hr & Hg & Hva & ->).
  cbn in Hr, Hg. injection Hr as <-. injection Hg as <-.
  cbn in Hi. injection Hi as <-.
  exists 1, 2, 0.
  exists (set_normalised_values ga va), (set_normalised_values gm vm),
    (set_normalised_values gd vd), sorted4, rfs, w, w0, T.
  split; [reflexivity|]. split; [reflexivity|]. split; [reflexivity|].
  split; [lia|]. split; [lia|]. split; [lia|].
  split; [reflexivity|].
  split; [reflexivity|]. split; [reflexivity|]. split; [reflexivity|].
  split; [exact Hga|]. split; [exact Hgm|]. split; [exact Hgd|].
  split; [reflexivity|]. split; [reflexivity|]. split; [reflexivity|].
  split.
  { eapply eq_trans; [|exact Hw0].
    apply update_weights_for_scaling_ext. cbn. reflexivity. }
  split; [exact Hsel|].
  split.
  { eapply eq_trans; [|exact Hw].
    apply update_weights_for_scaling_ext. cbn. reflexivity. }
  split; [exact Hva|]. split; [exact Hvm|]. split; [exact Hvd|].
  split; [reflexivity|]. split; [exact HT|]. split; reflexivity.
Qed.

End XDSInitSpec.

Lemma XDS_Data_Manager_init_spec_witness :
  exists ra rm rd : nat, ra <> rm /\ ra <> rd /\ rm <> rd.
Proof.
  destruct (XDS_Data_Manager_init_spec (HL := demo_libm_Q)
              (HC := demo_collaborators Q) [generated_refl]
              generated_single_exp (xds_options "standard")
              (fixture_XDS_manager "standard"))
    as (ra & rm & rd & _ & _ & _ & _ & _ & _ & _ & _ & _ & _ & _
        & H1 & H2 & H3 & _);
    [vm_compute; reflexivity|].
  exists ra, rm, rd. exact (conj H1 (conj H2 H3)).
Defined.

Section AimlessInitSpec.
Context {D : Type} `{HD : Double D} `{HL : Libm D} `{HC : Collaborators D}.

Lemma initialise_scale_term_frame (self self' : Data_Manager D) :
  initialise_scale_term self = Ok self' ->
  exists n n0 values sorted,
    n_active_params self = Some n0
    /\ self' = set_n_active_params
                 (set_g_scale
                    (set_sorted_reflections
                       (set_components self
                          (components self
                           ++ [set_normalised_values
                                 (new_ScaleFactor SmoothScaleFactor_1D
                                    (dlit 1) [n]) [values]]))
                       (Some sorted))
                    (Some (length (components self))))
                 (Some (n0 + n)%Z).
Proof.
  unfold initialise_scale_term. intros Hb. cbv zeta in Hb. inv_steps Hb.
  injection Hb as <-. eexists _, _, _, _. split; [|reflexivity].
  match goal with E : attr _ = Ok ?n |- _ = Some ?m =>
    unify n m; apply attr_Ok in E; exact E end.
Qed.

Lemma initialise_decay_term_frame (self self' : Data_Manager D) :
  initialise_decay_term self = Ok self' ->
  exists n n0 values sorted,
    n_active_params self = Some n0
    /\ self' = set_n_active_params
                 (set_g_decay
                    (set_sorted_reflections
                       (set_components self
                          (components self
                           ++ [set_normalised_values
                                 (new_ScaleFactor SmoothScaleFactor_1D
                                    (dlit 0) [n]) [values]]))
                       (Some sorted))
                    (Some (length (components self))))
                 (Some (n0 + n)%Z).
Proof.
  unfold initialise_decay_term. intros Hb. cbv zeta in Hb. inv_steps Hb.
  injection Hb as <-. eexists _, _, _, _. split; [|reflexivity].
  match goal with E : attr _ = Ok ?n |- _ = Some ?m =>
    unify n m; apply attr_Ok in E; exact E end.
Qed.

(** X22. When [aimless_Data_Manager.__init__] returns, [g_scale] and
    [g_decay] are two different [SmoothScaleFactor_1D] objects with [ns]
    and [nd] parameters, all 1 for the scale term and all 0 for the decay
    term; [n_active_params] is [ns + nd] and [active_parameters] is the
    parameters of the scale term followed by those of the decay term; each
    component holds the normalised coordinate of the reflections for
    scaling; and the constructor sets no absorption component, no
    [g_parameterisation] and no Ih table. *)
Theorem aimless_Data_Manager_init_spec reflections experiments
    (scaling_options : gmap string (pyval D)) (self : Data_Manager D) :
  aimless_Data_Manager_init reflections experiments scaling_options = Ok self ->
  exists rs rd gs gd ns nd rfs angles times,
    g_scale self = Some rs /\ g_decay self = Some rd /\ rs <> rd
    /\ components self !! rs = Some gs /\ components self !! rd = Some gd
    /\ sf_class gs = SmoothScaleFactor_1D
    /\ sf_class gd = SmoothScaleFactor_1D
    /\ n_parameters gs = [ns] /\ n_parameters gd = [nd]
    /\ n_active_params self = Some (ns + nd)%Z
    /\ scale_factors gs = replicate (Z.to_nat ns) (dlit 1)
    /\ scale_factors gd = replicate (Z.to_nat nd) (dlit 0)
    /\ active_parameters self = scale_factors gs ++ scale_factors gd
    /\ reflections_for_scaling self = Some rfs
    /\ get_double rfs "normalised_rotation_angle" = Ok angles
    /\ normalised_values gs = [angles]
    /\ get_double rfs "normalised_time_values" = Ok times
    /\ normalised_values gd = [times]
    /\ g_absorption self = None /\ g_parameterisation self = None
    /\ Ih_table self = None.
Proof.
  unfold aimless_Data_Manager_init, aimless_initialise_scale_factors.
  intros Hi.
  apply rbind_Ok in Hi as (s0 & Hs0 & Hi). cbv zeta in Hi.
  apply rbind_Ok in Hi as (s3 & Hs3 & Hi).
  apply rbind_Ok in Hs3 as (s1 & Hs1 & Hs3).
  apply rbind_Ok in Hs3 as (s2 & Hs2 & Hs3).
  apply Data_Manager_init_frame in Hs0 as (t & ik & sorted0 & opts & w1 & ->).
  apply initialise_scale_term_frame in Hs1
    as (ns & n0 & vs & sorted1 & Hn0 & ->).
  cbn in Hn0. injection Hn0 as <-.
  apply initialise_decay_term_frame in Hs2
    as (nd & n1 & vd & sorted2 & Hn1 & ->).
  cbn in Hn1. injection Hn1 as <-.
  cbn in Hs3. injection Hs3 as <-.
  apply rbind_Ok in Hi as (sorted & Hsorted & Hi).
  cbn in Hsorted. injection Hsorted as <-.
  apply rbind_Ok in Hi as ([outliers sorted'] & _ & Hi).
  apply rbind_Ok in Hi as (sorted4 & _ & Hi). cbv zeta in Hi.
  apply rbind_Ok in Hi as ([rfs w] & _ & Hi). cbv zeta in Hi.
  apply rbind_Ok in Hi as (s4 & H4 & Hi).
  apply call_set_normalised_values_Ok in H4
    as (i & g & va & Hr & Hg & Hva & ->).
  cbn in Hr, Hg. injection Hr as <-. injection Hg as <-.
  apply call_set_normalised_values_Ok in Hi
    as (i & g & vt & Hr & Hg & Hvt & ->).
  cbn in Hr, Hg. injection Hr as <-. injection Hg as <-.
  apply Forall2_cons_inv_l in Hva as (angles & ? & Hang & ->%Forall2_nil_inv_l & ->).
  apply Forall2_cons_inv_l in Hvt as (times & ? & Htim & ->%Forall2_nil_inv_l & ->).
  exists 0, 1. eexists _, _. exists ns, nd, rfs, angles, times.
  split; [reflexivity|]. split; [reflexivity|]. split; [lia|].
  split; [reflexivity|]. split; [reflexivity|].
  split; [reflexivity|]. split; [reflexivity|].
  split; [reflexivity|]. split; [reflexivity|].
  split; [cbn; f_equal; lia|].
  split; [cbn; f_equal; f_equal; lia|]. split; [cbn; f_equal; f_equal; lia|].
  split; [reflexivity|]. split; [reflexivity|].
  split; [exact Hang|]. split; [reflexivity|].
  split; [exact Htim|]. split; [reflexivity|].
  split; [reflexivity|]. split; reflexivity.
Qed.

End AimlessInitSpec.

Lemma aimless_Data_Manager_init_spec_witness :
  exists rs rd : nat, rs <> rd.
Proof.
  destruct (aimless_Data_Manager_init_spec (HL := demo_libm_Q)
              (HC := demo_collaborators Q) [generated_refl]
              generated_single_exp (xds_options "standard")
              (get_Ok empty_manager
                 (aimless_Data_Manager_init (HL := demo_libm_Q)
                    (HC := demo_collaborators Q) [generated_refl]
                    generated_single_exp (xds_options "standard"))))
    as (rs & rd & _ & _ & _ & _ & _ & _ & _ & _ & _ & Hne & _);
    [vm_compute; reflexivity|].
  exists rs, rd. exact Hne.
Defined.

(** ** The aimless scale of every reflection *)

Section AimlessExpand.
Context {D : Type} `{HD : Double D} `{HL : Libm D} `{HC : Collaborators D}.

(** X23. When the statements of the aimless
    [expand_scales_to_all_reflections] that come before its call of
    [assign_h_index] succeed, the ['inverse_scale_factor'] column of the
    sorted table is, per reflection, the value of the scale component times
    [exp(b / (2 d^2))], with [b] the value of the decay component, both
    taken at the coordinates of the sorted table; the method itself then
    raises [AttributeError], as the class has no [assign_h_index]. *)
Theorem aimless_expand_scales_composes (self expanded : Data_Manager D) :
  aimless_expand_scales self = Ok expanded ->
  exists sorted sorted' js jd gs gd angles times d isf,
    sorted_reflections self = Some sorted
    /\ g_scale self = Some js /\ components self !! js = Some gs
    /\ g_decay self = Some jd /\ components self !! jd = Some gd
    /\ get_double sorted "normalised_rotation_angle" = Ok angles
    /\ get_double sorted "normalised_time_values" = Ok times
    /\ get_double sorted "d" = Ok d
    /\ sorted_reflections expanded = Some sorted'
    /\ get_double sorted' "inverse_scale_factor" = Ok isf
    /\ (let angular :=
          smooth_scales (sf_class gs) (n_parameters gs) (scale_factors gs)
            [angles] in
        let b_factors :=
          smooth_scales (sf_class gd) (n_parameters gd) (scale_factors gd)
            [times] in
        length b_factors = length d
        /\ length angular = length d
        /\ isf = zip_with dmul angular
                   (map dexp
                      (zip_with ddiv b_factors
                         (map (fun x => dmul (dlit 2) (dsq x)) d))))
    /\ aimless_expand_scales_to_all_reflections self = Raise AttributeError.
Proof.
  intros Hexp. pose proof Hexp as Hexp'.
  unfold aimless_expand_scales in Hexp.
  apply rbind_Ok in Hexp as (sorted & Hsorted%attr_Ok & Hexp).
  apply rbind_Ok in Hexp as (s1 & Hset1 & Hexp).
  apply rbind_Ok in Hexp as ([s2 angular] & Hcalc1 & Hexp).
  apply rbind_Ok in Hexp as (sorted1 & Hsorted1 & Hexp).
  apply rbind_Ok in Hexp as (s3 & Hset2 & Hexp).
  apply rbind_Ok in Hexp as ([s4 b_factors] & Hcalc2 & Hexp).
  apply rbind_Ok in Hexp as (d & Hd & Hexp).
  apply rbind_Ok in Hexp as (e & He & Hexp).
  apply rbind_Ok in Hexp as (sorted2 & Hsorted2 & Hexp).
  apply rbind_Ok in Hexp as (angular' & Hangular & Hexp).
  apply rbind_Ok in Hexp as (decay & Hdecay & Hexp).
  apply rbind_Ok in Hexp as (isf & Hisf & Hexp).
  apply rbind_Ok in Hexp as (sorted3 & Hsorted3 & Hexp). cbv zeta in Hexp.
  apply rbind_Ok in Hexp as (w & _ & Hexp).
  injection Hexp as <-.
  assert (g_scale s1 = g_scale self) as Hm1.
  { by apply call_set_normalised_values_Ok in Hset1
      as (? & ? & ? & _ & _ & _ & ->). }
  rewrite Hm1 in Hcalc1.
  destruct (set_then_calculate (components self) self s1 s2 _ _ _ _
              (grids_kept_refl _) Hset1 Hcalc1)
    as (js & gs & cols1 & Hjs & Hgs & Hcols1 & -> & Hk2 & Hs2).
  assert (g_decay s3 = g_decay s2) as Hd3.
  { by apply call_set_normalised_values_Ok in Hset2
      as (? & ? & ? & _ & _ & _ & ->). }
  rewrite Hd3 in Hcalc2.
  destruct (set_then_calculate (components self) s2 s3 s4 _ _ _ _
              Hk2 Hset2 Hcalc2)
    as (jd & gd & cols2 & Hjd & Hgd & Hcols2 & -> & Hk4 & Hs4).
  rewrite Hs2 in Hjd. simpl in Hjd.
  apply Forall2_cons_inv_l in Hcols1 as (angles & ? & Hangles & Hcols1 & ->).
  apply Forall2_nil_inv_l in Hcols1 as ->.
  apply Forall2_cons_inv_l in Hcols2 as (times & ? & Htimes & Hcols2 & ->).
  apply Forall2_nil_inv_l in Hcols2 as ->.
  apply (get_double_setitem_ne _ _ _ _ _ _ Hsorted1) in Htimes; [|done].
  apply (get_double_setitem_ne _ _ _ _ _ _ Hsorted1) in Hd; [|done].
  apply (get_double_setitem_ne _ _ _ _ _ _ Hsorted2) in Hangular; [|done].
  pose proof (get_double_setitem _ _ _ _ Hsorted1) as Hangular'.
  assert (angular' = smooth_scales (sf_class gs) (n_parameters gs)
                       (scale_factors gs) [angles]) as -> by congruence.
  pose proof (get_double_setitem _ _ _ _ Hsorted2) as Hdecay'.
  assert (decay = map dexp e) as -> by congruence.
  apply flex_zip_Ok in He as [Hl1 ->]. apply flex_zip_Ok in Hisf as [Hl2 ->].
  rewrite length_map in Hl1. rewrite length_map, length_zip_with in Hl2.
  rewrite length_map in Hl2.
  exists sorted, sorted3, js, jd, gs, gd, angles, times, d. eexists.
  split; [done|]. split; [done|]. split; [done|]. split; [done|].
  split; [done|]. split; [done|]. split; [done|]. split; [done|].
  split; [done|].
  split; [by eapply get_double_setitem|].
  split; [split; [done|]; split; [lia|done]|].
  unfold aimless_expand_scales_to_all_reflections. by rewrite Hexp'.
Qed.

End AimlessExpand.

Lemma aimless_expand_scales_composes_witness :
  exists isf d : list Q, length isf = length d.
Proof.
  pose (self :=
          get_Ok empty_manager
            (aimless_Data_Manager_init (HL := demo_libm_Q)
               (HC := demo_collaborators Q) [generated_refl]
               generated_single_exp (xds_options "standard"))).
  destruct (aimless_expand_scales_composes (HL := demo_libm_Q)
              (HC := demo_collaborators Q) self
              (get_Ok empty_manager
                 (aimless_expand_scales (HL := demo_libm_Q)
                    (HC := demo_collaborators Q) self)))
    as (? & ? & ? & ? & ? & ? & ? & ? & d & isf & _ & _ & _ & _ & _ & _ & _
        & _ & _ & _ & (Hlb & Hla & Hisf) & _);
    [vm_compute; reflexivity|].
  exists isf, d.
  rewrite Hisf, length_zip_with, length_map, length_zip_with, length_map.
  rewrite Hla, Hlb. lia.
Defined.
